(** * updateHostsFile.py: the merge / normalize / dedupe / exclude pass

    A shallow embedding of the pure core of [updateHostsFile.py]
    ([removeDupsAndExcl], [normalizeRule], [stripRule], [excludeDomain],
    [matchesExclusions] and the static part of [writeOpeningHeader]) and the
    properties of the natural-language specification that concern it.

    Text is modelled as [string] over 7-bit characters, which is what hosts
    files hold: on the codes above 127 the character classes below are
    empty and [lower] is the identity. A line is the text that
    [line.decode("UTF-8")] returns; the classes are those of Python 3, where
    [str.split], [str.isspace] and [\s] agree. On text that is not 7-bit
    Python takes more characters for white space, letters and digits, and
    [str.lower] changes more of them: a statement below that carries
    [isascii] is about 7-bit text. *)

From Stdlib Require Import Ascii String ZArith Bool Lia DecimalString.
From stdpp Require Import base option list gmap strings sorting.

(** ** Characters: the classes of Python's [str] methods and of [re] *)

Module Char.

Definition code (c : ascii) : N := N_of_ascii c.

Definition between (lo hi : N) (c : ascii) : bool :=
  (lo <=? code c)%N && (code c <=? hi)%N.

(** [str.isspace], which is also what [\s] matches and what [str.split()]
    splits on. *)
Definition isspace (c : ascii) : bool :=
  between 9 13 c || between 28 32 c.

(** [\d] *)
Definition isdigit (c : ascii) : bool := between 48 57 c.

Definition isupper (c : ascii) : bool := between 65 90 c.
Definition islower (c : ascii) : bool := between 97 122 c.

(** [[a-zA-Z]] *)
Definition isalpha (c : ascii) : bool := isupper c || islower c.

(** [\w] *)
Definition isword (c : ascii) : bool :=
  isalpha c || isdigit c || Ascii.eqb c "_"%char.

(** [str.lower] on one character *)
Definition lower (c : ascii) : ascii :=
  if isupper c then ascii_of_N (code c + 32) else c.

(** the line terminator *)
Definition nl : ascii := "010"%char.

(** [.] of [re] without [DOTALL]: anything but a newline *)
Definition notnl (c : ascii) : bool := negb (Ascii.eqb c nl).

(** the characters with a meaning of their own in a pattern *)
Definition ismeta (c : ascii) : bool :=
  match c with
  | "." | "\" | "^" | "$" | "*" | "+" | "?"
  | "{" | "}" | "[" | "]" | "(" | ")" | "|" => true
  | _ => false
  end%char.

End Char.

(** ** Strings: the [str] methods the pass uses *)

Module Str.

Definition is_empty (s : string) : bool :=
  match s with EmptyString => true | String _ _ => false end.

Fixpoint forallb (p : ascii -> bool) (s : string) : bool :=
  match s with
  | EmptyString => true
  | String c s' => p c && forallb p s'
  end.

Fixpoint map (f : ascii -> ascii) (s : string) : string :=
  match s with
  | EmptyString => EmptyString
  | String c s' => String (f c) (map f s')
  end.

(** the longest prefix of [s] whose characters satisfy [p], and the rest:
    what a greedy [[class]*] consumes *)
Fixpoint span (p : ascii -> bool) (s : string) : string * string :=
  match s with
  | EmptyString => (EmptyString, EmptyString)
  | String c s' =>
      if p c then let '(a, b) := span p s' in (String c a, b)
      else (EmptyString, s)
  end.

(** the text is empty or starts outside the class: a greedy repetition of
    the class stops in front of it *)
Definition stops (p : ascii -> bool) (s : string) : bool :=
  match s with
  | EmptyString => true
  | String c _ => negb (p c)
  end.

(** [s.lstrip(chars)] *)
Definition lstrip (p : ascii -> bool) (s : string) : string := snd (span p s).

(** [s.rstrip(chars)] *)
Fixpoint rstrip (p : ascii -> bool) (s : string) : string :=
  match s with
  | EmptyString => EmptyString
  | String c s' =>
      let r := rstrip p s' in
      if is_empty r && p c then EmptyString else String c r
  end.

(** [s.strip(chars)] *)
Definition strip (p : ascii -> bool) (s : string) : string :=
  rstrip p (lstrip p s).

(** [s.lower()] *)
Definition lower (s : string) : string := map Char.lower s.

(** [s.startswith(t)] *)
Definition startswith (s t : string) : bool := String.prefix t s.

(** [t in s] *)
Fixpoint contains (s t : string) : bool :=
  startswith s t ||
  match s with
  | EmptyString => false
  | String _ s' => contains s' t
  end.

(** [s.split()]: the maximal runs of non-space characters, in order.
    [tok] is the run being read. *)
Fixpoint split_go (tok : string) (s : string) : list string :=
  match s with
  | EmptyString => if is_empty tok then [] else [tok]
  | String c s' =>
      if Char.isspace c
      then (if is_empty tok then [] else [tok]) ++ split_go EmptyString s'
      else split_go (tok +:+ String c EmptyString) s'
  end.

Definition split (s : string) : list string := split_go EmptyString s.

(** a text without white space *)
Definition nospace (s : string) : bool :=
  forallb (fun c => negb (Char.isspace c)) s.

(** [line.replace("\t+", " ")]: the needle is the two characters tab and
    plus (no pattern is involved), replaced left to right. *)
Fixpoint replace_tab_plus (s : string) : string :=
  match s with
  | EmptyString => EmptyString
  | String "009"%char (String "+"%char s') => String " "%char (replace_tab_plus s')
  | String c s' => String c (replace_tab_plus s')
  end.

(** [f.readlines()] of a file opened in binary mode: every line keeps its
    newline, and only the last one may lack it. *)
Fixpoint readlines_go (cur : string) (s : string) : list string :=
  match s with
  | EmptyString => if is_empty cur then [] else [cur]
  | String c s' =>
      if Ascii.eqb c Char.nl
      then (cur +:+ String c EmptyString) :: readlines_go EmptyString s'
      else readlines_go (cur +:+ String c EmptyString) s'
  end.

Definition readlines (s : string) : list string := readlines_go EmptyString s.

End Str.

(** A line of text with its terminator. *)
Definition ln (s : string) : string := s +:+ String Char.nl EmptyString.

(** ** Patterns: the fragment of [re] the pass uses

    A pattern is kept as its syntax tree. [search] decides whether
    [pattern.search(s)] finds a match, which is all [matchesExclusions] asks;
    it follows the derivatives of the pattern along the text. *)

Module Re.

Inductive regex : Type :=
| Void                          (* matches nothing *)
| Eps                           (* the empty pattern *)
| Class (p : ascii -> bool)     (* one character of a class *)
| Cat (r1 r2 : regex)           (* r1 r2 *)
| Alt (r1 r2 : regex)           (* r1 | r2 *)
| Star (r : regex).             (* r* and r{0,} *)

(** [r+] *)
Definition Plus (r : regex) : regex := Cat r (Star r).

(** a literal character *)
Definition Lit (c : ascii) : regex := Class (Ascii.eqb c).

(** [.] *)
Definition Dot : regex := Class Char.notnl.

(** the language of a pattern *)
Inductive matches : regex -> string -> Prop :=
| m_eps : matches Eps EmptyString
| m_class p c : p c = true -> matches (Class p) (String c EmptyString)
| m_cat r1 r2 s1 s2 :
    matches r1 s1 -> matches r2 s2 -> matches (Cat r1 r2) (s1 +:+ s2)
| m_alt_l r1 r2 s : matches r1 s -> matches (Alt r1 r2) s
| m_alt_r r1 r2 s : matches r2 s -> matches (Alt r1 r2) s
| m_star_nil r : matches (Star r) EmptyString
| m_star_cons r s1 s2 :
    matches r s1 -> matches (Star r) s2 -> matches (Star r) (s1 +:+ s2).

Fixpoint nullable (r : regex) : bool :=
  match r with
  | Void => false
  | Eps => true
  | Class _ => false
  | Cat r1 r2 => nullable r1 && nullable r2
  | Alt r1 r2 => nullable r1 || nullable r2
  | Star _ => true
  end.

Fixpoint deriv (c : ascii) (r : regex) : regex :=
  match r with
  | Void => Void
  | Eps => Void
  | Class p => if p c then Eps else Void
  | Cat r1 r2 =>
      if nullable r1 then Alt (Cat (deriv c r1) r2) (deriv c r2)
      else Cat (deriv c r1) r2
  | Alt r1 r2 => Alt (deriv c r1) (deriv c r2)
  | Star r1 => Cat (deriv c r1) (Star r1)
  end.

(** does the pattern match at the start of [s] (some prefix of [s] is in
    its language)? *)
Fixpoint match_here (r : regex) (s : string) : bool :=
  nullable r ||
  match s with
  | EmptyString => false
  | String c s' => match_here (deriv c r) s'
  end.

(** [r.search(s)] finds a match: the pattern matches at some position *)
Fixpoint search (r : regex) (s : string) : bool :=
  match_here r s ||
  match s with
  | EmptyString => false
  | String _ s' => search r s'
  end.

(** The pattern a domain name stands for when it is pasted into a pattern
    as it is: [.] is the wildcard and any other character stands for
    itself. A text holding another special character is a pattern of its
    own, outside this fragment: [None]. *)
Fixpoint of_domain (d : string) : option regex :=
  match d with
  | EmptyString => Some Eps
  | String c d' =>
      if Ascii.eqb c "."%char then Cat Dot <$> of_domain d'
      else if Char.ismeta c then None
      else Cat (Lit c) <$> of_domain d'
  end.

(** what [re.escape(d)] would stand for: every character itself *)
Fixpoint of_literal (d : string) : regex :=
  match d with
  | EmptyString => Eps
  | String c d' => Cat (Lit c) (of_literal d')
  end.

End Re.

(** ** The settings *)

(** The entries of the [settings] dictionary the pass reads or writes. *)
Record Settings : Type := mkSettings {
  numberofrules : Z;
  skipstatichosts : bool;
  keepdomaincomments : bool;
  extensions : list string;
  outputsubfolder : string;
  targetip : string;
  exclusionregexs : list Re.regex;
  exclusions : list string
}.

(** [[a-zA-Z\d-]], the characters of a sub-domain label *)
Definition labelchar (c : ascii) : bool :=
  Char.isalpha c || Char.isdigit c || Ascii.eqb c "-"%char.

(** [defaults["exclusionpattern"]], the text [([a-zA-Z\d-]+\.){0,}] *)
Definition exclusionpattern : Re.regex :=
  Re.Star (Re.Cat (Re.Plus (Re.Class labelchar)) (Re.Lit "."%char)).

Definition defaults : Settings := {|
  numberofrules := 0;
  skipstatichosts := false;
  keepdomaincomments := false;
  extensions := [];
  outputsubfolder := EmptyString;
  targetip := "0.0.0.0";
  exclusionregexs := [];
  exclusions := []
|}.

Definition set_exclusionregexs (S : Settings) (l : list Re.regex) : Settings :=
  mkSettings (numberofrules S) (skipstatichosts S) (keepdomaincomments S)
    (extensions S) (outputsubfolder S) (targetip S) l (exclusions S).

Definition set_exclusions (S : Settings) (l : list string) : Settings :=
  mkSettings (numberofrules S) (skipstatichosts S) (keepdomaincomments S)
    (extensions S) (outputsubfolder S) (targetip S) (exclusionregexs S) l.

Definition set_numberofrules (S : Settings) (n : Z) : Settings :=
  mkSettings n (skipstatichosts S) (keepdomaincomments S)
    (extensions S) (outputsubfolder S) (targetip S) (exclusionregexs S)
    (exclusions S).

(** ** Exclusion logic *)

(** [excludeDomain]: the pattern is the text of [exclusionpattern] followed
    by the text of [domain], compiled; the domain is pasted as it is. *)
Definition excludeDomain (S : Settings) (domain : string) : option Settings :=
  r ← Re.of_domain domain;
  Some (set_exclusionregexs S (exclusionregexs S ++ [Re.Cat exclusionpattern r])).

(** [matchesExclusions]; [None] is the [IndexError] of [split()[1]]. *)
Definition matchesExclusions (S : Settings) (strippedRule : string) : option bool :=
  strippedDomain ← Str.split strippedRule !! 1%nat;
  Some (existsb (fun exclusionRegex => Re.search exclusionRegex strippedDomain)
          (exclusionregexs S)).

(** ** Rules *)

(** [stripRule] *)
Definition stripRule (line : string) : string :=
  match Str.split line with
  | t0 :: t1 :: _ => t0 +:+ " " +:+ t1
  | _ => EmptyString
  end.

(** The match of the pattern of [normalizeRule]: at the start of the text,
    blanks [[ \t]] (any number), group 1 [\d+\.\d+\.\d+\.\d+], spaces [\s+],
    group 2 [[\w\.-]+], and group 3, the rest of the line.

    Every repetition is greedy, and what follows a repetition starts with a
    character outside its class (or, for the last group, may be empty), so
    the first attempt of the matcher is the only one that can succeed:
    each repetition takes the longest run. [search] is that attempt;
    [lemma search_pattern] and [lemma search_groups] relate it to the
    pattern. *)
Module RulePattern.

(** [[class]+] *)
Definition many1 (p : ascii -> bool) (s : string) : option (string * string) :=
  let '(a, b) := Str.span p s in
  if Str.is_empty a then None else Some (a, b).

(** one given character *)
Definition expect (c : ascii) (s : string) : option string :=
  match s with
  | String c' s' => if Ascii.eqb c c' then Some s' else None
  | EmptyString => None
  end.

(** [[ \t]] *)
Definition blank (c : ascii) : bool :=
  Ascii.eqb c " "%char || Ascii.eqb c "009"%char.

(** [[\w\.-]] *)
Definition hostchar (c : ascii) : bool :=
  Char.isword c || Ascii.eqb c "."%char || Ascii.eqb c "-"%char.

(** [\d+\.\d+\.\d+\.\d+] *)
Definition quad (s : string) : option (string * string) :=
  '(d1, s) ← many1 Char.isdigit s; s ← expect "."%char s;
  '(d2, s) ← many1 Char.isdigit s; s ← expect "."%char s;
  '(d3, s) ← many1 Char.isdigit s; s ← expect "."%char s;
  '(d4, s) ← many1 Char.isdigit s;
  Some (d1 +:+ "." +:+ d2 +:+ "." +:+ d3 +:+ "." +:+ d4, s).

(** the pattern itself; [^] is the start of the text, so that [re.search]
    finds a match exactly when the pattern matches there *)
Definition digits : Re.regex := Re.Plus (Re.Class Char.isdigit).

Definition quad_pattern : Re.regex :=
  Re.Cat digits (Re.Cat (Re.Lit "."%char)
    (Re.Cat digits (Re.Cat (Re.Lit "."%char)
      (Re.Cat digits (Re.Cat (Re.Lit "."%char) digits))))).

Definition pattern : Re.regex :=
  Re.Cat (Re.Star (Re.Class blank))
    (Re.Cat quad_pattern
      (Re.Cat (Re.Plus (Re.Class Char.isspace))
        (Re.Cat (Re.Plus (Re.Class hostchar)) (Re.Star Re.Dot)))).

(** groups 1, 2 and 3 of the match, [None] when there is none *)
Definition search (rule : string) : option (string * string * string) :=
  '(ip, s) ← quad (Str.lstrip blank rule);
  '(_, s) ← many1 Char.isspace s;
  '(host, s) ← many1 hostchar s;
  Some (ip, host, fst (Str.span Char.notnl s)).

End RulePattern.

(** [normalizeRule]: what it prints, and what it returns ([None] for the
    pair [(None, None)]). *)
Definition normalizeRule (S : Settings) (rule : string)
  : list string * option (string * string) :=
  match RulePattern.search rule with
  | Some (_, hostname, suffix) =>
      let hostname := Str.strip Char.isspace (Str.lower hostname) in
      if negb (Str.is_empty suffix) && keepdomaincomments S
      then ([], Some (hostname, targetip S +:+ " " +:+ hostname +:+ " #" +:+ suffix
                                 +:+ String Char.nl EmptyString))
      else ([], Some (hostname, targetip S +:+ " " +:+ hostname +:+ String Char.nl EmptyString))
  | None => (["==>" +:+ rule +:+ "<=="], None)
  end.

(** ** The merge pass *)

(** What [writeData(finalFile, ...)] wrote, with the place of the loop that
    wrote it: a line copied through, or the normalized rule of a hostname. *)
Inductive write : Type :=
| PassThrough (line : string)
| Rule (hostname normalizedRule : string).

Definition data (w : write) : string :=
  match w with
  | PassThrough line => line
  | Rule _ normalizedRule => normalizedRule
  end.

(** the hostname of a record of the body, if the write is one *)
Definition record (w : write) : option string :=
  match w with
  | PassThrough _ => None
  | Rule hostname _ => Some hostname
  end.

(** The variables of the loop of [removeDupsAndExcl], and what was printed. *)
Record State : Type := mkState {
  finalFile : list write;
  hostnames : gset string;
  numberOfRules : Z;
  stdout : list string
}.

(** the bytes of the file *)
Definition contents (f : list write) : string :=
  foldr (fun w acc => data w +:+ acc) EmptyString f.

(** the hostnames of the records of the file, in the order written *)
Definition records (f : list write) : list string := omap record f.

(** [set(["localhost", "localhost.localdomain", "local", "broadcasthost"])] *)
Definition seeded : gset string :=
  {[ "localhost"; "localhost.localdomain"; "local"; "broadcasthost" ]}.

Definition init (S : Settings) : State :=
  mkState [] seeded (numberofrules S) [].

(** [' .'], the characters [rstrip] removes *)
Definition spacedot (c : ascii) : bool :=
  Ascii.eqb c " "%char || Ascii.eqb c "."%char.

(** the first three assignments to [line], after decoding *)
Definition trim (line : string) : string :=
  Str.rstrip spacedot (Str.replace_tab_plus line) +:+ String Char.nl EmptyString.

(** [re.match(r'^\s*$', s)]: nothing but spaces up to the end *)
Definition blank (s : string) : bool := Str.forallb Char.isspace s.

(** the test of the pass-through branch, on the trimmed line; [None] is the
    [IndexError] of [line[0]] *)
Definition passThrough (line : string) : option bool :=
  match line with
  | EmptyString => None
  | String c _ => Some (Ascii.eqb c "#"%char || blank (String c EmptyString))
  end.

(** the loop over [exclusions] that sets [write] to "false" *)
Definition whitelisted (S : Settings) (line : string) : bool :=
  existsb (fun exclude => Str.contains line exclude) (exclusions S).

Definition print (out : list string) (st : State) : State :=
  mkState (finalFile st) (hostnames st) (numberOfRules st) (stdout st ++ out).

Definition writeData (w : write) (st : State) : State :=
  mkState (finalFile st ++ [w]) (hostnames st) (numberOfRules st) (stdout st).

(** the body of the last [if] of the loop *)
Definition accept (hostname normalizedRule : string) (st : State) : State :=
  let st := writeData (Rule hostname normalizedRule) st in
  mkState (finalFile st) (hostnames st ∪ {[ hostname ]}) (numberOfRules st + 1)
    (stdout st).

(** One turn of the loop of [removeDupsAndExcl] on a line of the merged
    file; [None] is an exception. *)
Definition mergeLine (S : Settings) (st : State) (line : string) : option State :=
  let line := trim line in
  match passThrough line with
  | None => None
  | Some true => Some (writeData (PassThrough line) st)
  | Some false =>
      if Str.contains line "::1" then Some st
      else
        let strippedRule := stripRule line in
        match (if Str.is_empty strippedRule then Some true
               else matchesExclusions S strippedRule) with
        | None => None
        | Some true => Some st
        | Some false =>
            let '(out, res) := normalizeRule S strippedRule in
            let st := print out st in
            let write := negb (whitelisted S line) in
            match res with
            | Some (hostname, normalizedRule) =>
                if negb (Str.is_empty normalizedRule)
                   && negb (bool_decide (hostname ∈ hostnames st))
                   && write
                then Some (accept hostname normalizedRule st)
                else Some st
            | None => Some st
            end
        end
  end.

(** the loop *)
Fixpoint mergeLines (S : Settings) (st : State) (lines : list string)
  : option State :=
  match lines with
  | [] => Some st
  | line :: lines => st ← mergeLine S st line; mergeLines S st lines
  end.

(** the lines of the whitelist file that become exclusions *)
Definition whitelist (ins : list string) : list string :=
  filter (fun line : string =>
            Str.is_empty line = false ∧ Str.startswith line "#" = false)
    (Str.strip (fun c => Ascii.eqb c " " || Ascii.eqb c "009" || Ascii.eqb c "010"
                         || Ascii.eqb c "013")%char <$> ins).

(** the first lines of [removeDupsAndExcl]: the whitelist file, when there
    is one, extends [settings["exclusions"]] *)
Definition loadWhitelist (S : Settings) (whitelistfile : option (list string))
  : Settings :=
  match whitelistfile with
  | Some ins => set_exclusions S (exclusions S ++ whitelist ins)
  | None => S
  end.

(** [removeDupsAndExcl]: [whitelistfile] is the lines of the whitelist file
    when there is one, [mergeFile] the bytes of the merged file. The result
    is the settings as the function leaves them and the last state of the
    loop, whose [finalFile] is the file returned. *)
Definition removeDupsAndExcl (S : Settings) (whitelistfile : option (list string))
    (mergeFile : string) : option (Settings * State) :=
  let S := loadWhitelist S whitelistfile in
  match mergeLines S (init S) (Str.readlines mergeFile) with
  | Some st => Some (set_numberofrules S (numberOfRules st), st)
  | None => None
  end.

(** *** What a turn of the loop does, whatever the state

    The tests of the loop before the one on [hostnames] read the line and the
    settings only. [classify] names their result; [lemma mergeLine_classify]
    below shows that [mergeLine] is [classify] followed by the test on
    [hostnames]. *)
Inductive outcome : Type :=
| Raises                                       (* an exception *)
| Passed (line : string)                       (* copied through *)
| Dropped (out : list string)                  (* nothing written, [out] printed *)
| Candidate (hostname normalizedRule : string). (* written unless the hostname is known *)

Definition classify (S : Settings) (line : string) : outcome :=
  let line := trim line in
  match passThrough line with
  | None => Raises
  | Some true => Passed line
  | Some false =>
      if Str.contains line "::1" then Dropped []
      else
        let strippedRule := stripRule line in
        match (if Str.is_empty strippedRule then Some true
               else matchesExclusions S strippedRule) with
        | None => Raises
        | Some true => Dropped []
        | Some false =>
            match normalizeRule S strippedRule with
            | (out, Some (hostname, normalizedRule)) =>
                if negb (Str.is_empty normalizedRule) && negb (whitelisted S line)
                then Candidate hostname normalizedRule
                else Dropped out
            | (out, None) => Dropped out
            end
        end
  end.

(** [run st o]: the state after a turn of outcome [o] *)
Definition run (st : State) (o : outcome) : option State :=
  match o with
  | Raises => None
  | Passed line => Some (writeData (PassThrough line) st)
  | Dropped out => Some (print out st)
  | Candidate hostname normalizedRule =>
      Some (if bool_decide (hostname ∈ hostnames st) then st
            else accept hostname normalizedRule st)
  end.

(** *** The invariant of the loop

    The records written are pairwise distinct, none is a seeded hostname,
    [hostnames] is the seeded set and the records, and [numberOfRules] has
    counted the records; [n0] is the count the pass started from. *)
Definition consistent (n0 : Z) (st : State) : Prop :=
  NoDup (records (finalFile st)) ∧
  Forall (λ h, h ∉ seeded) (records (finalFile st)) ∧
  hostnames st = seeded ∪ list_to_set (records (finalFile st)) ∧
  numberOfRules st = (n0 + Z.of_nat (length (records (finalFile st))))%Z.

(** the writes of the file that are records of [h] *)
Definition records_of (h : string) (f : list write) : list write :=
  filter (λ w, record w = Some h) f.

(** *** Reading a domain pasted into a pattern

    [wild d m]: the text [m] is [d] read as a pattern, character by
    character, a [.] of [d] standing for any character but a newline. *)
Fixpoint wild (d m : string) : bool :=
  match d, m with
  | EmptyString, EmptyString => true
  | String c d', String x m' =>
      (if Ascii.eqb c "."%char then Char.notnl x else Ascii.eqb c x) && wild d' m'
  | _, _ => false
  end.

(** [t] occurs in [s] *)
Definition occurs (t s : string) : Prop := ∃ a b, s = a +:+ t +:+ b.

(** ** The header *)

Module Header.

(** what the header takes from the machine it runs on *)
Record Host : Type := mkHost {
  date : string;                 (* time.strftime("%B %d %Y", time.gmtime()) *)
  linux : option string;         (* socket.gethostname() when platform.system() is "Linux" *)
  myhosts : option string        (* the bytes of the file myhosts, if there is one *)
}.

(** the digits of a number, lowest first, in groups of three *)
Fixpoint group3 (s : string) : string :=
  match s with
  | String a (String b (String c rest)) =>
      String a (String b (String c
        (if Str.is_empty rest then rest else String ","%char (group3 rest))))
  | _ => s
  end.

(** ["{:,}".format(n)] *)
Definition commas (n : Z) : string :=
  (if (n <? 0)%Z then "-" else EmptyString) +:+
  String.rev (group3 (String.rev (NilEmpty.string_of_uint (N.to_uint (Z.abs_N n))))).

(** [os.path.join(p, empty)] on a POSIX system: [p] with a final slash,
    or nothing when [p] is empty *)
Definition slash (p : string) : string :=
  if Str.is_empty p then p
  else match String.rev p with
       | String "/"%char _ => p
       | _ => p +:+ "/"
       end.

(** [", ".join(l)] *)
Fixpoint join (l : list string) : string :=
  match l with
  | [] => EmptyString
  | [x] => x
  | x :: l' => x +:+ ", " +:+ join l'
  end.

(** the seven static entries, and the two of a Linux host *)
Definition static (H : Host) : list string :=
  [ ln "127.0.0.1 localhost";
    ln "127.0.0.1 localhost.localdomain";
    ln "127.0.0.1 local";
    ln "255.255.255.255 broadcasthost";
    ln "::1 localhost";
    ln "fe80::1%lo0 localhost";
    ln "0.0.0.0 0.0.0.0" ] ++
  match linux H with
  | Some hostname => [ ln ("127.0.1.1 " +:+ hostname); ln ("127.0.0.53 " +:+ hostname) ]
  | None => []
  end ++
  [ ln EmptyString ].

(** what [writeOpeningHeader] writes before the saved contents *)
Definition header (S : Settings) (H : Host) : list string :=
  [ ln "# This hosts file is a merged collection of hosts from reputable sources,";
    ln "# with a dash of crowd sourcing via Github" +:+ ln "#";
    ln ("# Date: " +:+ date H) ] ++
  (if extensions S is [] then []
   else [ ln ("# Extensions added to this file: " +:+ join (extensions S)) ]) ++
  [ "# Number of unique domains: " +:+ ln (commas (numberofrules S)) +:+ ln "#";
    ln ("# Fetch the latest version of this file: https://raw.githubusercontent.com/StevenBlack/hosts/master/"
        +:+ slash (outputsubfolder S) +:+ "hosts");
    ln "# Project home page: https://github.com/StevenBlack/hosts" +:+ ln "#";
    ln "# ===============================================================";
    ln EmptyString ] ++
  (if skipstatichosts S then [] else static H) ++
  match myhosts H with Some f => [f] | None => [] end.

(** [writeOpeningHeader]: the bytes of the file afterwards *)
Definition writeOpeningHeader (S : Settings) (H : Host) (finalFile : list write)
  : string :=
  foldr String.app (contents finalFile) (header S H).

End Header.

(** * The rest of the program

    The functions around the merge pass: what collects its input, what
    chooses the exclusions and the extensions, and what is done with the
    file it returns. *)

(** ** More of [str] *)

(** the number of characters of a class in a text *)
Fixpoint count (p : ascii -> bool) (s : string) : nat :=
  match s with
  | EmptyString => 0
  | String c s' => (if p c then 1 else 0) + count p s'
  end.

(** the texts of a list, one after the other *)
Definition cat (l : list string) : string := foldr String.app EmptyString l.

(** the text ends with a newline, or is empty: a file that leaves no
    unfinished line *)
Fixpoint finished (s : string) : bool :=
  match s with
  | EmptyString => true
  | String c EmptyString => Ascii.eqb c Char.nl
  | String _ s' => finished s'
  end.

(** [s.replace("\r", "")] *)
Fixpoint remove_cr (s : string) : string :=
  match s with
  | EmptyString => EmptyString
  | String c s' =>
      if Ascii.eqb c "013"%char then remove_cr s' else String c (remove_cr s')
  end.

(** ** [createInitialFile]

    What the function reads from the disk: the hosts files and the
    [update.json] objects (of a type [J] that is not looked into) found
    under the data folder, those found under each extension folder, and the
    blacklist file when there is one. *)
Record Sources (J : Type) : Type := mkSources {
  datahosts : list string;
  datameta : list J;
  exthosts : string -> list string;
  extmeta : string -> list J;
  blacklistfile : option string
}.

Arguments mkSources {J}.
Arguments datahosts {J}.
Arguments datameta {J}.
Arguments exthosts {J}.
Arguments extmeta {J}.
Arguments blacklistfile {J}.

(** the files written to the merge file, in the order written: the data
    folder, the extensions in the order of [settings["extensions"]], the
    blacklist *)
Definition mergedFiles {J : Type} (S : Settings) (F : Sources J) : list string :=
  datahosts F ++
  concat ((λ source, exthosts F source) <$> extensions S) ++
  match blacklistfile F with Some f => [f] | None => [] end.

(** [createInitialFile]: the bytes of the merge file, and
    [settings["sourcesdata"]] as the function leaves it *)
Definition createInitialFile {J : Type} (S : Settings) (sourcesdata : list J)
    (F : Sources J) : string * list J :=
  (cat (mergedFiles S F),
   sourcesdata ++ datameta F ++ concat ((λ source, extmeta F source) <$> extensions S)).

(** ** [main]: the extensions

    [requested] is [options["extensions"]], [folders] the base names of the
    entries of the extensions folder; the result is
    [sorted(list(set(requested).intersection(folders)))]. *)
Definition selectExtensions (requested folders : list string) : list string :=
  merge_sort String.le
    (elements (list_to_set requested ∩ list_to_set folders : gset string)).

(** ** [isValidDomainFormat] *)

(** [x?] *)
Definition opt (r : Re.regex) : Re.regex := Re.Alt Re.Eps r.

(** the pattern [www\d{0,3}[.]|https?] *)
Definition domainRegex : Re.regex :=
  Re.Alt
    (Re.Cat (Re.of_literal "www")
      (Re.Cat (opt (Re.Class Char.isdigit))
        (Re.Cat (opt (Re.Class Char.isdigit))
          (Re.Cat (opt (Re.Class Char.isdigit)) (Re.Lit "."%char)))))
    (Re.Cat (Re.of_literal "http") (opt (Re.Lit "s"%char))).

(** [isValidDomainFormat]: what it prints and what it returns;
    [domainRegex.match] is a match at the start of the text *)
Definition isValidDomainFormat (domain : string) : list string * bool :=
  if Str.is_empty domain
  then ([ln "You didn't enter a domain. Try again."], false)
  else if Re.match_here domainRegex domain
  then ([ln ("The domain " +:+ domain +:+
             " is not valid. Do not include www.domain.com or http(s)://domain.com. Try again.")],
        false)
  else ([], true).

(** ** The world outside

    The prompts read lines typed by the user, print, change files and call
    two functions that act on the machine, [move_hosts_file_into_place] and
    [flush_dns_cache]; the calls are recorded, their bodies are not
    modelled. Paths are relative to [BASEDIR_PATH]. *)

Inductive action : Type :=
| MoveHostsFile          (* move_hosts_file_into_place(finalFile) *)
| FlushDnsCache.         (* flush_dns_cache() *)

Record World : Type := mkWorld {
  stdin : list string;             (* the lines still to be typed, without their newline *)
  written : list string;           (* what was written to the standard output, in order *)
  actions : list action;           (* the calls made, in order *)
  files : gmap string string       (* the files and their bytes *)
}.

Inductive exn : Type :=
| EOFError                         (* raw_input at the end of the input *)
| ValueError (msg : string)
| KeyError (key : string)
| Unmodelled (pattern : string)    (* re.compile of a text outside the fragment of [Re.of_domain] *)
| OutOfFuel.                       (* the bound of a loop of the model; see [gather_custom_exclusions] *)

(** a call returns a value or raises, and leaves a world *)
Inductive result (A : Type) : Type :=
| Return (a : A) (w : World)
| Raise (e : exn) (w : World).

Arguments Return {A}.
Arguments Raise {A}.

Definition world {A : Type} (r : result A) : World :=
  match r with Return _ w => w | Raise _ w => w end.

(** [sys.stdout.write(text)], and the prompt of [raw_input(text)] *)
Definition put (text : string) (w : World) : World :=
  mkWorld (stdin w) (written w ++ [text]) (actions w) (files w).

(** [print(text)] *)
Definition say (text : string) (w : World) : World := put (ln text) w.

Definition act (a : action) (w : World) : World :=
  mkWorld (stdin w) (written w) (actions w ++ [a]) (files w).

Definition set_stdin (l : list string) (w : World) : World :=
  mkWorld l (written w) (actions w) (files w).

Definition set_files (f : gmap string string) (w : World) : World :=
  mkWorld (stdin w) (written w) (actions w) f.

(** the entries of [settings] that the prompts and the file logic read *)
Record Options : Type := mkOptions {
  auto : bool;
  freshen : bool;
  replace : bool;
  backup : bool;
  flushdnscache : bool;
  commonexclusions : list string
}.

(** *** Colors *)

Module Colors.

Definition esc : ascii := "027"%char.
Definition PROMPT : string := String esc "[94m".
Definition SUCCESS : string := String esc "[92m".
Definition FAIL : string := String esc "[91m".
Definition ENDC : string := String esc "[0m".

End Colors.

Definition colorize (text color : string) : string := color +:+ text +:+ Colors.ENDC.

Definition printSuccess (text : string) (w : World) : World :=
  say (colorize text Colors.SUCCESS) w.

Definition printFailure (text : string) (w : World) : World :=
  say (colorize text Colors.FAIL) w.

(** *** [query_yes_no] *)

(** the dictionary [valid] *)
Definition valid (choice : string) : option string :=
  if String.eqb choice "yes" || String.eqb choice "y" || String.eqb choice "ye"
  then Some "yes"
  else if String.eqb choice "no" || String.eqb choice "n" then Some "no"
  else None.

(** the dictionary of the prompts, read at [default] *)
Definition promptOf (default : option string) : option string :=
  match default with
  | None => Some " [y/n] "
  | Some d =>
      if String.eqb d "yes" then Some " [Y/n] "
      else if String.eqb d "no" then Some " [y/N] "
      else None
  end.

(** [default and not choice] *)
Definition defaulted (default : option string) (choice : string) : bool :=
  match default with
  | Some d => negb (Str.is_empty d) && Str.is_empty choice
  | None => false
  end.

(** the loop [while not reply]: every turn writes the question and reads a
    line, so the loop follows the lines typed. The result is the reply
    ([None] when the input ends first), the lines left and the world's
    output. *)
Fixpoint query_loop (shown : string) (default : option string)
    (input : list string) (out : list string)
  : option string * list string * list string :=
  match input with
  | [] => (None, [], out ++ [shown])
  | line :: input' =>
      let out := out ++ [shown] in
      let choice := Str.lower line in
      if defaulted default choice then (default, input', out)
      else match valid choice with
           | Some reply => (Some reply, input', out)
           | None =>
               query_loop shown default input'
                 (out ++ [ln (colorize
                    (ln "Please respond with 'yes' or 'no' (or 'y' or 'n').")
                    Colors.FAIL)])
           end
  end.

(** [default] printed with [%s] *)
Definition default_text (default : option string) : string :=
  match default with Some d => d | None => "None" end.

(** [query_yes_no(question, default)] *)
Definition query_yes_no (question : string) (default : option string)
    (w : World) : result bool :=
  match promptOf default with
  | None =>
      Raise (ValueError ("invalid default answer: '" +:+ default_text default +:+ "'")) w
  | Some prompt =>
      match query_loop (colorize question Colors.PROMPT +:+ prompt) default
              (stdin w) (written w) with
      | (Some reply, input, out) =>
          Return (String.eqb reply "yes") (mkWorld input out (actions w) (files w))
      | (None, input, out) =>
          Raise EOFError (mkWorld input out (actions w) (files w))
      end
  end.

(** what follows a call that returned *)
Definition andThen {A B : Type} (r : result A) (k : A -> World -> result B)
  : result B :=
  match r with
  | Return a w => k a w
  | Raise e w => Raise e w
  end.

(** [raw_input(prompt)] *)
Definition raw_input (prompt : string) (w : World) : result string :=
  let w := put prompt w in
  match stdin w with
  | [] => Raise EOFError w
  | line :: input => Return line (set_stdin input w)
  end.

(** *** Exclusions chosen by the user *)

(** [excludeDomain] among the prompts: a domain outside the fragment of
    [Re.of_domain] stops the model *)
Definition excludeDomainIO (S : Settings) (domain : string) (w : World)
  : result Settings :=
  match excludeDomain S domain with
  | Some S' => Return S' w
  | None => Raise (Unmodelled domain) w
  end.

(** the loop of [gather_custom_exclusions]. Every turn reads at least one
    line, so [fuel] turns are enough for an input of fewer than [fuel]
    lines ([lemma gather_fuel]). *)
Fixpoint gather_go (fuel : nat) (S : Settings) (w : World) : result Settings :=
  match fuel with
  | O => Raise OutOfFuel w
  | Datatypes.S fuel =>
      andThen (raw_input "Enter the domain you want to exclude (e.g. facebook.com): " w)
        (λ user_domain w,
           let '(out, ok) := isValidDomainFormat user_domain in
           let w := fold_left (λ w text, put text w) out w in
           andThen (if ok then excludeDomainIO S user_domain w else Return S w)
             (λ S w,
                andThen (query_yes_no "Do you have more domains you want to enter?"
                           (Some "yes") w)
                  (λ more w, if more then gather_go fuel S w else Return S w)))
  end.

(** [gather_custom_exclusions] *)
Definition gather_custom_exclusions (S : Settings) (w : World) : result Settings :=
  gather_go (Datatypes.S (length (stdin w))) S w.

(** the [for] loop of [displayExclusionOptions] *)
Fixpoint offerExclusions (options : list string) (S : Settings) (w : World)
  : result Settings :=
  match options with
  | [] => Return S w
  | exclusionOption :: options =>
      andThen (query_yes_no ("Do you want to exclude the domain " +:+ exclusionOption +:+ " ?")
                 (Some "yes") w)
        (λ yes w,
           andThen (if yes then excludeDomainIO S exclusionOption w else Return S w)
             (λ S w, offerExclusions options S w))
  end.

(** [displayExclusionOptions] *)
Definition displayExclusionOptions (O : Options) (S : Settings) (w : World)
  : result Settings :=
  andThen (offerExclusions (commonexclusions O) S w)
    (λ S w,
       andThen (query_yes_no "Do you want to exclude any other domains?" (Some "yes") w)
         (λ yes w, if yes then gather_custom_exclusions S w else Return S w)).

(** [promptForExclusions] *)
Definition promptForExclusions (O : Options) (S : Settings) (w : World)
  : result Settings :=
  if auto O then Return S w
  else
    andThen (query_yes_no
               (ln "Do you want to exclude any domains?" +:+
                "For example, hulu.com video streaming must be able to access its tracking and ad servers in order to play video.")
               (Some "yes") w)
      (λ yes w,
         if yes then displayExclusionOptions O S w
         else Return S (say "OK, we'll only exclude domains in the whitelist." w)).

(** *** Moving the file into place *)

(** [promptForFlushDnsCache] *)
Definition promptForFlushDnsCache (O : Options) (w : World) : result unit :=
  let w := if flushdnscache O then act FlushDnsCache w else w in
  if auto O then Return tt w
  else
    andThen (query_yes_no "Attempt to flush the DNS cache?" (Some "yes") w)
      (λ yes w, Return tt (if yes then act FlushDnsCache w else w)).

(** [promptForMove]: the value returned is [False] ([Some false]) when the
    file is not moved and [None] when it is *)
Definition promptForMove (O : Options) (S : Settings) (w : World)
  : result (option bool) :=
  andThen
    (if replace O && negb (skipstatichosts S) then Return true w
     else if auto O || skipstatichosts S then Return false w
     else query_yes_no
            "Do you want to replace your existing hosts file with the newly generated file?"
            (Some "yes") w)
    (λ move_file w,
       if move_file
       then andThen (promptForFlushDnsCache O (act MoveHostsFile w))
              (λ _ w, Return None w)
       else Return (Some false) w).

(** *** Updating the sources *)

(** [os.path.join(BASEDIR_PATH, dir, settings["hostfilename"])] *)
Definition hostsPath (dir : string) : string := Header.slash dir +:+ "hosts".

(** [updateAllSources]. [found] is what [recursiveGlob] finds, in its
    order: for every [update.json], its folder and the object
    [json.load] returns (its values are texts). [net url] is what
    [urlopen(url).read().decode("UTF-8")] gives, [None] when any of it
    fails. *)
Fixpoint updateAllSources (net : string -> option string)
    (found : list (string * gmap string string)) (w : World) : result unit :=
  match found with
  | [] => Return tt w
  | (dir, updateData) :: found =>
      match updateData !! "url" with
      | None => Raise (KeyError "url") w
      | Some updateURL =>
          let w := say ("Updating source " +:+ dir +:+ " from " +:+ updateURL) w in
          match net updateURL with
          | Some updatedFile =>
              updateAllSources net found
                (set_files (<[hostsPath dir := remove_cr updatedFile]> (files w)) w)
          | None =>
              updateAllSources net found
                (say "Skipping." (say ("Problem getting file:  " +:+ updateURL) w))
          end
      end
  end.

(** [promptForUpdate]. [created] is the outcome of [open(..., "w+")] on a
    [hosts] file that is not there: the file is made, or the call raises
    and the [except] branch prints the failure. *)
Definition promptForUpdate (O : Options) (net : string -> option string)
    (found : list (string * gmap string string)) (created : bool) (w : World)
  : result unit :=
  let w := match files w !! "hosts" with
           | Some _ => w
           | None =>
               if created
               then set_files (<["hosts" := EmptyString]> (files w)) w
               else printFailure
                      "ERROR: No 'hosts' file in the folder,try creating one manually" w
           end in
  if negb (freshen O) then Return tt w
  else if auto O then updateAllSources net found w
  else
    andThen (query_yes_no "Do you want to update all data sources?" (Some "yes") w)
      (λ yes w,
         if yes then updateAllSources net found w
         else Return tt (say "OK, we'll stick with what we've  got locally." w)).

(** *** [removeOldHostsFile]

    [now] is [time.strftime("%Y-%m-%d-%H-%M-%S")]. *)
Definition removeOldHostsFile (O : Options) (now : string)
    (f : gmap string string) : gmap string string :=
  let f := match f !! "hosts" with
           | Some _ => f
           | None => <["hosts" := EmptyString]> f
           end in
  let f := if backup O then <["hosts-" +:+ now := default EmptyString (f !! "hosts")]> f
           else f in
  <["hosts" := EmptyString]> (delete "hosts" f).

(** ** Names for the statements below *)

(** the line of a write that copies a line through *)
Definition copied (w : write) : option string :=
  match w with
  | PassThrough line => Some line
  | Rule _ _ => None
  end.

(** the line a turn of the loop copies through, if it does *)
Definition passedLine (S : Settings) (line : string) : option string :=
  match classify S line with
  | Passed l => Some l
  | _ => None
  end.

(** the characters [" \t\n\r"] that [strip] removes from a whitelist line *)
Definition blankchar (c : ascii) : bool :=
  (Ascii.eqb c " " || Ascii.eqb c "009" || Ascii.eqb c "010" || Ascii.eqb c "013")%char.

(** a character of a hostname as the pass writes it: [[\w\.-]], not in
    upper case *)
Definition hostlower (c : ascii) : bool :=
  RulePattern.hostchar c && negb (Char.isupper c).

(** what a line typed at [query_yes_no] answers: the default on an empty
    line, [yes] or [no] on one of the five words in any case, nothing
    otherwise *)
Definition reply_of (default : option string) (line : string) : option string :=
  if defaulted default (Str.lower line) then default else valid (Str.lower line).

(** the message of [query_yes_no] after a line that answers nothing *)
Definition please : string :=
  ln (colorize (ln "Please respond with 'yes' or 'no' (or 'y' or 'n').") Colors.FAIL).

(** a call that only talks: it reads lines from the front of the input and
    adds to what is written, and leaves the files and the calls recorded
    as they were *)
Definition talksOnly (w w' : World) : Prop :=
  stdin w' `suffix_of` stdin w ∧
  written w `prefix_of` written w' ∧
  actions w' = actions w ∧
  files w' = files w.

(** settings that differ from [S] by patterns added to [exclusionregexs] *)
Definition patternsAdded (S S' : Settings) : Prop :=
  ∃ added, S' = set_exclusionregexs S (exclusionregexs S ++ added).

(** what is written for [n] lines that answer nothing, and then the
    question once more *)
Definition asked (shown : string) (n : nat) : list string :=
  concat (replicate n [shown; please]) ++ [shown].

(** the outcome of a prompt that chooses exclusions from [S] in [w]: it
    returns settings with patterns added, or raises something else than
    the bound of the model, and in both cases it has only talked *)
Definition chooses (S : Settings) (w : World) (r : result Settings) : Prop :=
  match r with
  | Return S' w' => patternsAdded S S' ∧ talksOnly w w'
  | Raise e w' => e ≠ OutOfFuel ∧ talksOnly w w'
  end.

(** the text is 7-bit ([str.isascii]): on such text the classes of [Char]
    are those of Python 3, which on other text takes more characters for
    white space, letters and digits *)
Definition isascii (s : string) : bool :=
  Str.forallb (λ c, (Char.code c <? 128)%N) s.

(** the hostname that the pattern of [normalizeRule] reads in a line *)
Definition named (line : string) : option string :=
  match RulePattern.search line with
  | Some (_, hostname, _) => Some hostname
  | None => None
  end.

(** the hostnames of the lines of a body, read line by line as a hosts
    file is *)
Definition bodyHostnames (f : list write) : list string :=
  omap named (Str.readlines (contents f)).

(** * Properties *)

(** ** Strings *)

Section StrFacts.

Implicit Types (s t a b : string) (c : ascii) (p : ascii -> bool).

Lemma sapp_nil_l s : EmptyString +:+ s = s.
Proof. reflexivity. Qed.

Lemma sapp_cons c s t : String c s +:+ t = String c (s +:+ t).
Proof. reflexivity. Qed.

Lemma sapp_nil_r s : s +:+ EmptyString = s.
Proof. induction s as [|c s IH]; [reflexivity|]. rewrite sapp_cons, IH. reflexivity. Qed.

Lemma sapp_assoc a b t : (a +:+ b) +:+ t = a +:+ b +:+ t.
Proof.
  induction a as [|c a IH]; [reflexivity|].
  rewrite !sapp_cons, IH. reflexivity.
Qed.

Lemma is_empty_true s : Str.is_empty s = true ↔ s = EmptyString.
Proof. destruct s; simpl; split; congruence. Qed.

Lemma is_empty_app s t :
  Str.is_empty (s +:+ t) = Str.is_empty s && Str.is_empty t.
Proof. destruct s; reflexivity. Qed.

Lemma sapp_eq_nil s t : s +:+ t = EmptyString → s = EmptyString ∧ t = EmptyString.
Proof. destruct s; [rewrite sapp_nil_l; auto | rewrite sapp_cons; discriminate]. Qed.

Lemma sforallb_app p s t :
  Str.forallb p (s +:+ t) = Str.forallb p s && Str.forallb p t.
Proof.
  induction s as [|c s IH]; [reflexivity|].
  rewrite sapp_cons. simpl. rewrite IH, andb_assoc. reflexivity.
Qed.

(** *** [split] *)

Lemma split_go_nospace t tok s :
  Str.nospace t = true →
  Str.split_go tok (t +:+ s) = Str.split_go (tok +:+ t) s.
Proof.
  revert tok. induction t as [|c t IH]; intros tok Ht.
  - rewrite sapp_nil_l, sapp_nil_r. reflexivity.
  - simpl in Ht. apply andb_prop in Ht as [Hc Ht].
    rewrite sapp_cons. simpl. apply negb_true_iff in Hc. rewrite Hc.
    rewrite IH by exact Ht. rewrite sapp_assoc. reflexivity.
Qed.

Lemma split_go_space c tok s :
  Char.isspace c = true →
  Str.split_go tok (String c s) =
  (if Str.is_empty tok then [] else [tok]) ++ Str.split s.
Proof. intros Hc. simpl. rewrite Hc. reflexivity. Qed.

(** the tokens of [split] are not empty and hold no white space *)
Lemma split_go_tokens s tok :
  Str.nospace tok = true →
  Forall (λ t, Str.nospace t = true ∧ Str.is_empty t = false)
    (Str.split_go tok s).
Proof.
  revert tok. induction s as [|c s IH]; intros tok Htok; simpl.
  - destruct (Str.is_empty tok) eqn:E; repeat constructor; assumption.
  - destruct (Char.isspace c) eqn:Hc.
    + apply Forall_app. split; [|apply IH; reflexivity].
      destruct (Str.is_empty tok) eqn:E; repeat constructor; assumption.
    + apply IH. unfold Str.nospace in *. rewrite sforallb_app, Htok. simpl.
      rewrite Hc. reflexivity.
Qed.

Lemma split_tokens s :
  Forall (λ t, Str.nospace t = true ∧ Str.is_empty t = false) (Str.split s).
Proof. apply split_go_tokens. reflexivity. Qed.

(** two tokens joined by a space split into themselves *)
Lemma split_join t0 t1 :
  Str.nospace t0 = true → Str.is_empty t0 = false →
  Str.nospace t1 = true → Str.is_empty t1 = false →
  Str.split (t0 +:+ " " +:+ t1) = [t0; t1].
Proof.
  intros H0 E0 H1 E1. unfold Str.split.
  rewrite split_go_nospace by exact H0. rewrite sapp_nil_l.
  change (" " +:+ t1) with (String " "%char t1).
  rewrite split_go_space by reflexivity. rewrite E0. unfold Str.split.
  rewrite <- (sapp_nil_r t1) at 1.
  rewrite split_go_nospace by exact H1. rewrite sapp_nil_l. simpl.
  rewrite E1. reflexivity.
Qed.

(** [stripRule] gives the empty text or the first two tokens, and in the
    second case [split()[1]] is the second one *)
Lemma stripRule_cases line :
  (stripRule line = EmptyString ∧ length (Str.split line) < 2) ∨
  (∃ t0 t1 rest, Str.split line = t0 :: t1 :: rest ∧
     stripRule line = t0 +:+ " " +:+ t1 ∧
     Str.is_empty (stripRule line) = false ∧
     Str.split (stripRule line) = [t0; t1]).
Proof.
  unfold stripRule. pose proof (split_tokens line) as HF.
  destruct (Str.split line) as [|t0 [|t1 rest]]; simpl; [left; split; [done|lia]..|].
  right. exists t0, t1, rest.
  apply Forall_cons in HF as [[H0 E0] HF]. apply Forall_cons in HF as [[H1 E1] _].
  repeat split; [|by apply split_join].
  rewrite is_empty_app, E0. reflexivity.
Qed.

End StrFacts.

(** ** Occurrences *)

Section Occurs.

Implicit Types (s t a b : string) (c : ascii) (p : ascii -> bool).

Lemma prefix_iff s t : String.prefix t s = true ↔ ∃ b, s = t +:+ b.
Proof.
  revert t. induction s as [|c s IH]; intros [|c' t]; simpl.
  - split; [exists EmptyString; reflexivity|done].
  - split; [done|]. intros [b Hb]. rewrite sapp_cons in Hb. discriminate.
  - split; [intros _; eexists; apply sapp_nil_l|done].
  - destruct (ascii_dec c' c) as [->|Hne].
    + rewrite IH. split; intros [b Hb]; exists b.
      * rewrite sapp_cons. by f_equal.
      * rewrite sapp_cons in Hb. by injection Hb.
    + split; [done|]. intros [b Hb]. rewrite sapp_cons in Hb. congruence.
Qed.

(** [t in s] holds exactly when [t] occurs in [s] *)
Lemma contains_occurs s t : Str.contains s t = true ↔ occurs t s.
Proof.
  unfold occurs. induction s as [|c s IH].
  - change (Str.contains EmptyString t)
      with (String.prefix t EmptyString || false).
    rewrite orb_false_r, prefix_iff. split.
    + intros [b Hb]. exists EmptyString, b. exact Hb.
    + intros (a & b & Hab). symmetry in Hab.
      apply sapp_eq_nil in Hab as [-> Hab]. eauto.
  - change (Str.contains (String c s) t)
      with (String.prefix t (String c s) || Str.contains s t).
    rewrite orb_true_iff, prefix_iff, IH. split.
    + intros [[b Hb]|(a & b & Hab)].
      * exists EmptyString, b. exact Hb.
      * exists (String c a), b. rewrite sapp_cons. by f_equal.
    + intros ([|c' a] & b & Hab).
      * left. exists b. exact Hab.
      * right. rewrite sapp_cons in Hab. injection Hab as -> ->. eauto.
Qed.

Lemma occurs_app_r t s z : occurs t s → occurs t (s +:+ z).
Proof.
  intros (a & b & ->). exists a, (b +:+ z). by rewrite !sapp_assoc.
Qed.

(** *** The trimming step keeps an occurrence of [::1] *)

Lemma replace_not_tab c s :
  c ≠ "009"%char →
  Str.replace_tab_plus (String c s) = String c (Str.replace_tab_plus s).
Proof. destruct c as [[] [] [] [] [] [] [] []]; intros H; try reflexivity; done. Qed.

Lemma replace_tab_other s :
  (∀ s', s ≠ String "+"%char s') →
  Str.replace_tab_plus (String "009"%char s) =
  String "009"%char (Str.replace_tab_plus s).
Proof.
  destruct s as [|c s]; [reflexivity|].
  destruct c as [[] [] [] [] [] [] [] []]; intros H; try reflexivity.
  exfalso. by eapply H.
Qed.

Lemma replace_keeps_loopback a b :
  ∃ a' b', Str.replace_tab_plus (a +:+ "::1" +:+ b) = a' +:+ "::1" +:+ b'.
Proof.
  remember (String.length a) as n eqn:Hn.
  revert a Hn. induction (lt_wf n) as [n _ IH]. intros a ->.
  destruct a as [|c a].
  - exists EmptyString, (Str.replace_tab_plus b).
    rewrite !sapp_nil_l. change ("::1" +:+ b) with (String ":" (String ":" (String "1" b))).
    rewrite !replace_not_tab by discriminate. reflexivity.
  - rewrite sapp_cons. destruct (ascii_dec c "009"%char) as [->|Hc].
    + destruct a as [|c2 a].
      * rewrite sapp_nil_l, replace_tab_other
          by (intros s'; change ("::1" +:+ b) with (String ":" (String ":" (String "1" b)));
              discriminate).
        destruct (IH 0 ltac:(simpl; lia) EmptyString eq_refl) as (a' & b' & E).
        rewrite sapp_nil_l in E. rewrite E.
        exists (String "009"%char a'), b'. reflexivity.
      * destruct (ascii_dec c2 "+"%char) as [->|Hc2].
        -- rewrite sapp_cons. change (Str.replace_tab_plus
             (String "009" (String "+" (a +:+ "::1" +:+ b))))
             with (String " "%char (Str.replace_tab_plus (a +:+ "::1" +:+ b))).
           destruct (IH (String.length a) ltac:(simpl; lia) a eq_refl) as (a' & b' & ->).
           exists (String " "%char a'), b'. reflexivity.
        -- rewrite replace_tab_other by (intros s'; rewrite sapp_cons; congruence).
           destruct (IH (String.length (String c2 a)) ltac:(simpl; lia) _ eq_refl)
             as (a' & b' & ->).
           exists (String "009"%char a'), b'. reflexivity.
    + rewrite replace_not_tab by exact Hc.
      destruct (IH (String.length a) ltac:(simpl; lia) a eq_refl) as (a' & b' & ->).
      exists (String c a'), b'. reflexivity.
Qed.

Lemma rstrip_keeps p a c b :
  p c = false →
  Str.rstrip p (a +:+ String c b) = a +:+ String c (Str.rstrip p b).
Proof.
  intros Hc. induction a as [|x a IH].
  - rewrite !sapp_nil_l. simpl. rewrite Hc, andb_false_r. reflexivity.
  - rewrite !sapp_cons. simpl. rewrite IH.
    destruct a; reflexivity.
Qed.

Lemma trim_keeps_loopback line :
  Str.contains line "::1" = true → Str.contains (trim line) "::1" = true.
Proof.
  rewrite !contains_occurs. intros (a & b & ->). unfold trim.
  apply occurs_app_r.
  destruct (replace_keeps_loopback a b) as (a' & b' & ->).
  exists a', (Str.rstrip spacedot b').
  change ("::1" +:+ b') with ("::" +:+ String "1" b').
  rewrite <- sapp_assoc, rstrip_keeps by reflexivity.
  rewrite sapp_assoc. reflexivity.
Qed.

End Occurs.

(** ** One turn of the loop *)

Section Turn.

Variable S : Settings.
Implicit Types (st : State) (line h r : string).

Lemma trim_cons line : ∃ c rest, trim line = String c rest.
Proof.
  unfold trim. destruct (Str.rstrip spacedot (Str.replace_tab_plus line)); eauto.
Qed.

Lemma passThrough_trim line : ∃ b, passThrough (trim line) = Some b.
Proof. destruct (trim_cons line) as (c & rest & ->). simpl. eauto. Qed.

Lemma print_nil st : print [] st = st.
Proof. destruct st. unfold print. simpl. rewrite app_nil_r. reflexivity. Qed.

(** [normalizeRule] prints exactly when it returns no rule, and a rule it
    returns is not the empty text *)
Lemma normalizeRule_Some rule out h r :
  normalizeRule S rule = (out, Some (h, r)) →
  out = [] ∧ Str.is_empty r = false.
Proof.
  unfold normalizeRule. destruct (RulePattern.search rule) as [[[ip host] suffix]|];
    [|discriminate].
  destruct (negb (Str.is_empty suffix) && keepdomaincomments S);
    intros [= <- <- <-]; split; try reflexivity;
    rewrite !is_empty_app; simpl; rewrite !andb_false_r; reflexivity.
Qed.

Lemma normalizeRule_None rule out :
  normalizeRule S rule = (out, None) → out = ["==>" +:+ rule +:+ "<=="].
Proof.
  unfold normalizeRule. destruct (RulePattern.search rule) as [[[ip host] suffix]|].
  - destruct (negb (Str.is_empty suffix) && keepdomaincomments S); discriminate.
  - intros [= <-]. reflexivity.
Qed.

(** [split()[1]] of a stripped rule that is not empty is there: it is
    the second token of the line *)
Lemma matchesExclusions_stripRule line :
  Str.is_empty (stripRule line) = false →
  ∃ t0 t1 rest, Str.split line = t0 :: t1 :: rest ∧
    stripRule line = t0 +:+ " " +:+ t1 ∧
    matchesExclusions S (stripRule line) =
    Some (existsb (λ re, Re.search re t1) (exclusionregexs S)).
Proof.
  intros E. destruct (stripRule_cases line) as [[E' _]|(t0 & t1 & rest & Hs & Hr & _ & Hs')].
  - rewrite E' in E. discriminate.
  - exists t0, t1, rest. repeat split; try assumption.
    unfold matchesExclusions. rewrite Hs'. reflexivity.
Qed.

(** the loop body is the state-free tests followed by the test on
    [hostnames] *)
Lemma mergeLine_classify st line : mergeLine S st line = run st (classify S line).
Proof.
  unfold mergeLine, classify.
  destruct (passThrough (trim line)) as [[]|]; try reflexivity.
  destruct (Str.contains (trim line) "::1"); [simpl; by rewrite print_nil|].
  destruct (if Str.is_empty (stripRule (trim line)) then Some true
            else matchesExclusions S (stripRule (trim line))) as [[]|];
    [simpl; by rewrite print_nil| |reflexivity].
  destruct (normalizeRule S (stripRule (trim line))) as [out [[h r]|]] eqn:En;
    [|reflexivity].
  apply normalizeRule_Some in En as [-> Er]. rewrite print_nil, Er. simpl.
  destruct (whitelisted S (trim line)); simpl;
    destruct (bool_decide (h ∈ hostnames st)); simpl; rewrite ?print_nil;
    reflexivity.
Qed.

(** no line raises an exception *)
Lemma classify_total line : classify S line ≠ Raises.
Proof.
  unfold classify. destruct (passThrough_trim line) as [[] ->]; [discriminate|].
  destruct (Str.contains (trim line) "::1"); [discriminate|].
  destruct (Str.is_empty (stripRule (trim line))) eqn:E; [discriminate|].
  destruct (matchesExclusions_stripRule _ E) as (t0 & t1 & rest & _ & _ & ->).
  destruct (existsb _ _); [discriminate|].
  destruct (normalizeRule S (stripRule (trim line))) as [out [[h r]|]]; [|discriminate].
  destruct (negb (Str.is_empty r) && negb (whitelisted S (trim line))); discriminate.
Qed.

Lemma mergeLine_total st line : ∃ st', mergeLine S st line = Some st'.
Proof.
  rewrite mergeLine_classify. pose proof (classify_total line) as H.
  destruct (classify S line); simpl; eauto. congruence.
Qed.

Lemma mergeLines_total lines st : ∃ st', mergeLines S st lines = Some st'.
Proof.
  revert st. induction lines as [|line lines IH]; intros st; simpl; [eauto|].
  destruct (mergeLine_total st line) as [st' ->]. simpl. apply IH.
Qed.

Lemma mergeLines_app l1 l2 st :
  mergeLines S st (l1 ++ l2) = mergeLines S st l1 ≫= λ st', mergeLines S st' l2.
Proof.
  revert st. induction l1 as [|line l1 IH]; intros st; simpl; [reflexivity|].
  destruct (mergeLine S st line) as [st'|]; simpl; [apply IH|reflexivity].
Qed.

End Turn.

(** ** The invariant of the loop *)

Section Invariant.

Variable S : Settings.
Implicit Types (st : State) (o : outcome) (n : Z).

Lemma records_snoc f w :
  records (f ++ [w]) = records f ++ option_list (record w).
Proof. unfold records. rewrite omap_app. simpl. destruct (record w); reflexivity. Qed.

Lemma consistent_init : consistent (numberofrules S) (init S).
Proof.
  unfold consistent.
  change (finalFile (init S)) with (@nil write).
  change (hostnames (init S)) with seeded.
  change (numberOfRules (init S)) with (numberofrules S).
  change (records []) with (@nil string).
  split_and!; [constructor|constructor| |simpl; lia].
  rewrite list_to_set_nil. by rewrite (right_id_L ∅ (∪)).
Qed.

Lemma consistent_run n st o st' :
  consistent n st → run st o = Some st' → consistent n st'.
Proof.
  intros (Hnd & Hseed & Hhost & Hcount) Hrun.
  destruct o as [|line|out|h r]; simpl in Hrun; [discriminate|..];
    injection Hrun as <-.
  - unfold consistent; simpl. rewrite records_snoc; simpl. rewrite app_nil_r. done.
  - done.
  - case_bool_decide as Hin; [done|].
    assert (h ∉ seeded ∧ h ∉ records (finalFile st)) as [Hs Hr].
    { rewrite Hhost in Hin. set_solver. }
    unfold consistent; simpl. rewrite records_snoc; simpl. repeat split.
    + apply NoDup_app. repeat split; [done| |apply NoDup_singleton].
      intros x Hx ->%list_elem_of_singleton. done.
    + apply Forall_app. split; [done|]. by constructor.
    + rewrite Hhost, list_to_set_app_L. set_solver.
    + rewrite Hcount, length_app. simpl. lia.
Qed.

Lemma consistent_mergeLines n lines st st' :
  consistent n st → mergeLines S st lines = Some st' → consistent n st'.
Proof.
  revert st. induction lines as [|line lines IH]; intros st Hc Hm; simpl in Hm.
  - by simplify_eq.
  - destruct (mergeLine S st line) as [st1|] eqn:E; [|discriminate]. simpl in Hm.
    rewrite mergeLine_classify in E. eauto using consistent_run.
Qed.

End Invariant.

(** C1, as amended. Dedup invariant of [removeDupsAndExcl]: the pass
    returns, the hostnames of the records it wrote to the merged body are
    pairwise distinct (at most one record per hostname), none of them is
    one of the four seeded hostnames [localhost], [localhost.localdomain],
    [local] and [broadcasthost], and the count left in the settings is the
    start count plus the number of records. A record is a normalized rule
    the loop wrote; the lines copied through are not records, and the
    invariant says nothing of the hostnames they hold. *)
Theorem dedup_invariant (S : Settings) (whitelistfile : option (list string))
    (mergeFile : string) :
  ∃ S' st,
    removeDupsAndExcl S whitelistfile mergeFile = Some (S', st) ∧
    NoDup (records (finalFile st)) ∧
    Forall (λ h, h ∉ seeded) (records (finalFile st)) ∧
    numberofrules S' =
      (numberofrules S + Z.of_nat (length (records (finalFile st))))%Z.
Proof.
  unfold removeDupsAndExcl.
  set (S1 := loadWhitelist S whitelistfile).
  destruct (mergeLines_total S1 (Str.readlines mergeFile) (init S1)) as [st Hst].
  rewrite Hst. eexists _, st. split; [reflexivity|].
  destruct (consistent_mergeLines S1 _ _ _ _ (consistent_init S1) Hst)
    as (Hnd & Hseed & _ & Hcount).
  repeat split; [done..|]. simpl. rewrite Hcount.
  unfold S1, loadWhitelist. destruct whitelistfile; reflexivity.
Qed.

(** C1 as stated fails: a rule line that starts with white space is copied
    through, so the hostname [a.com] is in three lines of the body, one of
    them its record, and the seeded hostname [localhost] is in the body
    too. *)
Lemma indented_rules_repeat :
  ∃ S' st,
    removeDupsAndExcl defaults None
      (ln " 0.0.0.0 a.com" +:+ ln " 0.0.0.0 a.com" +:+ ln "0.0.0.0 a.com" +:+
       ln " 127.0.0.1 localhost") = Some (S', st) ∧
    contents (finalFile st) =
      ln (ln " 0.0.0.0 a.com") +:+ ln (ln " 0.0.0.0 a.com") +:+ ln "0.0.0.0 a.com" +:+
      ln (ln " 127.0.0.1 localhost") ∧
    records (finalFile st) = ["a.com"] ∧
    bodyHostnames (finalFile st) = ["a.com"; "a.com"; "a.com"; "localhost"] ∧
    ¬ NoDup (bodyHostnames (finalFile st)) ∧
    "localhost" ∈ seeded.
Proof.
  eexists _, _. split; [reflexivity|].
  assert (bodyHostnames
            [PassThrough (ln (ln " 0.0.0.0 a.com")); PassThrough (ln (ln " 0.0.0.0 a.com"));
             Rule "a.com" (ln "0.0.0.0 a.com"); PassThrough (ln (ln " 127.0.0.1 localhost"))] =
          ["a.com"; "a.com"; "a.com"; "localhost"]) as Hb by reflexivity.
  split_and!; try reflexivity.
  - change (¬ NoDup (bodyHostnames
            [PassThrough (ln (ln " 0.0.0.0 a.com")); PassThrough (ln (ln " 0.0.0.0 a.com"));
             Rule "a.com" (ln "0.0.0.0 a.com"); PassThrough (ln (ln " 127.0.0.1 localhost"))])).
    rewrite Hb. intros Hn. apply NoDup_cons in Hn as [Hn _]. apply Hn. left.
Qed.

(** ** The first occurrence wins *)

Section FirstWins.

Variable S : Settings.
Implicit Types (st : State) (o : outcome) (h r : string).

Lemma records_of_snoc h f w :
  records_of h (f ++ [w]) =
  records_of h f ++ (if bool_decide (record w = Some h) then [w] else []).
Proof.
  unfold records_of. rewrite filter_app. f_equal.
  rewrite filter_cons, filter_nil. case_bool_decide; case_decide; done.
Qed.

(** a hostname that is known stays known, and gets no further record *)
Lemma run_known h st o st' :
  h ∈ hostnames st → run st o = Some st' →
  h ∈ hostnames st' ∧ records_of h (finalFile st') = records_of h (finalFile st).
Proof.
  intros Hin Hrun.
  destruct o as [|line|out|h' r']; simpl in Hrun; [discriminate|..];
    injection Hrun as <-; simpl.
  - split; [done|]. rewrite records_of_snoc.
    rewrite bool_decide_eq_false_2 by (simpl; discriminate). by rewrite app_nil_r.
  - done.
  - case_bool_decide as Hin'; [done|]. simpl. split; [set_solver|].
    rewrite records_of_snoc.
    rewrite bool_decide_eq_false_2; [by rewrite app_nil_r|].
    simpl. intros [= ->]. done.
Qed.

Lemma mergeLines_known h lines st st' :
  h ∈ hostnames st → mergeLines S st lines = Some st' →
  h ∈ hostnames st' ∧ records_of h (finalFile st') = records_of h (finalFile st).
Proof.
  revert st. induction lines as [|line lines IH]; intros st Hin Hm; simpl in Hm.
  - by injection Hm as <-.
  - destruct (mergeLine S st line) as [st1|] eqn:E; [|discriminate]. simpl in Hm.
    rewrite mergeLine_classify in E.
    destruct (run_known _ _ _ _ Hin E) as [Hin1 Hr1].
    destruct (IH _ Hin1 Hm) as [Hin' Hr']. split; [done|congruence].
Qed.

(** a line that is no rule line of [h] leaves [h] as it is *)
Lemma run_other h st o st' :
  (∀ r, o ≠ Candidate h r) → run st o = Some st' →
  (h ∈ hostnames st' ↔ h ∈ hostnames st) ∧
  records_of h (finalFile st') = records_of h (finalFile st).
Proof.
  intros Ho Hrun.
  destruct o as [|line|out|h' r']; simpl in Hrun; [discriminate|..];
    injection Hrun as <-; simpl.
  - split; [done|]. rewrite records_of_snoc.
    rewrite bool_decide_eq_false_2 by (simpl; discriminate). by rewrite app_nil_r.
  - done.
  - assert (h' ≠ h) by (intros ->; by eapply Ho).
    case_bool_decide; [done|]. simpl. split; [set_solver|].
    rewrite records_of_snoc.
    rewrite bool_decide_eq_false_2; [by rewrite app_nil_r|]. simpl. congruence.
Qed.

Lemma mergeLines_other h lines st st' :
  Forall (λ l, ∀ r, classify S l ≠ Candidate h r) lines →
  mergeLines S st lines = Some st' →
  (h ∈ hostnames st' ↔ h ∈ hostnames st) ∧
  records_of h (finalFile st') = records_of h (finalFile st).
Proof.
  revert st. induction lines as [|line lines IH]; intros st HF Hm; simpl in Hm.
  - by injection Hm as <-.
  - apply Forall_cons in HF as [Hl HF].
    destruct (mergeLine S st line) as [st1|] eqn:E; [|discriminate]. simpl in Hm.
    rewrite mergeLine_classify in E.
    destruct (run_other _ _ _ _ Hl E) as [Hin1 Hr1].
    destruct (IH _ HF Hm) as [Hin' Hr']. split; [tauto|congruence].
Qed.

(** a rule line of a known hostname changes nothing and prints nothing *)
Lemma mergeLine_duplicate h r st line :
  classify S line = Candidate h r → h ∈ hostnames st →
  mergeLine S st line = Some st.
Proof.
  intros Hc Hin. rewrite mergeLine_classify, Hc. simpl.
  by rewrite bool_decide_eq_true_2.
Qed.

End FirstWins.

(** C2. First-wins ordering. A rule line of [h] is a line that reaches the
    test on [hostnames] with hostname [h] (it is parsed and not excluded).
    In every sequence of lines where [first] is the first rule line of [h]
    and [later] is a rule line of [h] after it, the loop ends in the state
    it ends in without [later] (same body, same hostnames, same count,
    nothing printed for it), and the body holds one record of [h], the one
    normalized from [first] (none when [h] is one of the seeded
    hostnames). *)
Theorem first_wins (S : Settings) (pre mid post : list string)
    (first later h r1 r2 : string) :
  classify S first = Candidate h r1 →
  classify S later = Candidate h r2 →
  Forall (λ l, ∀ r, classify S l ≠ Candidate h r) pre →
  ∃ st,
    mergeLines S (init S) (pre ++ first :: mid ++ later :: post) = Some st ∧
    mergeLines S (init S) (pre ++ first :: mid ++ post) = Some st ∧
    records_of h (finalFile st) =
      (if bool_decide (h ∈ seeded) then [] else [Rule h r1]).
Proof.
  intros Hfirst Hlater Hpre.
  destruct (mergeLines_total S pre (init S)) as [st1 H1].
  destruct (mergeLines_other S h _ _ _ Hpre H1) as [Hin1 Hr1].
  destruct (mergeLine_total S st1 first) as [st2 H2].
  assert (h ∈ hostnames st2 ∧
          records_of h (finalFile st2) =
            (if bool_decide (h ∈ seeded) then [] else [Rule h r1])) as [Hin2 Hr2].
  { rewrite mergeLine_classify, Hfirst in H2. simpl in H2. injection H2 as <-.
    change (hostnames (init S)) with seeded in Hin1.
    change (records_of h (finalFile (init S))) with (@nil write) in Hr1.
    case_bool_decide as Hk.
    - rewrite bool_decide_eq_true_2 by tauto. split; [done|]. exact Hr1.
    - rewrite bool_decide_eq_false_2 by tauto. simpl. split; [set_solver|].
      rewrite records_of_snoc, Hr1. by rewrite bool_decide_eq_true_2. }
  destruct (mergeLines_total S mid st2) as [st3 H3].
  destruct (mergeLines_known S h _ _ _ Hin2 H3) as [Hin3 Hr3].
  pose proof (mergeLine_duplicate S _ _ _ _ Hlater Hin3) as H4.
  destruct (mergeLines_total S post st3) as [st H5].
  destruct (mergeLines_known S h _ _ _ Hin3 H5) as [Hin5 Hr5].
  exists st. split_and!.
  - rewrite mergeLines_app, H1. simpl. rewrite H2. simpl.
    rewrite mergeLines_app, H3. simpl. rewrite H4. simpl. exact H5.
  - rewrite mergeLines_app, H1. simpl. rewrite H2. simpl.
    rewrite mergeLines_app, H3. simpl. exact H5.
  - congruence.
Qed.

(** a line that passes every test before the one on [hostnames], and whose
    second token has nothing after the hostname, is a rule line *)
Lemma classify_rule (S : Settings) (line t0 t1 ip host : string)
    (rest : list string) :
  passThrough (trim line) = Some false →
  Str.contains (trim line) "::1" = false →
  Str.split (trim line) = t0 :: t1 :: rest →
  existsb (λ re, Re.search re t1) (exclusionregexs S) = false →
  RulePattern.search (t0 +:+ " " +:+ t1) = Some (ip, host, EmptyString) →
  whitelisted S (trim line) = false →
  let hostname := Str.strip Char.isspace (Str.lower host) in
  classify S line =
    Candidate hostname (targetip S +:+ " " +:+ hostname +:+ String Char.nl EmptyString).
Proof.
  intros Hp Hc Hs Hre Hpat Hw hostname. unfold classify. rewrite Hp, Hc.
  destruct (stripRule_cases (trim line))
    as [[_ Hlen]|(t0' & t1' & rest' & Hs1 & Hr & E2 & Hs')].
  { rewrite Hs in Hlen. simpl in Hlen. lia. }
  rewrite Hs in Hs1. injection Hs1 as <- <- <-.
  rewrite E2. unfold matchesExclusions. rewrite Hs'. simpl. rewrite Hre, Hr.
  unfold normalizeRule. rewrite Hpat. simpl. rewrite Hw.
  rewrite !is_empty_app. simpl. rewrite !andb_false_r. reflexivity.
Qed.

(** the lines of the claim, for any target address and with no exclusion:
    one record, the count raised by one *)
Example first_wins_example (S : Settings) :
  exclusionregexs S = [] → exclusions S = [] →
  mergeLines S (init S) [ln "0.0.0.0 a.com"; ln "1.2.3.4 a.com"] =
  Some (accept "a.com" (targetip S +:+ ln " a.com") (init S)).
Proof.
  intros Hre Hex.
  assert (∀ line t0, passThrough (trim line) = Some false →
            Str.contains (trim line) "::1" = false →
            Str.split (trim line) = [t0; "a.com"] →
            RulePattern.search (t0 +:+ " " +:+ "a.com")
              = Some (t0, "a.com", EmptyString) →
            classify S line = Candidate "a.com" (targetip S +:+ ln " a.com")) as Hrule.
  { intros line t0 Hp Hc Hs Hpat.
    apply (classify_rule S line t0 "a.com" t0 "a.com" []); try done.
    - by rewrite Hre.
    - unfold whitelisted. by rewrite Hex. }
  simpl. rewrite !mergeLine_classify.
  rewrite (Hrule (ln "0.0.0.0 a.com") "0.0.0.0") by reflexivity. simpl.
  rewrite bool_decide_eq_false_2 by (vm_compute; discriminate). simpl.
  rewrite mergeLine_classify.
  rewrite (Hrule (ln "1.2.3.4 a.com") "1.2.3.4") by reflexivity. simpl.
  rewrite bool_decide_eq_true_2 by set_solver. reflexivity.
Qed.

Lemma first_wins_witness :
  classify defaults (ln "0.0.0.0 a.com") = Candidate "a.com" (ln "0.0.0.0 a.com") ∧
  classify defaults (ln "1.2.3.4 a.com") = Candidate "a.com" (ln "0.0.0.0 a.com") ∧
  ∃ st,
    mergeLines defaults (init defaults)
      ([ln "# ads"] ++ ln "0.0.0.0 a.com" :: [ln "0.0.0.0 b.com"] ++
       ln "1.2.3.4 a.com" :: []) = Some st ∧
    mergeLines defaults (init defaults)
      ([ln "# ads"] ++ ln "0.0.0.0 a.com" :: [ln "0.0.0.0 b.com"] ++ []) = Some st ∧
    records_of "a.com" (finalFile st) =
      (if bool_decide ("a.com" ∈ seeded) then []
       else [Rule "a.com" (ln "0.0.0.0 a.com")]).
Proof.
  assert (classify defaults (ln "0.0.0.0 a.com")
          = Candidate "a.com" (ln "0.0.0.0 a.com")) as H1 by (vm_compute; reflexivity).
  assert (classify defaults (ln "1.2.3.4 a.com")
          = Candidate "a.com" (ln "0.0.0.0 a.com")) as H2 by (vm_compute; reflexivity).
  split; [exact H1|]. split; [exact H2|].
  apply (first_wins defaults [ln "# ads"] [ln "0.0.0.0 b.com"] []
           (ln "0.0.0.0 a.com") (ln "1.2.3.4 a.com") "a.com"
           (ln "0.0.0.0 a.com") (ln "0.0.0.0 a.com") H1 H2).
  repeat constructor. intros r. vm_compute. discriminate.
Defined.

(** ** Lines copied through *)

(** C5, as amended. A comment or blank line (a line whose first character,
    after the trimming step of the loop, is [#] or white space) is written
    as the trimming step leaves it, which need not be its original bytes,
    and the turn leaves [hostnames] and the count as they were. *)
Theorem pass_through_trimmed (S : Settings) (st : State) (line : string) :
  passThrough (trim line) = Some true →
  ∃ st',
    mergeLine S st line = Some st' ∧
    finalFile st' = finalFile st ++ [PassThrough (trim line)] ∧
    hostnames st' = hostnames st ∧
    numberOfRules st' = numberOfRules st.
Proof.
  intros Hp. unfold mergeLine. rewrite Hp. eexists. split; [reflexivity|]. done.
Qed.

Lemma pass_through_trimmed_witness :
  passThrough (trim "# note .") = Some true ∧
  ∃ st',
    mergeLine defaults (init defaults) "# note ." = Some st' ∧
    finalFile st' = finalFile (init defaults) ++ [PassThrough (trim "# note .")] ∧
    hostnames st' = hostnames (init defaults) ∧
    numberOfRules st' = numberOfRules (init defaults).
Proof.
  split; [reflexivity|].
  apply (pass_through_trimmed defaults (init defaults) "# note ."). reflexivity.
Defined.

(** C5 as stated fails: the comment line [# note .], read as the last line
    of the merged file, is not copied unchanged; its last two characters are
    gone from the body. *)
Lemma pass_through_not_verbatim :
  ∃ st',
    mergeLine defaults (init defaults) "# note ." = Some st' ∧
    finalFile st' = [PassThrough (ln "# note")] ∧
    Str.contains (contents (finalFile st')) "# note ." = false.
Proof. eexists. split; [reflexivity|]. split; reflexivity. Qed.

(** C6, as amended. A line of 7-bit text is copied through, in the form
    the trimming step of the loop leaves it in, exactly when the first
    character of the trimmed line is [#] or a white-space character,
    whatever follows it; every other line goes on to the tests for rules. *)
Theorem pass_through_iff (S : Settings) (st : State) (line : string) :
  isascii line = true →
  (mergeLine S st line = Some (writeData (PassThrough (trim line)) st) ↔
   ∃ c rest, trim line = String c rest ∧ (c = "#"%char ∨ Char.isspace c = true)).
Proof.
  intros _.
  destruct (trim_cons line) as (c & rest & Ht).
  assert (passThrough (trim line) = Some true ↔
          (c = "#"%char ∨ Char.isspace c = true)) as Hpass.
  { rewrite Ht. simpl. unfold blank. simpl. rewrite andb_true_r. split.
    - intros [= [H|H]%orb_prop]; [left; by apply Ascii.eqb_eq|by right].
    - intros [->|H]; [reflexivity|]. rewrite H, orb_true_r. reflexivity. }
  split.
  - intros Hm. exists c, rest. split; [done|]. apply Hpass.
    rewrite mergeLine_classify in Hm. unfold classify in Hm.
    destruct (passThrough (trim line)) as [[]|]; [done|exfalso|discriminate].
    assert (∀ st' : State, Some st' = Some (writeData (PassThrough (trim line)) st) →
              finalFile st' ≠ finalFile st ∧
              (∀ h r, finalFile st' ≠ finalFile st ++ [Rule h r])) as Hne.
    { intros st' [= ->]. simpl. split.
      - intros E%(f_equal length). rewrite length_app in E. simpl in E. lia.
      - intros h r E%app_inv_head. discriminate. }
    repeat match type of Hm with
           | run _ (match ?x with _ => _ end) = _ => destruct x
           | run _ (if ?x then _ else _) = _ => destruct x
           | run _ (let '(_, _) := ?x in _) = _ => destruct x
           end; simpl in Hm;
      try discriminate;
      try (apply Hne in Hm as [Hm _]; by apply Hm);
      try (case_bool_decide;
           [apply Hne in Hm as [Hm _]; by apply Hm
           |apply Hne in Hm as [_ Hm]; by eapply Hm]).
  - intros (c' & rest' & Ht' & Hc). rewrite Ht in Ht'. injection Ht' as <- <-.
    apply Hpass in Hc. unfold mergeLine. rewrite Hc. reflexivity.
Qed.

(** the line of the claim, a rule after a space: it is copied through with
    the second newline of the trimming step *)
Lemma pass_through_iff_witness :
  isascii (ln " 0.0.0.0 a.com") = true ∧
  mergeLine defaults (init defaults) (ln " 0.0.0.0 a.com") =
    Some (writeData (PassThrough (ln (ln " 0.0.0.0 a.com"))) (init defaults)).
Proof.
  split; [reflexivity|].
  apply (proj2 (pass_through_iff defaults (init defaults) (ln " 0.0.0.0 a.com") eq_refl)).
  eexists _, _. split; [reflexivity|]. right. reflexivity.
Defined.

(** C6 as stated fails: a line that starts with a space and goes on with a
    rule the pattern of [normalizeRule] matches is not all white space, and
    yet it is copied through, not parsed: no record is written, and the body
    holds the line as trimmed, with two newlines. *)
Lemma indented_rule_copied :
  blank (trim (ln " 0.0.0.0 a.com")) = false ∧
  RulePattern.search (trim (ln " 0.0.0.0 a.com")) = Some ("0.0.0.0", "a.com", EmptyString) ∧
  ∃ st',
    mergeLine defaults (init defaults) (ln " 0.0.0.0 a.com") = Some st' ∧
    records (finalFile st') = [] ∧
    finalFile st' = [PassThrough (trim (ln " 0.0.0.0 a.com"))] ∧
    contents (finalFile st') = ln (ln " 0.0.0.0 a.com").
Proof.
  split; [reflexivity|]. split; [reflexivity|].
  eexists. split; [reflexivity|]. split_and!; reflexivity.
Qed.

(** ** Lines that are dropped *)

Section Dropped.

Variable S : Settings.
Implicit Types (st : State) (line : string).

(** the reasons for which the loop drops a line that is not copied
    through, read on the trimmed line *)
Lemma classify_dropped line :
  passThrough (trim line) = Some false →
  Str.contains (trim line) "::1" = true
  ∨ length (Str.split (trim line)) < 2
  ∨ (∃ t1, Str.split (trim line) !! 1%nat = Some t1 ∧
       existsb (λ re, Re.search re t1) (exclusionregexs S) = true)
  ∨ whitelisted S (trim line) = true
  ∨ RulePattern.search (stripRule (trim line)) = None →
  ∃ out, classify S line = Dropped out.
Proof.
  intros Hp Hwhy. unfold classify. rewrite Hp.
  destruct (Str.contains (trim line) "::1") eqn:E1; [eauto|].
  destruct (stripRule_cases (trim line))
    as [[E2 Hlen]|(t0 & t1 & rest & Hs & Hr & E2 & Hs')].
  { rewrite E2. simpl. eauto. }
  rewrite E2. unfold matchesExclusions. rewrite Hs'. simpl.
  destruct (existsb _ (exclusionregexs S)) eqn:E3; [eauto|].
  destruct (normalizeRule S (stripRule (trim line))) as [out [[h r]|]] eqn:En; [|eauto].
  destruct Hwhy as [H|[H|[(t & Ht & H)|[H|H]]]].
  - congruence.
  - rewrite Hs in H. simpl in H. lia.
  - rewrite Hs in Ht. injection Ht as <-. congruence.
  - rewrite H, andb_false_r. eauto.
  - unfold normalizeRule in En. rewrite H in En. discriminate.
Qed.

Lemma Candidate_accepted line h r st :
  classify S line = Candidate h r → h ∉ hostnames st →
  mergeLine S st line = Some (accept h r st).
Proof.
  intros Hc Hin. rewrite mergeLine_classify, Hc. simpl.
  by rewrite bool_decide_eq_false_2.
Qed.

End Dropped.

Lemma contents_snoc (f : list write) (w : write) :
  contents (f ++ [w]) = contents f +:+ data w.
Proof.
  induction f as [|x f IH]; simpl; [by rewrite sapp_nil_r|].
  by rewrite IH, sapp_assoc.
Qed.

(** C10. Frame of the dropped lines. A line that the loop does not copy
    through and that holds [::1], or has fewer than two tokens, or whose
    second token matches an exclusion pattern, or that holds a whitelist
    literal, or whose stripped rule does not parse, leaves the body,
    [hostnames] and the count as they were. So a later rule line whose
    hostname was not known before the dropped line is still written: its
    record is added at the end of the body, its hostname to [hostnames],
    and one to the count. *)
Theorem dropped_line_frame (S : Settings) (st : State) (line : string) :
  passThrough (trim line) = Some false →
  Str.contains (trim line) "::1" = true
  ∨ length (Str.split (trim line)) < 2
  ∨ (∃ t1, Str.split (trim line) !! 1%nat = Some t1 ∧
       existsb (λ re, Re.search re t1) (exclusionregexs S) = true)
  ∨ whitelisted S (trim line) = true
  ∨ RulePattern.search (stripRule (trim line)) = None →
  ∃ st',
    mergeLine S st line = Some st' ∧
    finalFile st' = finalFile st ∧
    hostnames st' = hostnames st ∧
    numberOfRules st' = numberOfRules st ∧
    ∀ later h r,
      classify S later = Candidate h r → h ∉ hostnames st →
      ∃ st'',
        mergeLine S st' later = Some st'' ∧
        finalFile st'' = finalFile st ++ [Rule h r] ∧
        contents (finalFile st'') = contents (finalFile st) +:+ r ∧
        hostnames st'' = hostnames st ∪ {[ h ]} ∧
        numberOfRules st'' = (numberOfRules st + 1)%Z.
Proof.
  intros Hp Hwhy. destruct (classify_dropped S line Hp Hwhy) as [out Hc].
  exists (print out st). rewrite mergeLine_classify, Hc. simpl.
  split_and!; try reflexivity.
  intros later h r Hl Hin. exists (accept h r (print out st)).
  split; [by apply Candidate_accepted|]. simpl. split_and!; try reflexivity.
  apply contents_snoc.
Qed.

(** the first occurrence of [a.com] is dropped for the whitelist literal in
    its comment, and the second is written *)
Lemma dropped_line_frame_witness :
  let S := set_exclusions defaults ["tracker"] in
  passThrough (trim (ln "0.0.0.0 a.com # tracker")) = Some false ∧
  whitelisted S (trim (ln "0.0.0.0 a.com # tracker")) = true ∧
  classify S (ln "0.0.0.0 a.com") = Candidate "a.com" (ln "0.0.0.0 a.com") ∧
  ∃ st' st'',
    mergeLine S (init S) (ln "0.0.0.0 a.com # tracker") = Some st' ∧
    mergeLine S st' (ln "0.0.0.0 a.com") = Some st'' ∧
    finalFile st'' = [Rule "a.com" (ln "0.0.0.0 a.com")] ∧
    contents (finalFile st'') = ln "0.0.0.0 a.com" ∧
    hostnames st'' = seeded ∪ {[ "a.com" ]} ∧
    numberOfRules st'' = 1%Z.
Proof.
  intros S.
  assert (passThrough (trim (ln "0.0.0.0 a.com # tracker")) = Some false) as H1
    by reflexivity.
  assert (whitelisted S (trim (ln "0.0.0.0 a.com # tracker")) = true) as H2
    by reflexivity.
  assert (classify S (ln "0.0.0.0 a.com") = Candidate "a.com" (ln "0.0.0.0 a.com"))
    as H3 by reflexivity.
  split_and!; try done.
  destruct (dropped_line_frame S (init S) (ln "0.0.0.0 a.com # tracker") H1
              (or_intror (or_intror (or_intror (or_introl H2)))))
    as (st' & Hm & _ & _ & _ & Hlater).
  destruct (Hlater (ln "0.0.0.0 a.com") "a.com" (ln "0.0.0.0 a.com") H3)
    as (st'' & Hm2 & Hf & Hc & Hh & Hn).
  { vm_compute. discriminate. }
  exists st', st''. split_and!; [exact Hm|exact Hm2|exact Hf|exact Hc|exact Hh|exact Hn].
Defined.

(** ** Lines that hold [::1] *)

(** C4, as amended. A line that holds [::1] and is not copied through is
    dropped whatever the settings and the state: the turn changes nothing.
    A line that holds [::1] and is copied through (its first character is
    [#] or white space) is written to the body. The header writes its own
    [::1 localhost] entry, unless the static hosts are skipped. *)
Theorem loopback_lines (S : Settings) (H : Header.Host) (st : State)
    (line : string) :
  Str.contains line "::1" = true →
  (passThrough (trim line) = Some false → mergeLine S st line = Some st) ∧
  (passThrough (trim line) = Some true →
     mergeLine S st line = Some (writeData (PassThrough (trim line)) st) ∧
     Str.contains (trim line) "::1" = true) ∧
  (skipstatichosts S = false → ln "::1 localhost" ∈ Header.header S H).
Proof.
  intros Hc%trim_keeps_loopback. split_and!.
  - intros Hp. unfold mergeLine. rewrite Hp, Hc. reflexivity.
  - intros Hp. unfold mergeLine. rewrite Hp. done.
  - intros Hs. unfold Header.header, Header.static. rewrite Hs.
    rewrite !elem_of_app. do 3 right. left. left.
    do 4 apply list_elem_of_further. apply list_elem_of_here.
Qed.

Lemma loopback_lines_witness :
  Str.contains (ln "::1 ip6-localhost") "::1" = true ∧
  mergeLine defaults (init defaults) (ln "::1 ip6-localhost") = Some (init defaults).
Proof.
  split; [reflexivity|].
  apply (loopback_lines defaults (Header.mkHost "November 05 2026" None None)
           (init defaults) (ln "::1 ip6-localhost")); reflexivity.
Defined.

(** C4 as stated fails: a comment line that holds [::1] is not dropped; it
    is in the body, and so in the final file after the header, which then
    holds [::1] outside the static entries (here the static hosts are
    skipped and the file still holds it). *)
Lemma loopback_comment_kept :
  let S := mkSettings 0 true false [] EmptyString "0.0.0.0" [] [] in
  let H := Header.mkHost "November 05 2026" None None in
  ∃ S' st,
    removeDupsAndExcl S None (ln "# ::1 is the loopback address") = Some (S', st) ∧
    Str.contains (contents (finalFile st)) "::1" = true ∧
    Forall (λ l, Str.contains l "::1" = false) (Header.header S' H) ∧
    Str.contains (Header.writeOpeningHeader S' H (finalFile st)) "::1" = true.
Proof.
  intros S H. eexists _, _. split; [reflexivity|].
  split; [reflexivity|]. split; [|reflexivity].
  repeat constructor.
Qed.

(** ** Exclusion *)

(** C9. Exclusion is a disjunction, and its two tests read different texts.
    Take a line that reaches the exclusion tests (not copied through, no
    [::1], at least two tokens [t0] and [t1]), whose stripped rule parses to
    the hostname [h], not known yet. The line is dropped, the state left as
    it was and [h] still unknown, exactly when (a) the second token [t1], as
    it stands in the line, matches one of the compiled patterns or (b) the
    text of the line holds one of the whitelist literals; otherwise its rule
    is written. Test (b) reads the line, not the normalized rule. *)
Theorem exclusion_disjunction (S : Settings) (st : State)
    (line t0 t1 h r : string) (rest : list string) :
  passThrough (trim line) = Some false →
  Str.contains (trim line) "::1" = false →
  Str.split (trim line) = t0 :: t1 :: rest →
  snd (normalizeRule S (t0 +:+ " " +:+ t1)) = Some (h, r) →
  h ∉ hostnames st →
  let excluded :=
    existsb (λ re, Re.search re t1) (exclusionregexs S)
    || existsb (λ exclude, Str.contains (trim line) exclude) (exclusions S) in
  ∃ st',
    mergeLine S st line = Some st' ∧
    (st' = st ↔ excluded = true) ∧
    (excluded = true → h ∉ hostnames st') ∧
    (excluded = false → st' = accept h r st).
Proof.
  intros Hp Hc Hs Hn Hin excluded.
  assert (accept h r st ≠ st) as Hne.
  { intros E%(f_equal finalFile)%(f_equal length). simpl in E.
    rewrite length_app in E. simpl in E. lia. }
  destruct (stripRule_cases (trim line))
    as [[_ Hlen]|(t0' & t1' & rest' & Hs1 & Hr & E2 & Hs')].
  { rewrite Hs in Hlen. simpl in Hlen. lia. }
  rewrite Hs in Hs1. injection Hs1 as <- <- <-.
  destruct (normalizeRule S (t0 +:+ " " +:+ t1)) as [out res] eqn:En.
  simpl in Hn. subst res. pose proof (normalizeRule_Some _ _ _ _ _ En) as [-> Er].
  unfold mergeLine. rewrite Hp, Hc, E2. unfold matchesExclusions. rewrite Hs'. simpl.
  subst excluded. fold (whitelisted S (trim line)).
  destruct (existsb _ (exclusionregexs S)); simpl.
  { exists st. split_and!; done. }
  rewrite Hr, En, print_nil, Er. simpl.
  rewrite bool_decide_eq_false_2 by exact Hin. simpl.
  destruct (whitelisted S (trim line)); simpl.
  - exists st. split_and!; done.
  - exists (accept h r st). split_and!; done.
Qed.

(** the whitelist literal [tracker] is in the comment of the line only, not
    in the rule that would be written, and the line is dropped *)
Lemma exclusion_disjunction_witness :
  let S := set_exclusions defaults ["tracker"] in
  snd (normalizeRule S ("0.0.0.0" +:+ " " +:+ "a.com")) =
    Some ("a.com", ln "0.0.0.0 a.com") ∧
  Str.contains (ln "0.0.0.0 a.com") "tracker" = false ∧
  mergeLine S (init S) (ln "0.0.0.0 a.com # tracker") = Some (init S).
Proof.
  intros S. split; [reflexivity|]. split; [reflexivity|].
  destruct (exclusion_disjunction S (init S) (ln "0.0.0.0 a.com # tracker")
              "0.0.0.0" "a.com" "a.com" (ln "0.0.0.0 a.com") ["#"; "tracker"])
    as (st' & Hm & [_ Hst] & _).
  - reflexivity.
  - reflexivity.
  - reflexivity.
  - reflexivity.
  - vm_compute. discriminate.
  - rewrite Hm. f_equal. apply Hst. reflexivity.
Defined.

(** a line whose second token matches a compiled pattern is dropped before
    it is parsed; the token is matched as it stands in the line, before it
    is put in lower case *)
Example exclusion_examples :
  ∃ S, excludeDomain defaults "hulu.com" = Some S ∧
    classify S (ln "0.0.0.0 ads.hulu.com") = Dropped [] ∧
    classify S (ln "0.0.0.0 ads.HULU.com") =
      Candidate "ads.hulu.com" (ln "0.0.0.0 ads.hulu.com") ∧
    classify S (ln "0.0.0.0 ads.example.com") =
      Candidate "ads.example.com" (ln "0.0.0.0 ads.example.com").
Proof. eexists. split; [reflexivity|]. split_and!; reflexivity. Qed.

(** ** Patterns *)

Section ReFacts.

Import Re.
Implicit Types (r : regex) (s p q a b : string) (c : ascii).

Lemma sapp_eq_cons a b c s :
  a +:+ b = String c s →
  (a = EmptyString ∧ b = String c s) ∨ (∃ a', a = String c a' ∧ s = a' +:+ b).
Proof.
  destruct a as [|x a]; [by left|]. rewrite sapp_cons. intros [= -> <-].
  right. eauto.
Qed.

Lemma matches_nil_nullable r s : matches r s → s = EmptyString → nullable r = true.
Proof.
  induction 1 as [|p c Hc|r1 r2 s1 s2 _ IH1 _ IH2|r1 r2 s _ IH|r1 r2 s _ IH| |];
    intros E; simpl; try done.
  - apply sapp_eq_nil in E as [-> ->]. by rewrite IH1, IH2.
  - by rewrite IH.
  - rewrite IH by done. apply orb_true_r.
Qed.

Lemma nullable_iff r : nullable r = true ↔ matches r EmptyString.
Proof.
  split; [|intros H; by eapply matches_nil_nullable].
  induction r as [| |p|r1 IH1 r2 IH2|r1 IH1 r2 IH2|r IH]; simpl; try done.
  - intros _. constructor.
  - intros [H1 H2]%andb_prop.
    change EmptyString with (EmptyString +:+ EmptyString). constructor; auto.
  - intros [H|H]%orb_prop; [apply m_alt_l|apply m_alt_r]; auto.
  - intros _. constructor.
Qed.

Lemma deriv_sound c r s : matches (deriv c r) s → matches r (String c s).
Proof.
  revert s. induction r as [| |p|r1 IH1 r2 IH2|r1 IH1 r2 IH2|r IH]; simpl; intros s H.
  - inversion H.
  - inversion H.
  - destruct (p c) eqn:Hc; inversion H; subst. by constructor.
  - assert (∀ s, matches (Cat (deriv c r1) r2) s → matches (Cat r1 r2) (String c s))
      as Hcat.
    { intros s' H'. inversion H'; subst. rewrite <- sapp_cons. constructor; auto. }
    destruct (nullable r1) eqn:Hn; [|by apply Hcat].
    inversion H; subst; [by apply Hcat|].
    rewrite <- (sapp_nil_l (String c s)). constructor; [by apply nullable_iff|auto].
  - inversion H; subst; [apply m_alt_l|apply m_alt_r]; auto.
  - inversion H; subst. rewrite <- sapp_cons. constructor; auto.
Qed.

Lemma deriv_complete r w :
  matches r w → ∀ c s, w = String c s → matches (deriv c r) s.
Proof.
  induction 1 as [|p x Hx|r1 r2 s1 s2 H1 IH1 H2 IH2|r1 r2 s1 _ IH|r1 r2 s1 _ IH
                 |r|r s1 s2 H1 IH1 H2 IH2]; intros c s E; simpl.
  - discriminate.
  - injection E as -> <-. rewrite Hx. constructor.
  - apply sapp_eq_cons in E as [[-> ->]|(a' & -> & ->)].
    + rewrite (matches_nil_nullable _ _ H1 eq_refl). apply m_alt_r. by apply IH2.
    + destruct (nullable r1); [apply m_alt_l|]; constructor; auto.
  - apply m_alt_l. by apply IH.
  - apply m_alt_r. by apply IH.
  - discriminate.
  - apply sapp_eq_cons in E as [[-> ->]|(a' & -> & ->)].
    + by apply IH2.
    + constructor; auto.
Qed.

Lemma deriv_iff c r s : matches (deriv c r) s ↔ matches r (String c s).
Proof. split; [apply deriv_sound|]. intros H. by eapply deriv_complete. Qed.

(** [match_here]: a prefix of the text is in the language *)
Lemma match_here_iff r s :
  match_here r s = true ↔ ∃ p q, s = p +:+ q ∧ matches r p.
Proof.
  revert r. induction s as [|c s IH]; intros r; simpl.
  - rewrite orb_false_r, nullable_iff. split.
    + intros H. by exists EmptyString, EmptyString.
    + intros (p & q & E & H). symmetry in E. by apply sapp_eq_nil in E as [-> _].
  - rewrite orb_true_iff, nullable_iff, IH. split.
    + intros [H|(p & q & -> & H)].
      * by exists EmptyString, (String c s).
      * exists (String c p), q. split; [done|]. by apply deriv_iff.
    + intros (p & q & E & H). symmetry in E.
      apply sapp_eq_cons in E as [[-> _]|(p' & -> & ->)]; [by left|].
      right. exists p', q. split; [done|]. by apply deriv_iff.
Qed.

(** [search]: a part of the text is in the language *)
Lemma search_iff r s :
  search r s = true ↔ ∃ a p b, s = a +:+ p +:+ b ∧ matches r p.
Proof.
  induction s as [|c s IH].
  - change (search r EmptyString) with (match_here r EmptyString || false).
    rewrite orb_false_r, match_here_iff. split.
    + intros (p & q & E & H). by exists EmptyString, p, q.
    + intros (a & p & b & E & H). symmetry in E.
      apply sapp_eq_nil in E as [-> E]. eauto.
  - change (search r (String c s))
      with (match_here r (String c s) || search r s).
    rewrite orb_true_iff, match_here_iff, IH. split.
    + intros [(p & q & E & H)|(a & p & b & -> & H)].
      * by exists EmptyString, p, q.
      * by exists (String c a), p, b.
    + intros (a & p & b & E & H). symmetry in E.
      apply sapp_eq_cons in E as [[-> E]|(a' & -> & ->)]; [left|right]; eauto.
Qed.

(** a pattern that starts with a repetition finds what the rest finds *)
Lemma search_star_prefix r0 r s :
  search (Cat (Star r0) r) s = search r s.
Proof.
  apply eq_true_iff_eq. rewrite !search_iff. split.
  - intros (a & p & b & -> & H). inversion H as [| |? ? p1 p2 _ H2| | | |]; subst.
    exists (a +:+ p1), p2, b. by rewrite !sapp_assoc.
  - intros (a & p & b & -> & H). exists a, p, b. split; [done|].
    rewrite <- (sapp_nil_l p). constructor; [constructor|done].
Qed.

(** a pasted domain matches the texts it reads as a pattern *)
Lemma of_domain_wild d r m :
  of_domain d = Some r → matches r m ↔ wild d m = true.
Proof.
  revert r m. induction d as [|c d IH]; intros r m; simpl.
  - intros [= <-]. split.
    + intros H. by inversion H.
    + destruct m; [constructor|done].
  - assert (∀ (f : ascii → bool) r', (∀ m', matches r' m' ↔ wild d m' = true) →
            matches (Cat (Class f) r') m ↔
            match m with
            | EmptyString => false
            | String x m' => f x && wild d m'
            end = true) as Hstep.
    { intros f r' Hr'. split.
      - intros H. inversion H as [| |? ? s1 s2 H1 H2| | | |]; subst.
        inversion H1; subst. rewrite sapp_cons, sapp_nil_l.
        apply andb_true_intro. split; [done|]. by apply Hr'.
      - destruct m as [|x m']; [done|]. intros [Hx Hm]%andb_prop.
        change (String x m') with (String x EmptyString +:+ m').
        constructor; [by constructor|by apply Hr']. }
    destruct (Ascii.eqb c "."%char) eqn:Ec.
    + destruct (of_domain d) as [r'|] eqn:Ed; [|done]. intros [= <-].
      unfold Dot, Lit. rewrite (Hstep _ r' (λ m', IH r' m' eq_refl)). by destruct m.
    + destruct (Char.ismeta c); [done|].
      destruct (of_domain d) as [r'|] eqn:Ed; [|done]. intros [= <-].
      unfold Dot, Lit. rewrite (Hstep _ r' (λ m', IH r' m' eq_refl)). by destruct m.
Qed.

(** an escaped domain matches itself only *)
Lemma of_literal_eq d m : matches (of_literal d) m ↔ m = d.
Proof.
  revert m. induction d as [|c d IH]; intros m; simpl.
  - split; [intros H; by inversion H|intros ->; constructor].
  - split.
    + intros H. inversion H as [| |? ? s1 s2 H1 H2| | | |]; subst.
      inversion H1 as [|? ? Hc| | | | |]; subst. apply Ascii.eqb_eq in Hc as ->.
      apply IH in H2 as ->. reflexivity.
    + intros ->. change (String c d) with (String c EmptyString +:+ d).
      constructor; [constructor; apply Ascii.eqb_refl|by apply IH].
Qed.

End ReFacts.

(** ** The pattern of [normalizeRule] *)

Section RulePatternFacts.

Import Re RulePattern.
Implicit Types (r : regex) (s a b : string) (c : ascii) (p q : ascii -> bool).

Lemma span_spec p s a b :
  Str.span p s = (a, b) →
  s = a +:+ b ∧ Str.forallb p a = true ∧ Str.stops p b = true.
Proof.
  revert a b. induction s as [|c s IH]; intros a b; simpl.
  - intros [= <- <-]. done.
  - destruct (p c) eqn:Hc.
    + destruct (Str.span p s) as [a' b'] eqn:E. intros [= <- <-].
      destruct (IH _ _ eq_refl) as (-> & Ha & Hb).
      rewrite sapp_cons. simpl. by rewrite Hc, Ha.
    + intros [= <- <-]. rewrite sapp_nil_l. simpl. by rewrite Hc.
Qed.

Lemma span_eq p a b :
  Str.forallb p a = true → Str.stops p b = true → Str.span p (a +:+ b) = (a, b).
Proof.
  intros Ha Hb. induction a as [|c a IH].
  - rewrite sapp_nil_l. destruct b as [|c b]; [reflexivity|]. simpl in *.
    apply negb_true_iff in Hb. by rewrite Hb.
  - simpl in Ha. apply andb_prop in Ha as [Hc Ha].
    rewrite sapp_cons. simpl. by rewrite Hc, IH.
Qed.

Lemma many1_spec p s a b :
  many1 p s = Some (a, b) →
  s = a +:+ b ∧ Str.forallb p a = true ∧ Str.is_empty a = false ∧
  Str.stops p b = true.
Proof.
  unfold many1. destruct (Str.span p s) as [a' b'] eqn:E.
  destruct (Str.is_empty a') eqn:Ea; [done|]. intros [= <- <-].
  destruct (span_spec _ _ _ _ E) as (? & ? & ?). done.
Qed.

Lemma many1_eq p a b :
  Str.forallb p a = true → Str.is_empty a = false → Str.stops p b = true →
  many1 p (a +:+ b) = Some (a, b).
Proof. intros Ha Ea Hb. unfold many1. by rewrite span_eq, Ea. Qed.

Lemma many1_starts p c s : p c = true → is_Some (many1 p (String c s)).
Proof.
  intros Hc. unfold many1. simpl. rewrite Hc.
  destruct (Str.span p s). simpl. eauto.
Qed.

Lemma expect_spec c s s' : expect c s = Some s' → s = String c s'.
Proof.
  destruct s as [|c' s]; simpl; [done|].
  destruct (Ascii.eqb c c') eqn:E; [|done]. apply Ascii.eqb_eq in E as ->.
  by intros [= ->].
Qed.

(** a text of one class stops a repetition of a class it is apart from *)
Lemma stops_apart p q a b :
  (∀ c, p c = true → q c = false) →
  Str.forallb p a = true → Str.is_empty a = false → Str.stops q (a +:+ b) = true.
Proof.
  intros Hpq Ha Ea. destruct a as [|c a]; [done|]. simpl in *.
  apply andb_prop in Ha as [Hc _]. by rewrite (Hpq _ Hc).
Qed.

Lemma digit_not_blank c : Char.isdigit c = true → blank c = false.
Proof. destruct c as [[] [] [] [] [] [] [] []]; done. Qed.

Lemma space_not_digit c : Char.isspace c = true → Char.isdigit c = false.
Proof. destruct c as [[] [] [] [] [] [] [] []]; done. Qed.

Lemma hostchar_not_space c : hostchar c = true → Char.isspace c = false.
Proof. destruct c as [[] [] [] [] [] [] [] []]; done. Qed.

(** *** The language of the parts of the pattern *)

Lemma matches_cat_inv r1 r2 s :
  matches (Cat r1 r2) s ↔ ∃ s1 s2, s = s1 +:+ s2 ∧ matches r1 s1 ∧ matches r2 s2.
Proof.
  split.
  - intros H. inversion H; subst. eauto.
  - intros (s1 & s2 & -> & H1 & H2). by constructor.
Qed.

Lemma matches_class p s :
  matches (Class p) s ↔ ∃ c, s = String c EmptyString ∧ p c = true.
Proof.
  split.
  - intros H. inversion H; subst. eauto.
  - intros (c & -> & Hc). by constructor.
Qed.

Lemma matches_star_class p s :
  matches (Star (Class p)) s ↔ Str.forallb p s = true.
Proof.
  split.
  - intros H. remember (Star (Class p)) as r eqn:Er.
    induction H as [| | | | | |r' s1 s2 H1 _ H2 IH2]; try discriminate; [done|].
    injection Er as ->. apply matches_class in H1 as (c & -> & Hc).
    rewrite sapp_cons, sapp_nil_l. simpl. by rewrite Hc, IH2.
  - induction s as [|c s IH]; simpl; [constructor|].
    intros [Hc Hs]%andb_prop.
    change (String c s) with (String c EmptyString +:+ s).
    constructor; [by constructor|auto].
Qed.

Lemma matches_plus_class p s :
  matches (Plus (Class p)) s ↔
  Str.forallb p s = true ∧ Str.is_empty s = false.
Proof.
  unfold Plus. rewrite matches_cat_inv. split.
  - intros (s1 & s2 & -> & (c & -> & Hc)%matches_class & H2%matches_star_class).
    rewrite sapp_cons, sapp_nil_l. simpl. by rewrite Hc, H2.
  - destruct s as [|c s]; [intros [_ ?]; done|]. simpl.
    intros [[Hc Hs]%andb_prop _]. exists (String c EmptyString), s.
    split; [done|]. split; [by constructor|by apply matches_star_class].
Qed.

Lemma matches_lit c s : matches (Lit c) s ↔ s = String c EmptyString.
Proof.
  unfold Lit. rewrite matches_class. split.
  - intros (c' & -> & ->%Ascii.eqb_eq). done.
  - intros ->. exists c. split; [done|apply Ascii.eqb_refl].
Qed.

Lemma matches_quad ip :
  matches quad_pattern ip ↔
  ∃ d1 d2 d3 d4,
    ip = d1 +:+ "." +:+ d2 +:+ "." +:+ d3 +:+ "." +:+ d4 ∧
    Forall (λ d, Str.forallb Char.isdigit d = true ∧ Str.is_empty d = false)
      [d1; d2; d3; d4].
Proof.
  unfold quad_pattern, digits. split.
  - intros H.
    apply matches_cat_inv in H as (d1 & ? & -> & H1%matches_plus_class & H).
    apply matches_cat_inv in H as (? & ? & -> & ->%matches_lit & H).
    apply matches_cat_inv in H as (d2 & ? & -> & H2%matches_plus_class & H).
    apply matches_cat_inv in H as (? & ? & -> & ->%matches_lit & H).
    apply matches_cat_inv in H as (d3 & ? & -> & H3%matches_plus_class & H).
    apply matches_cat_inv in H as (? & d4 & -> & ->%matches_lit & H4%matches_plus_class).
    exists d1, d2, d3, d4. split; [reflexivity|].
    repeat first [apply Forall_nil_2 | apply Forall_cons_2; [done|]].
  - intros (d1 & d2 & d3 & d4 & -> & HF).
    apply Forall_cons in HF as [H1 HF]. apply Forall_cons in HF as [H2 HF].
    apply Forall_cons in HF as [H3 HF]. apply Forall_cons in HF as [H4 _].
    repeat (constructor; [by apply matches_plus_class || by apply matches_lit|]).
    by apply matches_plus_class.
Qed.

(** *** [quad] reads the longest dotted quad *)

Lemma quad_spec s ip b :
  quad s = Some (ip, b) →
  s = ip +:+ b ∧ matches quad_pattern ip ∧ Str.stops Char.isdigit b = true.
Proof.
  unfold quad. intros H.
  destruct (many1 Char.isdigit s) as [[d1 s1]|] eqn:E1; [|done]. simpl in H.
  destruct (expect "."%char s1) as [s2|] eqn:X1; [|done]. simpl in H.
  destruct (many1 Char.isdigit s2) as [[d2 s3]|] eqn:E2; [|done]. simpl in H.
  destruct (expect "."%char s3) as [s4|] eqn:X2; [|done]. simpl in H.
  destruct (many1 Char.isdigit s4) as [[d3 s5]|] eqn:E3; [|done]. simpl in H.
  destruct (expect "."%char s5) as [s6|] eqn:X3; [|done]. simpl in H.
  destruct (many1 Char.isdigit s6) as [[d4 s7]|] eqn:E4; [|done]. simpl in H.
  injection H as <- <-.
  apply many1_spec in E1 as (-> & ? & ? & _), E2 as (-> & ? & ? & _),
    E3 as (-> & ? & ? & _), E4 as (-> & ? & ? & Hstop).
  apply expect_spec in X1 as ->, X2 as ->, X3 as ->.
  split_and!; [|apply matches_quad; exists d1, d2, d3, d4;
                 split; [reflexivity|];
                 repeat first [apply Forall_nil_2 | apply Forall_cons_2; [done|]]
               |done].
  rewrite !sapp_assoc. reflexivity.
Qed.

Lemma quad_eq d1 d2 d3 d4 b :
  Forall (λ d, Str.forallb Char.isdigit d = true ∧ Str.is_empty d = false)
    [d1; d2; d3; d4] →
  Str.stops Char.isdigit b = true →
  quad ((d1 +:+ "." +:+ d2 +:+ "." +:+ d3 +:+ "." +:+ d4) +:+ b) =
  Some (d1 +:+ "." +:+ d2 +:+ "." +:+ d3 +:+ "." +:+ d4, b).
Proof.
  intros HF Hb.
  apply Forall_cons in HF as [[H1 E1] HF]. apply Forall_cons in HF as [[H2 E2] HF].
  apply Forall_cons in HF as [[H3 E3] HF]. apply Forall_cons in HF as [[H4 E4] _].
  unfold quad. rewrite !sapp_assoc.
  change (String.app ".") with (String "."%char) in *.
  rewrite (many1_eq _ d1) by done. simpl.
  rewrite (many1_eq _ d2) by done. simpl.
  rewrite (many1_eq _ d3) by done. simpl.
  rewrite (many1_eq _ d4) by done. simpl. reflexivity.
Qed.

(** *** [search] and the pattern *)

(** what [search] returns is a match of the pattern at the start of the
    text, the one in which group 2 and then group 3 are the longest *)
Lemma search_groups rule ip host suffix :
  search rule = Some (ip, host, suffix) →
  ∃ bl ws rest,
    rule = bl +:+ ip +:+ ws +:+ host +:+ suffix +:+ rest ∧
    matches (Star (Class blank)) bl ∧
    matches quad_pattern ip ∧
    matches (Plus (Class Char.isspace)) ws ∧
    matches (Plus (Class hostchar)) host ∧
    matches (Star Dot) suffix ∧
    Str.stops hostchar (suffix +:+ rest) = true ∧
    Str.stops Char.notnl rest = true.
Proof.
  unfold search, Str.lstrip. intros H.
  destruct (Str.span blank rule) as [bl s0] eqn:E0. simpl in H.
  destruct (quad s0) as [[ip' s1]|] eqn:Eq; [|done]. simpl in H.
  destruct (many1 Char.isspace s1) as [[ws s2]|] eqn:E1; [|done]. simpl in H.
  destruct (many1 hostchar s2) as [[host' s3]|] eqn:E2; [|done]. simpl in H.
  destruct (Str.span Char.notnl s3) as [sfx rest] eqn:E3. simpl in H.
  injection H as <- <- <-.
  apply span_spec in E0 as (-> & Hbl & _).
  apply quad_spec in Eq as (-> & Hip & _).
  apply many1_spec in E1 as (-> & Hws & Ews & _).
  apply many1_spec in E2 as (-> & Hh & Eh & Hstop).
  apply span_spec in E3 as (-> & Hsfx & Hrest).
  exists bl, ws, rest. split_and!; try done.
  - by apply matches_star_class.
  - by apply matches_plus_class.
  - by apply matches_plus_class.
  - by apply matches_star_class.
Qed.

(** [search] finds a match exactly when the pattern matches at the start
    of the text *)
Lemma search_pattern rule :
  is_Some (search rule) ↔ match_here pattern rule = true.
Proof.
  rewrite match_here_iff. split.
  - intros [[[ip host] suffix] H].
    apply search_groups in H
      as (bl & ws & rest & -> & Hbl & Hip & Hws & Hh & Hsfx & _).
    exists (bl +:+ ip +:+ ws +:+ host +:+ suffix), rest.
    split; [by rewrite !sapp_assoc|]. unfold pattern. by repeat constructor.
  - unfold pattern. intros (p0 & q0 & -> & H).
    apply matches_cat_inv in H as (bl & ? & -> & Hbl%matches_star_class & H).
    apply matches_cat_inv in H as (ip & ? & -> & Hip & H).
    apply matches_cat_inv in H as (ws & ? & -> & [Hws Ews]%matches_plus_class & H).
    apply matches_cat_inv in H as (h & sfx & -> & [Hh Eh]%matches_plus_class & _).
    apply matches_quad in Hip as (d1 & d2 & d3 & d4 & -> & HF).
    pose proof HF as HF'. apply Forall_cons in HF' as [[H1 E1] _].
    unfold search, Str.lstrip. rewrite !sapp_assoc.
    rewrite span_eq;
      [|done|by apply (stops_apart Char.isdigit); [apply digit_not_blank|..]].
    simpl.
    rewrite <- !(sapp_assoc _ _ (ws +:+ _)), !sapp_assoc.
    replace (d1 +:+ "." +:+ d2 +:+ "." +:+ d3 +:+ "." +:+ d4 +:+ ws +:+ h +:+ sfx +:+ q0)
      with ((d1 +:+ "." +:+ d2 +:+ "." +:+ d3 +:+ "." +:+ d4) +:+
            ws +:+ h +:+ sfx +:+ q0) by (by rewrite !sapp_assoc).
    rewrite quad_eq;
      [|done|by apply (stops_apart Char.isspace); [apply space_not_digit|..]].
    simpl.
    rewrite many1_eq;
      [|done..|by apply (stops_apart hostchar); [apply hostchar_not_space|..]].
    simpl. destruct h as [|c h]; [done|]. simpl in Hh.
    apply andb_prop in Hh as [Hc _]. rewrite (sapp_cons c h).
    destruct (many1_starts hostchar c (h +:+ sfx +:+ q0) Hc) as [[h' s'] ->].
    simpl. eauto.
Qed.

End RulePatternFacts.

(** C8, as amended. [excludeDomain] appends one pattern, the exclusion
    pattern followed by the domain pasted as it is, not escaped. A hostname
    matches it exactly when some part of the hostname is the domain read as
    a pattern: every character of the domain stands for itself, except that
    each [.] stands for any character but a newline. The optional
    sub-domain labels in front change nothing to what is found. *)
Theorem exclusion_pattern_unescaped (S S' : Settings) (domain : string) :
  excludeDomain S domain = Some S' →
  ∃ re,
    exclusionregexs S' = exclusionregexs S ++ [re] ∧
    ∀ hostname,
      Re.search re hostname = true ↔
      ∃ m, occurs m hostname ∧ wild domain m = true.
Proof.
  unfold excludeDomain. destruct (Re.of_domain domain) as [r|] eqn:Ed; [|done].
  intros [= <-]. exists (Re.Cat exclusionpattern r). split; [reflexivity|].
  intros hostname. unfold exclusionpattern. rewrite search_star_prefix, search_iff.
  split.
  - intros (a & p & b & -> & H). exists p. split; [by exists a, b|].
    by apply (of_domain_wild domain r).
  - intros (m & (a & b & ->) & H). exists a, m, b. split; [done|].
    by apply (of_domain_wild domain r).
Qed.

Lemma exclusion_pattern_unescaped_witness :
  ∃ S', excludeDomain defaults "hulu.com" = Some S' ∧
  ∃ re,
    exclusionregexs S' = exclusionregexs defaults ++ [re] ∧
    ∀ hostname,
      Re.search re hostname = true ↔
      ∃ m, occurs m hostname ∧ wild "hulu.com" m = true.
Proof.
  eexists. split; [reflexivity|].
  apply (exclusion_pattern_unescaped defaults _ "hulu.com"). reflexivity.
Defined.

(** what the claim describes is the pattern of the escaped domain: it finds
    the domain itself and nothing else *)
Lemma escaped_pattern_literal (d hostname : string) :
  Re.search (Re.Cat exclusionpattern (Re.of_literal d)) hostname = true ↔
  occurs d hostname.
Proof.
  unfold exclusionpattern. rewrite search_star_prefix, search_iff. split.
  - intros (a & p & b & -> & ->%of_literal_eq). by exists a, b.
  - intros (a & b & ->). exists a, d, b. split; [done|]. by apply of_literal_eq.
Qed.

(** C8 as stated fails: with [a.com] excluded, the hostname [aXcom], which
    does not hold [a.com] and which the escaped pattern does not match, is
    excluded. *)
Lemma unescaped_dot_excludes :
  ∃ S,
    excludeDomain defaults "a.com" = Some S ∧
    matchesExclusions S "0.0.0.0 aXcom" = Some true ∧
    classify S (ln "0.0.0.0 aXcom") = Dropped [] ∧
    Str.contains "aXcom" "a.com" = false ∧
    Re.search (Re.Cat exclusionpattern (Re.of_literal "a.com")) "aXcom" = false.
Proof. eexists. split; [reflexivity|]. split_and!; reflexivity. Qed.

(** ** The comment of a rule line *)

(** C3, what the code does. With [keepdomaincomments] set, the line of the
    claim is written without its comment: [normalizeRule] is given the
    stripped rule, the first two tokens, and finds no suffix there. Given
    the line itself it would keep the comment. *)
Theorem comment_suffix_lost :
  let S := mkSettings 0 false true [] EmptyString "0.0.0.0" [] [] in
  let line := ln "0.0.0.0 ads.example.com # tracker" in
  keepdomaincomments S = true ∧
  stripRule (trim line) = "0.0.0.0 ads.example.com" ∧
  RulePattern.search (stripRule (trim line)) =
    Some ("0.0.0.0", "ads.example.com", EmptyString) ∧
  mergeLine S (init S) line =
    Some (accept "ads.example.com" (ln "0.0.0.0 ads.example.com") (init S)) ∧
  snd (normalizeRule S (trim line)) =
    Some ("ads.example.com", ln "0.0.0.0 ads.example.com # # tracker").
Proof. intros S line. split_and!; reflexivity. Qed.

(** the comment is lost on every line: what is written is the rule of the
    first two tokens, and the suffix kept is a part of the second token *)
Lemma written_rule_of_two_tokens (S : Settings) (line t0 t1 : string)
    (rest : list string) :
  Str.split (trim line) = t0 :: t1 :: rest →
  normalizeRule S (stripRule (trim line)) = normalizeRule S (t0 +:+ " " +:+ t1).
Proof. intros Hs. unfold stripRule. rewrite Hs. reflexivity. Qed.

(** a suffix is kept when it is glued to the hostname *)
Example glued_suffix_kept :
  let S := mkSettings 0 false true [] EmptyString "0.0.0.0" [] [] in
  classify S (ln "0.0.0.0 ads.example.com#tracker") =
    Candidate "ads.example.com" (ln "0.0.0.0 ads.example.com ##tracker").
Proof. reflexivity. Qed.

(** ** The trimming step *)

Lemma replace_terminated s :
  Str.replace_tab_plus (ln s) = ln (Str.replace_tab_plus s).
Proof.
  unfold ln. remember (String.length s) as n eqn:Hn.
  revert s Hn. induction (lt_wf n) as [n _ IH]. intros s ->.
  destruct s as [|c s]; [reflexivity|].
  rewrite sapp_cons. destruct (ascii_dec c "009"%char) as [->|Hc].
  - destruct s as [|c2 s]; [reflexivity|].
    destruct (ascii_dec c2 "+"%char) as [->|Hc2].
    + rewrite sapp_cons.
      change (Str.replace_tab_plus (String "009" (String "+" ?x)))
        with (String " "%char (Str.replace_tab_plus x)).
      rewrite (IH (String.length s)) by (simpl; lia || reflexivity).
      reflexivity.
    + rewrite !replace_tab_other by (intros s'; rewrite ?sapp_cons; congruence).
      rewrite (IH (String.length (String c2 s))) by (simpl; lia || reflexivity).
      reflexivity.
  - rewrite !replace_not_tab by exact Hc.
    rewrite (IH (String.length s)) by (simpl; lia || reflexivity). reflexivity.
Qed.

(** on a line that ends with a newline the trimming step removes nothing:
    the line gets a second newline *)
Lemma trim_terminated s : trim (ln s) = ln (ln (Str.replace_tab_plus s)).
Proof.
  unfold trim. rewrite replace_terminated. unfold ln.
  rewrite rstrip_keeps by reflexivity. reflexivity.
Qed.

(** C7, what the code does. The rule line [0.0.0.0 example.com.] with its
    newline keeps its trailing period: the hostname added to [hostnames]
    and written is [example.com.]. The same line without a newline (the
    last line of a file) loses the period. *)
Theorem trailing_period_kept :
  let line := ln "0.0.0.0 example.com." in
  trim line = ln line ∧
  mergeLine defaults (init defaults) line =
    Some (accept "example.com." (ln "0.0.0.0 example.com.") (init defaults)) ∧
  mergeLine defaults (init defaults) "0.0.0.0 example.com." =
    Some (accept "example.com" (ln "0.0.0.0 example.com") (init defaults)).
Proof. intros line. split_and!; reflexivity. Qed.

(** ** Examples *)

Example split_ex :
  Str.split (ln "  0.0.0.0   ads.example.com # tracker") =
  ["0.0.0.0"; "ads.example.com"; "#"; "tracker"].
Proof. reflexivity. Qed.

Example rstrip_ex : Str.rstrip spacedot "a.com . ." = "a.com".
Proof. reflexivity. Qed.

Example readlines_ex :
  Str.readlines (ln "a" +:+ ln "b" +:+ ln EmptyString +:+ "c") =
  [ln "a"; ln "b"; ln EmptyString; "c"].
Proof. reflexivity. Qed.

Example search_ex :
  RulePattern.search "127.0.0.1  Ads.Example.COM#x y" =
  Some ("127.0.0.1", "Ads.Example.COM", "#x y").
Proof. reflexivity. Qed.

Example commas_ex :
  Header.commas 1234567 = "1,234,567" ∧ Header.commas 123 = "123" ∧
  Header.commas 0 = "0".
Proof. split_and!; reflexivity. Qed.

(** a whole pass: a whitelist file, a comment, a rule, a duplicate in upper
    case, a seeded hostname, a line that does not parse *)
Example removeDupsAndExcl_ex :
  ∃ S st,
    removeDupsAndExcl defaults (Some [ln "# whitelist"; ln "good.example"])
      (ln "# ads" +:+ ln "0.0.0.0 a.com" +:+ ln "127.0.0.1 A.COM" +:+
       ln "0.0.0.0 localhost" +:+ ln "0.0.0.0 cdn.good.example" +:+
       ln "not a rule") = Some (S, st) ∧
    exclusions S = ["good.example"] ∧
    numberofrules S = 1%Z ∧
    finalFile st = [PassThrough (ln (ln "# ads")); Rule "a.com" (ln "0.0.0.0 a.com")] ∧
    stdout st = ["==>not a<=="].
Proof. eexists _, _. split; [reflexivity|]. split_and!; reflexivity. Qed.

(** * More properties

    Properties of the functions around the claims. *)

(** ** Hostnames and records *)

Section Records.

Implicit Types (s t a b : string) (c : ascii) (p q : ascii -> bool).

Lemma forallb_map p (f : ascii -> ascii) s :
  Str.forallb p (Str.map f s) = Str.forallb (λ c, p (f c)) s.
Proof. induction s as [|c s IH]; simpl; [done|]. by rewrite IH. Qed.

Lemma forallb_impl p q s :
  (∀ c, p c = true → q c = true) → Str.forallb p s = true → Str.forallb q s = true.
Proof.
  intros Hpq. induction s as [|c s IH]; simpl; [done|].
  intros [Hc Hs]%andb_prop. by rewrite (Hpq _ Hc), IH.
Qed.

Lemma map_id_on (f : ascii -> ascii) p s :
  (∀ c, p c = true → f c = c) → Str.forallb p s = true → Str.map f s = s.
Proof.
  intros Hf. induction s as [|c s IH]; simpl; [done|].
  intros [Hc Hs]%andb_prop. by rewrite (Hf _ Hc), IH.
Qed.

Lemma is_empty_map (f : ascii -> ascii) s : Str.is_empty (Str.map f s) = Str.is_empty s.
Proof. by destruct s. Qed.

Lemma lower_hostchar c :
  RulePattern.hostchar c = true → hostlower (Char.lower c) = true.
Proof. destruct c as [[] [] [] [] [] [] [] []]; vm_compute; done. Qed.

Lemma lower_hostlower c : hostlower c = true → Char.lower c = c.
Proof. destruct c as [[] [] [] [] [] [] [] []]; vm_compute; done. Qed.

Lemma hostlower_not_space c : hostlower c = true → Char.isspace c = false.
Proof. destruct c as [[] [] [] [] [] [] [] []]; vm_compute; done. Qed.

Lemma hostlower_hostchar c : hostlower c = true → RulePattern.hostchar c = true.
Proof. unfold hostlower. by intros [? _]%andb_prop. Qed.

Lemma lstrip_stops p s : Str.stops p s = true → Str.lstrip p s = s.
Proof.
  unfold Str.lstrip. destruct s as [|c s]; simpl; [done|].
  intros Hc%negb_true_iff. by rewrite Hc.
Qed.

Lemma rstrip_none p s :
  Str.forallb (λ c, negb (p c)) s = true → Str.rstrip p s = s.
Proof.
  induction s as [|c s IH]; simpl; [done|].
  intros [Hc%negb_true_iff Hs]%andb_prop. by rewrite IH, Hc, andb_false_r.
Qed.

Lemma strip_none p s :
  Str.forallb (λ c, negb (p c)) s = true → Str.strip p s = s.
Proof.
  intros H. unfold Str.strip. rewrite lstrip_stops; [by apply rstrip_none|].
  destruct s as [|c s]; simpl in *; [done|]. by apply andb_prop in H as [? _].
Qed.

(** the hostname [normalizeRule] makes of the hostname the pattern found *)
Lemma hostname_of_host host :
  Str.forallb RulePattern.hostchar host = true → Str.is_empty host = false →
  let h := Str.strip Char.isspace (Str.lower host) in
  h = Str.lower host ∧ Str.is_empty h = false ∧ Str.forallb hostlower h = true.
Proof.
  intros Hh Eh h. assert (Str.forallb hostlower (Str.lower host) = true) as Hl.
  { unfold Str.lower. rewrite forallb_map.
    eapply forallb_impl; [|exact Hh]. apply lower_hostchar. }
  assert (h = Str.lower host) as ->.
  { apply strip_none. eapply forallb_impl; [|exact Hl].
    intros c Hc. by rewrite (hostlower_not_space c Hc). }
  split_and!; [done| |done]. unfold Str.lower. by rewrite is_empty_map.
Qed.

End Records.

(** X1. Whatever 7-bit text [normalizeRule] is given, the hostname it
    returns is not empty and is made of lower-case letters, digits, [_],
    [.] and [-] only: no upper case, no white space. *)
Theorem normalizeRule_hostname (S : Settings) (rule h r : string)
    (out : list string) :
  isascii rule = true →
  normalizeRule S rule = (out, Some (h, r)) →
  Str.is_empty h = false ∧ Str.forallb hostlower h = true.
Proof.
  intros _. unfold normalizeRule.
  destruct (RulePattern.search rule) as [[[ip host] suffix]|] eqn:E; [|done].
  apply search_groups in E as (bl & ws & rest & _ & _ & _ & _ &
    [Hh Eh]%matches_plus_class & _).
  destruct (hostname_of_host host Hh Eh) as (_ & He & Hl).
  destruct (negb (Str.is_empty suffix) && keepdomaincomments S);
    intros [= _ <- _]; done.
Qed.

Lemma normalizeRule_hostname_witness :
  isascii "127.0.0.1 Ads.EXAMPLE-1.com" = true ∧
  normalizeRule defaults "127.0.0.1 Ads.EXAMPLE-1.com" =
    ([], Some ("ads.example-1.com", ln "0.0.0.0 ads.example-1.com")) ∧
  Str.is_empty "ads.example-1.com" = false ∧
  Str.forallb hostlower "ads.example-1.com" = true.
Proof.
  split; [reflexivity|]. split; [reflexivity|].
  apply (normalizeRule_hostname defaults "127.0.0.1 Ads.EXAMPLE-1.com"
           "ads.example-1.com" (ln "0.0.0.0 ads.example-1.com") []);
    reflexivity.
Defined.

(** ** What the pass writes *)

Section Writes.

Variable S : Settings.
Implicit Types (st : State) (line h r s t : string) (p : ascii -> bool).

Lemma count_app p s t : count p (s +:+ t) = count p s + count p t.
Proof.
  induction s as [|c s IH]; [done|]. rewrite sapp_cons. simpl. rewrite IH. lia.
Qed.

Lemma count_zero p s : count p s = 0 ↔ Str.forallb (λ c, negb (p c)) s = true.
Proof.
  induction s as [|c s IH]; simpl; [done|].
  destruct (p c); simpl; [split; [lia|done]|]. by rewrite IH.
Qed.

Lemma count_all p s : Str.forallb p s = true → Str.is_empty s = false → 0 < count p s.
Proof.
  destruct s as [|c s]; [done|]. simpl. intros [-> _]%andb_prop _. lia.
Qed.

(** the suffix found in a stripped rule holds no white space: the only
    white-space character of a stripped rule is the one in front of the
    hostname *)
Lemma suffix_nospace t0 t1 ip host suffix :
  Str.nospace t0 = true → Str.nospace t1 = true →
  RulePattern.search (t0 +:+ " " +:+ t1) = Some (ip, host, suffix) →
  Str.nospace suffix = true.
Proof.
  intros H0 H1 Hs.
  apply search_groups in Hs as (bl & ws & rest & E & _ & _ &
    [Hws Ews]%matches_plus_class & _).
  apply (f_equal (count Char.isspace)) in E.
  rewrite !count_app in E. simpl in E.
  apply count_zero in H0, H1. rewrite H0, H1 in E.
  pose proof (count_all _ _ Hws Ews). apply count_zero. lia.
Qed.

(** what a rule line writes *)
Lemma Candidate_format line h r :
  classify S line = Candidate h r →
  ∃ suffix,
    Str.nospace suffix = true ∧
    r = targetip S +:+ " " +:+ h +:+
        (if Str.is_empty suffix || negb (keepdomaincomments S) then EmptyString
         else " #" +:+ suffix) +:+ String Char.nl EmptyString.
Proof.
  unfold classify. destruct (passThrough (trim line)) as [[]|]; try done.
  destruct (Str.contains (trim line) "::1"); [done|].
  destruct (stripRule_cases (trim line))
    as [[E2 _]|(t0 & t1 & rest & Hs & Hr & E2 & _)].
  { rewrite E2. done. }
  rewrite E2. destruct (matchesExclusions S (stripRule (trim line))) as [[]|]; try done.
  unfold normalizeRule. rewrite Hr.
  destruct (RulePattern.search (t0 +:+ " " +:+ t1)) as [[[ip host] suffix]|] eqn:Es;
    [|done].
  pose proof (split_tokens (trim line)) as HF. rewrite Hs in HF.
  apply Forall_cons in HF as [[H0 _] HF]. apply Forall_cons in HF as [[H1 _] _].
  pose proof (suffix_nospace _ _ _ _ _ H0 H1 Es) as Hsfx.
  destruct (Str.is_empty suffix) eqn:Ee; simpl;
    [|destruct (keepdomaincomments S); simpl].
  - destruct (_ && _); [|done]. intros [= <- <-]. exists suffix.
    split; [done|]. by rewrite Ee, sapp_nil_l.
  - destruct (_ && _); [|done]. intros [= <- <-]. exists suffix.
    split; [done|]. rewrite Ee. simpl. by rewrite !sapp_assoc.
  - destruct (_ && _); [|done]. intros [= <- <-]. exists suffix.
    split; [done|]. rewrite Ee. simpl. by rewrite sapp_nil_l.
Qed.

(** every write of the loop is the outcome of one of the lines read *)
Lemma run_writes st o st' :
  run st o = Some st' →
  finalFile st' = finalFile st ++
    match o with
    | Passed l => [PassThrough l]
    | Candidate h r => if bool_decide (h ∈ hostnames st) then [] else [Rule h r]
    | _ => []
    end.
Proof.
  destruct o as [|l|out|h r]; simpl; [done|..]; intros [= <-]; simpl;
    rewrite ?app_nil_r; try done.
  case_bool_decide; simpl; by rewrite ?app_nil_r.
Qed.

Lemma mergeLines_writes lines st st' :
  mergeLines S st lines = Some st' →
  ∃ ws,
    finalFile st' = finalFile st ++ ws ∧
    Forall (λ w, ∃ line, line ∈ lines ∧
              match w with
              | PassThrough l => classify S line = Passed l
              | Rule h r => classify S line = Candidate h r
              end) ws.
Proof.
  revert st. induction lines as [|line lines IH]; intros st Hm; simpl in Hm.
  - injection Hm as <-. exists []. by rewrite app_nil_r.
  - destruct (mergeLine S st line) as [st1|] eqn:E; [|done]. simpl in Hm.
    rewrite mergeLine_classify in E. apply run_writes in E.
    destruct (IH _ Hm) as (ws & Hws & HF). rewrite E, <- app_assoc in Hws.
    eexists. split; [exact Hws|]. apply Forall_app. split.
    + destruct (classify S line) as [|l|out|h r] eqn:Ec; try by constructor.
      * repeat constructor. exists line. split; [left|done].
      * case_bool_decide; repeat constructor. exists line. split; [left|done].
    + eapply Forall_impl; [exact HF|]. intros w (l & Hl & Hw).
      exists l. split; [by right|done].
Qed.

(** the output of the loop only grows *)
Lemma run_grows st o st' :
  run st o = Some st' →
  hostnames st ⊆ hostnames st' ∧
  (numberOfRules st ≤ numberOfRules st')%Z ∧
  stdout st `prefix_of` stdout st'.
Proof.
  destruct o as [|l|out|h r]; simpl; [done|..]; intros [= <-]; simpl.
  - done.
  - split_and!; [done|lia|by eexists].
  - case_bool_decide; simpl; [done|]. split_and!; [set_solver|lia|done].
Qed.

(** the hostnames known after the loop: those known before and those of
    the rule lines read *)
Lemma run_hostnames st o st' h :
  run st o = Some st' →
  h ∈ hostnames st' ↔ h ∈ hostnames st ∨ ∃ r, o = Candidate h r.
Proof.
  destruct o as [|l|out|h' r']; simpl; [done|..]; intros [= <-]; simpl.
  - split; [by left|]. by intros [?|[? ?]].
  - split; [by left|]. by intros [?|[? ?]].
  - case_bool_decide as Hin; simpl.
    + split; [by left|]. intros [?|[? [= -> ->]]]; done.
    + rewrite elem_of_union, elem_of_singleton. split.
      * intros [? | ->]; [by left|right; eauto].
      * intros [?|[? [= -> ->]]]; [by left|by right].
Qed.

Lemma mergeLines_hostnames lines st st' h :
  mergeLines S st lines = Some st' →
  h ∈ hostnames st' ↔
  h ∈ hostnames st ∨ ∃ line r, line ∈ lines ∧ classify S line = Candidate h r.
Proof.
  revert st. induction lines as [|line lines IH]; intros st Hm; simpl in Hm.
  - injection Hm as <-. split; [by left|]. intros [?|(l & r & Hl & _)]; [done|].
    by apply not_elem_of_nil in Hl.
  - destruct (mergeLine S st line) as [st1|] eqn:E; [|done]. simpl in Hm.
    rewrite mergeLine_classify in E.
    rewrite (IH _ Hm), (run_hostnames _ _ _ h E). split.
    + intros [[?|[r Hr]]|(l & r & Hl & Hc)]; [by left|right..].
      * exists line, r. split; [left|done].
      * exists l, r. split; [by right|done].
    + intros [?|(l & r & Hl & Hc)]; [by left; left|].
      apply elem_of_cons in Hl as [->|Hl]; [left; right; eauto|right; eauto].
Qed.

(** the lines copied through, in the order read *)
Lemma mergeLines_copied lines st st' :
  mergeLines S st lines = Some st' →
  omap copied (finalFile st') =
  omap copied (finalFile st) ++ omap (passedLine S) lines.
Proof.
  revert st. induction lines as [|line lines IH]; intros st Hm; simpl in Hm.
  - injection Hm as <-. simpl. by rewrite app_nil_r.
  - destruct (mergeLine S st line) as [st1|] eqn:E; [|done]. simpl in Hm.
    rewrite mergeLine_classify in E. apply run_writes in E.
    rewrite (IH _ Hm), E, omap_app, <- app_assoc. f_equal.
    unfold passedLine at 2. simpl.
    destruct (classify S line) as [|l|out|h r]; simpl; try done.
    unfold passedLine. by case_bool_decide.
Qed.

End Writes.

(** X2. Every record the pass writes to the body is the target address, a
    space, the hostname and a newline, with [ #] and a suffix in between
    only when [keepdomaincomments] is set; the suffix never holds white
    space, so a comment set apart from the hostname is never written. *)
Theorem record_format (S : Settings) (whitelistfile : option (list string))
    (mergeFile : string) :
  ∃ S' st,
    removeDupsAndExcl S whitelistfile mergeFile = Some (S', st) ∧
    Forall (λ w,
      match w with
      | PassThrough _ => True
      | Rule h r =>
          ∃ suffix,
            Str.nospace suffix = true ∧
            r = targetip S +:+ " " +:+ h +:+
                (if Str.is_empty suffix || negb (keepdomaincomments S)
                 then EmptyString else " #" +:+ suffix) +:+
                String Char.nl EmptyString
      end) (finalFile st).
Proof.
  unfold removeDupsAndExcl. set (S1 := loadWhitelist S whitelistfile).
  assert (targetip S1 = targetip S ∧ keepdomaincomments S1 = keepdomaincomments S)
    as [Ht Hk] by (unfold S1, loadWhitelist; by destruct whitelistfile).
  destruct (mergeLines_total S1 (Str.readlines mergeFile) (init S1)) as [st Hst].
  rewrite Hst. eexists _, st. split; [reflexivity|].
  destruct (mergeLines_writes S1 _ _ _ Hst) as (ws & -> & HF). simpl.
  eapply Forall_impl; [exact HF|]. intros [l|h r] (line & _ & Hc); [done|].
  rewrite <- Ht, <- Hk. by eapply Candidate_format.
Qed.

(** X3. The loop only adds: after any lines, the body it started from is
    the beginning of the body, the hostnames known are still known, the
    count has not gone down, and what was printed is the beginning of what
    is printed. *)
Theorem loop_only_adds (S : Settings) (lines : list string) (st st' : State) :
  mergeLines S st lines = Some st' →
  finalFile st `prefix_of` finalFile st' ∧
  hostnames st ⊆ hostnames st' ∧
  (numberOfRules st ≤ numberOfRules st')%Z ∧
  stdout st `prefix_of` stdout st'.
Proof.
  revert st. induction lines as [|line lines IH]; intros st Hm; simpl in Hm.
  - by injection Hm as <-.
  - destruct (mergeLine S st line) as [st1|] eqn:E; [|done]. simpl in Hm.
    rewrite mergeLine_classify in E.
    pose proof (run_writes _ _ _ E) as Hw.
    destruct (run_grows _ _ _ E) as (Hh & Hn & Ho).
    destruct (IH _ Hm) as (Hw' & Hh' & Hn' & Ho').
    split_and!.
    + etrans; [|exact Hw']. rewrite Hw. by eexists.
    + set_solver.
    + lia.
    + by etrans.
Qed.

Lemma loop_only_adds_witness :
  ∃ st st',
    mergeLines defaults st [ln "0.0.0.0 b.com"; ln "garbage here"] = Some st' ∧
    finalFile st = [Rule "a.com" (ln "0.0.0.0 a.com")] ∧
    finalFile st `prefix_of` finalFile st' ∧
    hostnames st ⊆ hostnames st' ∧
    (numberOfRules st ≤ numberOfRules st')%Z ∧
    stdout st `prefix_of` stdout st'.
Proof.
  eexists (accept "a.com" (ln "0.0.0.0 a.com") (init defaults)), _.
  assert (mergeLines defaults (accept "a.com" (ln "0.0.0.0 a.com") (init defaults))
            [ln "0.0.0.0 b.com"; ln "garbage here"] = Some
          (print ["==>garbage here<=="]
            (accept "b.com" (ln "0.0.0.0 b.com")
              (accept "a.com" (ln "0.0.0.0 a.com") (init defaults))))) as H
    by (vm_compute; reflexivity).
  split; [exact H|]. split; [reflexivity|].
  exact (loop_only_adds defaults _ _ _ H).
Defined.

(** X4. No rule is lost: a hostname has a record in the body exactly when
    it is not one of the seeded hostnames and some line of the merged file
    is a rule line of it (a line that is parsed to it and passes the
    exclusions). *)
Theorem no_rule_lost (S : Settings) (whitelistfile : option (list string))
    (mergeFile : string) :
  ∃ S' st,
    removeDupsAndExcl S whitelistfile mergeFile = Some (S', st) ∧
    ∀ h, h ∈ records (finalFile st) ↔
         h ∉ seeded ∧
         ∃ line r, line ∈ Str.readlines mergeFile ∧
                   classify (loadWhitelist S whitelistfile) line = Candidate h r.
Proof.
  unfold removeDupsAndExcl. set (S1 := loadWhitelist S whitelistfile).
  destruct (mergeLines_total S1 (Str.readlines mergeFile) (init S1)) as [st Hst].
  rewrite Hst. eexists _, st. split; [reflexivity|]. intros h.
  destruct (consistent_mergeLines S1 _ _ _ _ (consistent_init S1) Hst)
    as (_ & Hseed & Hhost & _).
  pose proof (mergeLines_hostnames S1 _ _ _ h Hst) as Hh.
  change (hostnames (init S1)) with seeded in Hh.
  rewrite Hhost, elem_of_union, elem_of_list_to_set in Hh.
  rewrite Forall_forall in Hseed. split.
  - intros Hr. split; [by apply Hseed|].
    destruct (proj1 Hh (or_intror Hr)) as [Hs|?]; [|done]. by apply Hseed in Hr.
  - intros [Hs Hc]. destruct (proj2 Hh (or_intror Hc)); done.
Qed.

(** X5. The lines copied through (comments, blank lines, lines that start
    with white space) are all in the body, as trimmed, in the order of the
    merged file; the pass neither drops nor reorders them. *)
Theorem copied_lines_kept (S : Settings) (whitelistfile : option (list string))
    (mergeFile : string) :
  ∃ S' st,
    removeDupsAndExcl S whitelistfile mergeFile = Some (S', st) ∧
    omap copied (finalFile st) =
    omap (passedLine (loadWhitelist S whitelistfile)) (Str.readlines mergeFile).
Proof.
  unfold removeDupsAndExcl. set (S1 := loadWhitelist S whitelistfile).
  destruct (mergeLines_total S1 (Str.readlines mergeFile) (init S1)) as [st Hst].
  rewrite Hst. eexists _, st. split; [reflexivity|].
  by rewrite (mergeLines_copied S1 _ _ _ Hst).
Qed.

(** ** The lines of the merged file *)

Section Lines.

Implicit Types (s t a b cur : string) (c : ascii) (p : ascii -> bool).

Lemma cat_app (l1 l2 : list string) : cat (l1 ++ l2) = cat l1 +:+ cat l2.
Proof.
  induction l1 as [|x l1 IH]; [done|]. simpl. unfold cat in *. simpl.
  by rewrite IH, sapp_assoc.
Qed.

Lemma readlines_go_spec s cur :
  Str.forallb Char.notnl cur = true →
  cat (Str.readlines_go cur s) = cur +:+ s ∧
  Forall (λ l, ∃ body, Str.forallb Char.notnl body = true ∧
                 (l = ln body ∨ (l = body ∧ Str.is_empty body = false)))
    (Str.readlines_go cur s).
Proof.
  revert cur. induction s as [|c s IH]; intros cur Hcur; simpl.
  - destruct (Str.is_empty cur) eqn:E.
    + apply is_empty_true in E as ->. split; [done|constructor].
    + split; [by rewrite sapp_nil_r; unfold cat; simpl; rewrite sapp_nil_r|].
      repeat constructor. exists cur. split; [done|by right].
  - destruct (Ascii.eqb c Char.nl) eqn:Ec.
    + apply Ascii.eqb_eq in Ec as ->.
      destruct (IH EmptyString eq_refl) as [Hcat HF]. split.
      * unfold cat in *. simpl. rewrite Hcat, sapp_nil_l, sapp_assoc. done.
      * constructor; [|done]. exists cur. split; [done|by left].
    + assert (Str.forallb Char.notnl (cur +:+ String c EmptyString) = true) as Hc.
      { rewrite sforallb_app, Hcur. simpl. unfold Char.notnl. by rewrite Ec. }
      destruct (IH _ Hc) as [Hcat HF]. split; [|done].
      rewrite Hcat, sapp_assoc. done.
Qed.

(** a file that leaves no unfinished line is read to the end before the
    next one starts *)
Lemma readlines_go_finished a b cur :
  finished a = true → (Str.is_empty a = false ∨ cur = EmptyString) →
  Str.readlines_go cur (a +:+ b) = Str.readlines_go cur a ++ Str.readlines b.
Proof.
  revert cur. induction a as [|c a IH]; intros cur Hf Hcur.
  - destruct Hcur as [?| ->]; [done|]. by rewrite sapp_nil_l.
  - rewrite sapp_cons. simpl. destruct (Ascii.eqb c Char.nl) eqn:Ec.
    + rewrite IH; [done| |by right]. destruct a; [done|]. exact Hf.
    + destruct a as [|c' a]; [simpl in Hf; congruence|].
      apply IH; [exact Hf|by left].
Qed.

Lemma readlines_app a b :
  finished a = true →
  Str.readlines (a +:+ b) = Str.readlines a ++ Str.readlines b.
Proof. intros Hf. apply readlines_go_finished; [done|by right]. Qed.

Lemma readlines_cat (l : list string) :
  Forall (λ f, finished f = true) l →
  Str.readlines (cat l) = concat (Str.readlines <$> l).
Proof.
  induction 1 as [|f l Hf _ IH]; [done|].
  unfold cat in *. simpl. by rewrite readlines_app, IH.
Qed.

Lemma concat_fmap_concat {A B : Type} (f : A → list B) (ll : list (list A)) :
  concat (f <$> concat ll) = concat ((λ l, concat (f <$> l)) <$> ll).
Proof.
  induction ll as [|l ll IH]; [done|].
  by rewrite concat_cons, fmap_app, concat_app, fmap_cons, concat_cons, IH.
Qed.

End Lines.

(** X6. [readlines] loses nothing and cuts after the newlines only: the
    lines put together again are the merged file, no line is empty, and
    every line is a text without newline followed by one newline, or (the
    last line of a file that does not end with a newline) such a text
    alone. *)
Theorem readlines_roundtrip (mergeFile : string) :
  cat (Str.readlines mergeFile) = mergeFile ∧
  Forall (λ l, ∃ body, Str.forallb Char.notnl body = true ∧
                 (l = ln body ∨ (l = body ∧ Str.is_empty body = false)))
    (Str.readlines mergeFile).
Proof.
  destruct (readlines_go_spec mergeFile EmptyString eq_refl) as [H1 H2].
  unfold Str.readlines. split; [by rewrite H1, sapp_nil_l|done].
Qed.

(** X7. When every file that [createInitialFile] reads is empty or ends
    with a newline, the lines of the merge file are the lines of the data
    hosts files, then those of each extension in the order of
    [settings["extensions"]], then those of the blacklist: no line of one
    file runs into the next, and the pass reads the sources in that order
    of priority. *)
Theorem createInitialFile_lines {J : Type} (S : Settings) (sourcesdata : list J)
    (F : Sources J) :
  Forall (λ f, finished f = true) (mergedFiles S F) →
  Str.readlines (createInitialFile S sourcesdata F).1 =
  concat (Str.readlines <$> datahosts F) ++
  concat ((λ source, concat (Str.readlines <$> exthosts F source)) <$> extensions S) ++
  match blacklistfile F with Some f => Str.readlines f | None => [] end.
Proof.
  intros HF. simpl. rewrite readlines_cat by done. unfold mergedFiles.
  rewrite !fmap_app, !concat_app. f_equal. f_equal.
  - by rewrite concat_fmap_concat, <- list_fmap_compose.
  - destruct (blacklistfile F); simpl; by rewrite ?app_nil_r.
Qed.

Lemma createInitialFile_lines_witness :
  let S := mkSettings 0 false false ["social"] EmptyString "0.0.0.0" [] [] in
  let F := mkSources [ln "0.0.0.0 a.com"] ([] : list unit)
             (λ _, [ln "0.0.0.0 b.com" +:+ ln "0.0.0.0 c.com"]) (λ _, [])
             (Some (ln "0.0.0.0 d.com")) in
  Str.readlines (createInitialFile S [] F).1 =
  [ln "0.0.0.0 a.com"; ln "0.0.0.0 b.com"; ln "0.0.0.0 c.com"; ln "0.0.0.0 d.com"].
Proof.
  intros S F. rewrite (createInitialFile_lines S [] F); [reflexivity|].
  repeat constructor.
Defined.

(** a file without its last newline: its last line and the first line of
    the next file are one line, here one rule instead of two *)
Example unfinished_file_joins :
  Str.readlines (cat ["0.0.0.0 a.com"; ln "0.0.0.0 b.com"]) =
  [ln "0.0.0.0 a.com0.0.0.0 b.com"].
Proof. reflexivity. Qed.

(** ** Trimming and stripping *)

Section Strip.

Implicit Types (s t : string) (c : ascii) (p : ascii -> bool).

Lemma rstrip_idem p s : Str.rstrip p (Str.rstrip p s) = Str.rstrip p s.
Proof.
  induction s as [|c s IH]; simpl; [done|].
  destruct (Str.is_empty (Str.rstrip p s) && p c) eqn:E; [done|].
  simpl. by rewrite IH, E.
Qed.

Lemma stops_lstrip p s : Str.stops p (Str.lstrip p s) = true.
Proof.
  unfold Str.lstrip. destruct (Str.span p s) as [a b] eqn:E.
  by apply span_spec in E as (_ & _ & ?).
Qed.

Lemma stops_rstrip p s : Str.stops p s = true → Str.stops p (Str.rstrip p s) = true.
Proof.
  destruct s as [|c s]; simpl; [done|]. intros Hc.
  apply negb_true_iff in Hc. by rewrite Hc, andb_false_r; simpl; rewrite Hc.
Qed.

(** a stripped text has nothing left to strip *)
Lemma strip_idem p s : Str.strip p (Str.strip p s) = Str.strip p s.
Proof.
  unfold Str.strip. rewrite lstrip_stops; [apply rstrip_idem|].
  apply stops_rstrip, stops_lstrip.
Qed.

Lemma replace_no_tab s :
  Str.forallb (λ c, negb (Ascii.eqb c "009"%char)) s = true →
  Str.replace_tab_plus s = s.
Proof.
  induction s as [|c s IH]; [done|]. simpl Str.forallb.
  intros [Hc Hs]%andb_prop. rewrite replace_not_tab, IH; [done..|].
  intros ->. done.
Qed.

End Strip.

(** X8. The trimming step of the loop. What it leaves is a text that ends
    with neither a space nor a period, followed by a newline; but on a line
    that ends with a newline, as all lines of the merged file but the last
    do, that text is the whole line, newline included: nothing is stripped
    in front of the newline and the line gets a second newline. *)
Theorem trim_law :
  (∀ line, ∃ x, trim line = ln x ∧ Str.rstrip spacedot x = x) ∧
  (∀ s, trim (ln s) = ln (ln (Str.replace_tab_plus s))).
Proof.
  split.
  - intros line. eexists. split; [reflexivity|]. apply rstrip_idem.
  - intros s. unfold trim. rewrite replace_terminated. unfold ln.
    by rewrite rstrip_keeps.
Qed.

(** X9. The sub-domain labels that the exclusion pattern puts in front of a
    domain change nothing to what [search] finds: a text matches the
    compiled pattern exactly when it matches the pattern of the domain
    alone, anywhere in the text. The pattern is not tied to the end of the
    hostname either: with [hulu.com] excluded, [hulu.com.example.org] is
    excluded too. *)
Theorem exclusion_prefix_redundant (r : Re.regex) (hostname : string) :
  Re.search (Re.Cat exclusionpattern r) hostname = Re.search r hostname ∧
  ∀ S, excludeDomain defaults "hulu.com" = Some S →
       matchesExclusions S "0.0.0.0 hulu.com.example.org" = Some true.
Proof.
  split; [apply search_star_prefix|]. by intros S [= <-].
Qed.

(** X10. The exclusions read from the whitelist file: each is a line of the
    file without the blanks, tabs, carriage returns and newlines around it,
    none is empty and none starts with [#]. The empty text, which every
    line holds, is never an exclusion. *)
Theorem whitelist_entries (ins : list string) (e : string) :
  e ∈ whitelist ins ↔
  (∃ line, line ∈ ins ∧ e = Str.strip blankchar line) ∧
  Str.strip blankchar e = e ∧
  Str.is_empty e = false ∧
  Str.startswith e "#" = false.
Proof.
  unfold whitelist. rewrite list_elem_of_filter, list_elem_of_fmap.
  change (λ c : ascii, _) with blankchar. split.
  - intros [[He Hs] (line & -> & Hl)]. split_and!; [eauto| |done..].
    apply strip_idem.
  - intros ((line & Hl & ->) & _ & He & Hs). split; [done|eauto].
Qed.

(** ** Reading a record again *)

Section Reread.

Variable S : Settings.
Implicit Types (s t ip h r line : string) (c : ascii).

(** a character of a dotted quad or of a written hostname: neither a tab
    nor a colon *)
Lemma quadchar_plain c :
  Char.isdigit c || Ascii.eqb c "."%char = true →
  negb (Ascii.eqb c "009"%char) && negb (Ascii.eqb c ":"%char) = true.
Proof. destruct c as [[] [] [] [] [] [] [] []]; vm_compute; done. Qed.

Lemma hostlower_plain c :
  hostlower c = true →
  negb (Ascii.eqb c "009"%char) && negb (Ascii.eqb c ":"%char) = true.
Proof. destruct c as [[] [] [] [] [] [] [] []]; vm_compute; done. Qed.

Lemma digit_quadchar c :
  Char.isdigit c = true → Char.isdigit c || Ascii.eqb c "."%char = true.
Proof. by intros ->. Qed.

Lemma quadchar_not_space c :
  Char.isdigit c || Ascii.eqb c "."%char = true → negb (Char.isspace c) = true.
Proof. destruct c as [[] [] [] [] [] [] [] []]; vm_compute; done. Qed.

Lemma quad_chars ip :
  Re.matches RulePattern.quad_pattern ip →
  Str.forallb (λ c, Char.isdigit c || Ascii.eqb c "."%char) ip = true ∧
  ∃ c ip', ip = String c ip' ∧ Char.isdigit c = true.
Proof.
  intros (d1 & d2 & d3 & d4 & -> & HF)%matches_quad.
  apply Forall_cons in HF as [[H1 E1] HF]. apply Forall_cons in HF as [[H2 E2] HF].
  apply Forall_cons in HF as [[H3 E3] HF]. apply Forall_cons in HF as [[H4 E4] _].
  split.
  - rewrite !sforallb_app. simpl.
    rewrite !(forallb_impl _ _ _ digit_quadchar) by done. done.
  - destruct d1 as [|c d1]; [done|]. simpl in H1. apply andb_prop in H1 as [Hc _].
    rewrite sapp_cons. eauto.
Qed.

Lemma no_colon_no_loopback s :
  Str.forallb (λ c, negb (Ascii.eqb c ":"%char)) s = true →
  Str.contains s "::1" = false.
Proof.
  intros Hs. destruct (Str.contains s "::1") eqn:E; [|done].
  apply contains_occurs in E as (a & b & ->).
  rewrite !sforallb_app in Hs. simpl in Hs. by rewrite andb_false_r in Hs.
Qed.

(** a line made of a dotted quad, a space, a hostname as the pass writes
    them and a newline is a rule line of that hostname, when nothing is
    excluded; its address is replaced by the target address *)
Lemma classify_wellformed ip h :
  Re.matches RulePattern.quad_pattern ip →
  Str.is_empty h = false → Str.forallb hostlower h = true →
  exclusionregexs S = [] → exclusions S = [] →
  classify S (ip +:+ " " +:+ h +:+ String Char.nl EmptyString) =
  Candidate h (targetip S +:+ " " +:+ h +:+ String Char.nl EmptyString).
Proof.
  intros Hip Eh Hh Hre Hex.
  destruct (quad_chars ip Hip) as (Hq & c & ip' & Eip & Hc).
  set (line := ip +:+ " " +:+ h +:+ String Char.nl EmptyString).
  assert (Str.forallb (λ c, negb (Ascii.eqb c "009"%char) && negb (Ascii.eqb c ":"%char))
            (ip +:+ " " +:+ h) = true) as Hplain.
  { rewrite !sforallb_app. simpl.
    rewrite (forallb_impl _ _ _ quadchar_plain Hq).
    by rewrite (forallb_impl _ _ _ hostlower_plain Hh). }
  assert (trim line = ln line) as Ht.
  { assert (line = ln (ip +:+ " " +:+ h)) as -> by (unfold line, ln; by rewrite !sapp_assoc).
    rewrite trim_terminated. rewrite replace_no_tab; [done|].
    eapply forallb_impl; [|exact Hplain]. by intros ? [? _]%andb_prop. }
  assert (Str.nospace ip = true) as Nip.
  { eapply forallb_impl; [|exact Hq]. apply quadchar_not_space. }
  assert (Str.nospace h = true) as Nh.
  { eapply forallb_impl; [|exact Hh]. intros x Hx. by rewrite (hostlower_not_space x Hx). }
  assert (Str.is_empty ip = false) as Eip' by (by rewrite Eip).
  destruct (hostname_of_host h) as (Hl & _ & _);
    [eapply forallb_impl; [|exact Hh]; apply hostlower_hostchar|done|].
  assert (Str.strip Char.isspace (Str.lower h) = h) as Hid.
  { rewrite Hl. unfold Str.lower. eapply map_id_on; [|exact Hh]. apply lower_hostlower. }
  assert (Str.stops Char.isspace h = true) as Sh.
  { rewrite <- (sapp_nil_r h).
    apply (stops_apart hostlower); [apply hostlower_not_space|done..]. }
  assert (passThrough (trim line) = Some false) as P1.
  { rewrite Ht. unfold line. rewrite Eip. simpl.
    destruct c as [[] [] [] [] [] [] [] []]; done. }
  assert (Str.contains (trim line) "::1" = false) as P2.
  { rewrite Ht. apply no_colon_no_loopback. unfold line, ln.
    rewrite !sforallb_app. simpl.
    rewrite (forallb_impl _ (λ c, negb (Ascii.eqb c ":"%char)) ip
               (λ x Hx, proj2 (andb_prop _ _ (quadchar_plain x Hx))) Hq).
    by rewrite (forallb_impl _ (λ c, negb (Ascii.eqb c ":"%char)) h
               (λ x Hx, proj2 (andb_prop _ _ (hostlower_plain x Hx))) Hh). }
  assert (Str.split (trim line) = [ip; h]) as P3.
  { rewrite Ht. unfold line, ln, Str.split. rewrite !sapp_assoc.
    rewrite (split_go_nospace ip) by done. rewrite sapp_nil_l.
    change (" " +:+ ?x) with (String " "%char x).
    rewrite split_go_space by done. rewrite Eip'. unfold Str.split.
    rewrite (split_go_nospace h) by done. rewrite sapp_nil_l.
    rewrite !sapp_cons, !sapp_nil_l. simpl. by rewrite Eh. }
  assert (RulePattern.search (ip +:+ " " +:+ h) = Some (ip, h, EmptyString)) as P4.
  { apply matches_quad in Hip as (d1 & d2 & d3 & d4 & -> & HF).
    pose proof HF as HF'. apply Forall_cons in HF' as [[H1 E1] _].
    unfold RulePattern.search. rewrite lstrip_stops.
    2:{ rewrite !sapp_assoc. apply (stops_apart Char.isdigit); [apply digit_not_blank|done..]. }
    rewrite quad_eq by done. simpl.
    change (" " +:+ h) with (String " " EmptyString +:+ h).
    rewrite many1_eq by done. simpl.
    rewrite <- (sapp_nil_r h) at 1.
    rewrite many1_eq; [done| |done..].
    eapply forallb_impl; [|exact Hh]. apply hostlower_hostchar. }
  assert (whitelisted S (trim line) = false) as P5
    by (unfold whitelisted; by rewrite Hex).
  assert (existsb (λ re, Re.search re h) (exclusionregexs S) = false) as P6
    by (by rewrite Hre).
  pose proof (classify_rule S line ip h ip h [] P1 P2 P3 P6 P4 P5) as H.
  cbv zeta in H. by rewrite Hid in H.
Qed.

End Reread.

(** the hostname of a rule line is one the pass can read again *)
Lemma Candidate_hostname (S : Settings) (line h r : string) :
  classify S line = Candidate h r →
  Str.is_empty h = false ∧ Str.forallb hostlower h = true.
Proof.
  unfold classify. destruct (passThrough (trim line)) as [[]|]; try done.
  destruct (Str.contains (trim line) "::1"); [done|].
  destruct (if Str.is_empty (stripRule (trim line)) then Some true
            else matchesExclusions S (stripRule (trim line))) as [[]|]; try done.
  unfold normalizeRule.
  destruct (RulePattern.search (stripRule (trim line)))
    as [[[ip host] suffix]|] eqn:E; [|done].
  apply search_groups in E as (bl & ws & rest & _ & _ & _ & _ &
    [Hh Eh]%matches_plus_class & _).
  destruct (hostname_of_host host Hh Eh) as (_ & He & Hl).
  destruct (negb (Str.is_empty suffix) && keepdomaincomments S);
    destruct (_ && _); intros [= <- _]; done.
Qed.

(** X11. With no exclusion, the address of a well-formed rule line does not
    matter: a dotted quad, a space, a lower-case hostname and a newline is
    a rule line of that hostname whatever the quad, and the record it
    stands for carries the target address instead. *)
Theorem address_replaced (S : Settings) (ip1 ip2 h : string) :
  Re.matches RulePattern.quad_pattern ip1 →
  Re.matches RulePattern.quad_pattern ip2 →
  Str.is_empty h = false → Str.forallb hostlower h = true →
  exclusionregexs S = [] → exclusions S = [] →
  classify S (ip1 +:+ " " +:+ h +:+ String Char.nl EmptyString) =
    Candidate h (targetip S +:+ " " +:+ h +:+ String Char.nl EmptyString) ∧
  classify S (ip1 +:+ " " +:+ h +:+ String Char.nl EmptyString) =
    classify S (ip2 +:+ " " +:+ h +:+ String Char.nl EmptyString).
Proof.
  intros H1 H2 Eh Hh Hre Hex.
  pose proof (classify_wellformed S ip1 h H1 Eh Hh Hre Hex) as C1.
  pose proof (classify_wellformed S ip2 h H2 Eh Hh Hre Hex) as C2.
  split; [exact C1|]. by rewrite C1, C2.
Qed.

Lemma quad_example (a b c d : string) :
  Forall (λ x, Str.forallb Char.isdigit x = true ∧ Str.is_empty x = false) [a; b; c; d] →
  Re.matches RulePattern.quad_pattern (a +:+ "." +:+ b +:+ "." +:+ c +:+ "." +:+ d).
Proof. intros HF. apply matches_quad. by exists a, b, c, d. Qed.

Lemma address_replaced_witness :
  classify defaults (ln "127.0.0.1 a.com") = Candidate "a.com" (ln "0.0.0.0 a.com") ∧
  classify defaults (ln "127.0.0.1 a.com") = classify defaults (ln "10.20.30.40 a.com").
Proof.
  apply (address_replaced defaults "127.0.0.1" "10.20.30.40" "a.com");
    try reflexivity.
  - apply (quad_example "127" "0" "0" "1"). repeat constructor.
  - apply (quad_example "10" "20" "30" "40"). repeat constructor.
Defined.

(** X12. The pass reads its own records as it wrote them: when the target
    address is a dotted quad, nothing is excluded and comments are not
    kept, the record written for a hostname from a line of 7-bit text is
    itself a rule line of that hostname, and the record it stands for is
    the same record. *)
Theorem record_reread (S : Settings) (line h r : string) :
  isascii line = true →
  Re.matches RulePattern.quad_pattern (targetip S) →
  exclusionregexs S = [] → exclusions S = [] →
  keepdomaincomments S = false →
  classify S line = Candidate h r →
  classify S r = Candidate h r.
Proof.
  intros _ Hip Hre Hex Hk Hc.
  destruct (Candidate_hostname S line h r Hc) as [Eh Hh].
  destruct (Candidate_format S line h r Hc) as (suffix & _ & ->).
  rewrite Hk, orb_true_r, sapp_nil_l.
  by apply classify_wellformed.
Qed.

Lemma record_reread_witness :
  isascii (ln "127.0.0.1  Ads.Example.COM  # served by x") = true ∧
  classify defaults (ln "127.0.0.1  Ads.Example.COM  # served by x") =
    Candidate "ads.example.com" (ln "0.0.0.0 ads.example.com") ∧
  classify defaults (ln "0.0.0.0 ads.example.com") =
    Candidate "ads.example.com" (ln "0.0.0.0 ads.example.com").
Proof.
  assert (classify defaults (ln "127.0.0.1  Ads.Example.COM  # served by x") =
          Candidate "ads.example.com" (ln "0.0.0.0 ads.example.com")) as H
    by reflexivity.
  split; [reflexivity|]. split; [exact H|].
  apply (record_reread defaults (ln "127.0.0.1  Ads.Example.COM  # served by x") _ _
           eq_refl (quad_example "0" "0" "0" "0" ltac:(repeat constructor))
           eq_refl eq_refl eq_refl H).
Defined.

(** ** The extensions *)

(** X13. The extensions [main] keeps are the requested ones that are
    folders of the extensions folder, each once, in increasing order: a
    requested extension that is no folder is left out without a word, and
    the order and the repetitions of the request do not matter. *)
Theorem selectExtensions_spec (requested folders : list string) :
  StronglySorted String.le (selectExtensions requested folders) ∧
  NoDup (selectExtensions requested folders) ∧
  ∀ x, x ∈ selectExtensions requested folders ↔ x ∈ requested ∧ x ∈ folders.
Proof.
  unfold selectExtensions.
  set (l := elements (list_to_set requested ∩ list_to_set folders : gset string)).
  pose proof (merge_sort_Permutation String.le l) as HP.
  split_and!.
  - apply (StronglySorted_merge_sort _).
  - rewrite HP. apply NoDup_elements.
  - intros x. rewrite HP. unfold l.
    rewrite elem_of_elements, elem_of_intersection, !elem_of_list_to_set. done.
Qed.

Example selectExtensions_ex :
  selectExtensions ["social"; "gambling"; "nosuch"; "social"]
    ["fakenews"; "gambling"; "porn"; "social"] = ["gambling"; "social"].
Proof. vm_compute. reflexivity. Qed.

(** ** The domains typed by the user *)

Section Domains.

Import Re.
Implicit Types (r : regex) (s p q d : string) (c : ascii).

Lemma matches_alt_inv r1 r2 s : matches (Alt r1 r2) s ↔ matches r1 s ∨ matches r2 s.
Proof.
  split.
  - intros H. inversion H; subst; eauto.
  - intros [H|H]; [by apply m_alt_l|by apply m_alt_r].
Qed.

Lemma matches_eps_inv s : matches Eps s ↔ s = EmptyString.
Proof. split; [intros H; by inversion H|intros ->; constructor]. Qed.

(** [x?] for a class: nothing, or one character of the class *)
Lemma matches_opt_class f s :
  matches (opt (Class f)) s ↔ Str.forallb f s = true ∧ String.length s ≤ 1.
Proof.
  unfold opt. rewrite matches_alt_inv, matches_eps_inv, matches_class. split.
  - intros [->|(c & -> & Hc)]; simpl; [split; [done|lia]|].
    rewrite Hc. split; [done|lia].
  - destruct s as [|c [|c' s]]; simpl; [by left| |intros [_ ?]; lia].
    rewrite andb_true_r. intros [Hc _]. right. eauto.
Qed.

Lemma length_sapp s p : String.length (s +:+ p) = String.length s + String.length p.
Proof. induction s as [|c s IH]; [done|]. rewrite sapp_cons. simpl. by rewrite IH. Qed.

(** the texts the first branch of the pattern matches *)
Lemma matches_www s :
  matches (Cat (of_literal "www")
            (Cat (opt (Class Char.isdigit))
              (Cat (opt (Class Char.isdigit))
                (Cat (opt (Class Char.isdigit)) (Lit "."%char))))) s ↔
  ∃ ds, s = "www" +:+ ds +:+ "." ∧ Str.forallb Char.isdigit ds = true ∧
        String.length ds ≤ 3.
Proof.
  split.
  - intros H.
    apply matches_cat_inv in H as (? & ? & -> & ->%of_literal_eq & H).
    apply matches_cat_inv in H as (d1 & ? & -> & [H1 L1]%matches_opt_class & H).
    apply matches_cat_inv in H as (d2 & ? & -> & [H2 L2]%matches_opt_class & H).
    apply matches_cat_inv in H as (d3 & ? & -> & [H3 L3]%matches_opt_class & ->%matches_lit).
    exists (d1 +:+ d2 +:+ d3). split_and!.
    + by rewrite !sapp_assoc.
    + by rewrite !sforallb_app, H1, H2, H3.
    + rewrite !length_sapp. lia.
  - intros (ds & -> & Hd & Hl).
    assert (∃ d1 d2 d3, ds = d1 +:+ d2 +:+ d3 ∧
              String.length d1 ≤ 1 ∧ String.length d2 ≤ 1 ∧ String.length d3 ≤ 1)
      as (d1 & d2 & d3 & -> & L1 & L2 & L3).
    { destruct ds as [|a [|b [|c [|? ?]]]]; simpl in Hl; [| | | |lia].
      - exists EmptyString, EmptyString, EmptyString.
        split_and!; simpl; first [done|lia].
      - exists (String a EmptyString), EmptyString, EmptyString.
        split_and!; simpl; first [done|lia].
      - exists (String a EmptyString), (String b EmptyString), EmptyString.
        split_and!; simpl; first [done|lia].
      - exists (String a EmptyString), (String b EmptyString), (String c EmptyString).
        split_and!; simpl; first [done|lia]. }
    rewrite !sforallb_app in Hd. apply andb_prop in Hd as [H1 [H2 H3]%andb_prop].
    rewrite !sapp_assoc.
    constructor; [by apply of_literal_eq|].
    constructor; [by apply matches_opt_class|].
    constructor; [by apply matches_opt_class|].
    constructor; [by apply matches_opt_class|by apply matches_lit].
Qed.

Lemma matches_http s :
  matches (Cat (of_literal "http") (opt (Lit "s"%char))) s ↔ s = "http" ∨ s = "https".
Proof.
  rewrite matches_cat_inv. split.
  - intros (? & ? & -> & ->%of_literal_eq & H). unfold opt in H.
    apply matches_alt_inv in H as [->%matches_eps_inv| ->%matches_lit]; eauto.
  - intros [->| ->].
    + exists "http", EmptyString. split_and!; [done|by apply of_literal_eq|].
      apply m_alt_l. constructor.
    + exists "http", "s". split_and!; [done|by apply of_literal_eq|].
      apply m_alt_r. by apply matches_lit.
Qed.

End Domains.

(** X14. [isValidDomainFormat] refuses exactly the empty text, the texts
    that start with [http], and the texts that start with [www], at most
    three digits and a period. So a domain whose name starts with [http]
    (such as [httpbin.org]) cannot be excluded by hand, while one that
    starts with [www] and four digits can. *)
Theorem isValidDomainFormat_spec (domain : string) :
  (isValidDomainFormat domain).2 = false ↔
  domain = EmptyString ∨
  Str.startswith domain "http" = true ∨
  ∃ ds, Str.startswith domain ("www" +:+ ds +:+ ".") = true ∧
        Str.forallb Char.isdigit ds = true ∧ String.length ds ≤ 3.
Proof.
  unfold isValidDomainFormat, Str.startswith.
  destruct (Str.is_empty domain) eqn:Ee.
  { apply is_empty_true in Ee. simpl. split; [by left|done]. }
  assert (domain ≠ EmptyString) as Hne by (intros ->; done).
  assert (Re.match_here domainRegex domain = true ↔
          String.prefix "http" domain = true ∨
          ∃ ds, String.prefix ("www" +:+ ds +:+ ".") domain = true ∧
                Str.forallb Char.isdigit ds = true ∧ String.length ds ≤ 3) as Hm.
  { rewrite match_here_iff. unfold domainRegex. setoid_rewrite matches_alt_inv.
    setoid_rewrite matches_www. setoid_rewrite matches_http.
    setoid_rewrite prefix_iff. split.
    - intros (p & q & -> & [(ds & -> & Hd & Hl)|[->| ->]]).
      + right. exists ds. split; [by exists q|done].
      + left. by exists q.
      + left. exists ("s" +:+ q). reflexivity.
    - intros [[b ->]|(ds & [b ->] & Hd & Hl)].
      + exists "http", b. split; [done|]. right. by left.
      + exists ("www" +:+ ds +:+ "."), b. split; [done|]. left. by exists ds. }
  destruct (Re.match_here domainRegex domain) eqn:E; simpl.
  - split; [intros _; right; by apply Hm|done].
  - split; [done|]. intros [?|H]; [done|]. apply Hm in H. done.
Qed.

Example isValidDomainFormat_ex :
  (isValidDomainFormat "facebook.com").2 = true ∧
  (isValidDomainFormat "www.facebook.com").2 = false ∧
  (isValidDomainFormat "www123.facebook.com").2 = false ∧
  (isValidDomainFormat "www1234.facebook.com").2 = true ∧
  (isValidDomainFormat "httpbin.org").2 = false.
Proof. split_and!; reflexivity. Qed.

(** ** Questions *)

Section Questions.

Implicit Types (w : World) (default : option string) (line : string).

Lemma query_loop_answer shown default bad good reply rest out :
  Forall (λ l, reply_of default l = None) bad →
  reply_of default good = Some reply →
  query_loop shown default (bad ++ good :: rest) out =
  (Some reply, rest, out ++ asked shown (length bad)).
Proof.
  intros Hbad Hgood. revert out.
  induction Hbad as [|l bad Hl _ IH]; intros out; simpl.
  - unfold reply_of in Hgood. unfold asked. simpl.
    destruct (defaulted default (Str.lower good)); [by rewrite Hgood|].
    by rewrite Hgood.
  - unfold reply_of in Hl. destruct (defaulted default (Str.lower l)) eqn:Ed.
    + destruct default; done.
    + rewrite Hl. fold please. rewrite IH. unfold asked. simpl.
      by rewrite <- !app_assoc.
Qed.

Lemma query_loop_eof shown default input out :
  Forall (λ l, reply_of default l = None) input →
  query_loop shown default input out = (None, [], out ++ asked shown (length input)).
Proof.
  intros Hbad. revert out.
  induction Hbad as [|l bad Hl _ IH]; intros out; simpl; [done|].
  unfold reply_of in Hl. destruct (defaulted default (Str.lower l)) eqn:Ed.
  - destruct default; done.
  - rewrite Hl. fold please. rewrite IH. unfold asked. simpl.
    by rewrite <- !app_assoc.
Qed.

(** whatever is typed, [query_yes_no] only talks *)
Lemma query_loop_talks shown default input out :
  ∃ r input' out', query_loop shown default input out = (r, input', out') ∧
    input' `suffix_of` input ∧ out `prefix_of` out' ∧
    (r = None → input' = []).
Proof.
  revert out. induction input as [|l input IH]; intros out; simpl.
  - eexists _, _, _. split; [done|]. split_and!; [done|by eexists|done].
  - destruct (defaulted default (Str.lower l)) eqn:Ed.
    { eexists _, _, _. split; [done|]. split_and!.
      - by exists [l].
      - by eexists.
      - intros ->. simpl in Ed. done. }
    destruct (valid (Str.lower l)).
    { eexists _, _, _. split; [done|]. split_and!; [by exists [l]|by eexists|done]. }
    destruct (IH ((out ++ [shown]) ++ [ln (colorize
                (ln "Please respond with 'yes' or 'no' (or 'y' or 'n').") Colors.FAIL)]))
      as (r & i' & o' & -> & Hi & Ho & Hr).
    eexists _, _, _. split; [done|]. split_and!; [|..|done].
    + by apply suffix_cons_r.
    + etrans; [|exact Ho]. rewrite <- app_assoc. by eexists.
Qed.

Lemma query_yes_no_talks question default w :
  talksOnly w (world (query_yes_no question default w)) ∧
  ∀ w', query_yes_no question default w ≠ Raise OutOfFuel w'.
Proof.
  unfold query_yes_no. destruct (promptOf default) as [prompt|]; [|done].
  destruct (query_loop_talks (colorize question Colors.PROMPT +:+ prompt) default
              (stdin w) (written w)) as (r & i' & o' & -> & Hi & Ho & _).
  destruct r; simpl; split; done.
Qed.

End Questions.

(** X15. [query_yes_no] takes the first line typed that answers: a line
    that is [yes], [ye], [y], [no] or [n] in any case, or an empty line
    when there is a default. Every line before it gets the question and
    the request to answer yes or no; the lines after it are left unread;
    the files are not touched. *)
Theorem query_yes_no_first_answer (question : string) (default : option string)
    (prompt good reply : string) (bad rest : list string) (w : World) :
  promptOf default = Some prompt →
  stdin w = bad ++ good :: rest →
  Forall (λ l, reply_of default l = None) bad →
  reply_of default good = Some reply →
  query_yes_no question default w =
  Return (String.eqb reply "yes")
    (mkWorld rest
       (written w ++ asked (colorize question Colors.PROMPT +:+ prompt) (length bad))
       (actions w) (files w)).
Proof.
  intros Hp Hin Hbad Hgood. unfold query_yes_no. rewrite Hp, Hin.
  by rewrite (query_loop_answer _ _ _ _ _ _ _ Hbad Hgood).
Qed.

Lemma query_yes_no_first_answer_witness :
  let w := mkWorld ["maybe"; "YES"; "no"] [] [] ∅ in
  let shown := colorize "Go on?" Colors.PROMPT +:+ " [Y/n] " in
  query_yes_no "Go on?" (Some "yes") w =
  Return true (mkWorld ["no"] [shown; please; shown] [] ∅).
Proof.
  intros w shown.
  apply (query_yes_no_first_answer "Go on?" (Some "yes") " [Y/n] " "YES" "yes"
           ["maybe"] ["no"] w); try reflexivity.
  repeat constructor.
Defined.

(** X16. [query_yes_no] gives no answer that was not typed: when no line of
    the input answers, it asks once per line and once more, and then
    raises [EOFError] with the input used up. *)
Theorem query_yes_no_no_answer (question : string) (default : option string)
    (prompt : string) (w : World) :
  promptOf default = Some prompt →
  Forall (λ l, reply_of default l = None) (stdin w) →
  query_yes_no question default w =
  Raise EOFError
    (mkWorld []
       (written w ++ asked (colorize question Colors.PROMPT +:+ prompt)
                       (length (stdin w)))
       (actions w) (files w)).
Proof.
  intros Hp Hbad. unfold query_yes_no. rewrite Hp.
  by rewrite (query_loop_eof _ _ _ _ Hbad).
Qed.

Lemma query_yes_no_no_answer_witness :
  let w := mkWorld [EmptyString; "oui"] [] [] ∅ in
  let shown := colorize "Go on?" Colors.PROMPT +:+ " [y/n] " in
  query_yes_no "Go on?" None w =
  Raise EOFError (mkWorld [] [shown; please; shown; please; shown] [] ∅).
Proof.
  intros w shown.
  apply (query_yes_no_no_answer "Go on?" None " [y/n] " w); [reflexivity|].
  repeat constructor.
Defined.

(** ** Choosing exclusions *)

Section Choosing.

Implicit Types (S : Settings) (w : World).

Lemma talksOnly_refl w : talksOnly w w.
Proof. by split_and!. Qed.

Lemma talksOnly_trans w1 w2 w3 : talksOnly w1 w2 → talksOnly w2 w3 → talksOnly w1 w3.
Proof.
  intros (? & ? & ? & ?) (? & ? & ? & ?). split_and!; [by etrans..|congruence|congruence].
Qed.

Lemma talksOnly_put text w : talksOnly w (put text w).
Proof. split_and!; [done|by eexists|done..]. Qed.

Lemma talksOnly_puts out w :
  talksOnly w (fold_left (λ w text, put text w) out w) ∧
  stdin (fold_left (λ w text, put text w) out w) = stdin w.
Proof.
  revert w. induction out as [|text out IH]; intros w; simpl; [split; [apply talksOnly_refl|done]|].
  destruct (IH (put text w)) as [H1 H2]. split; [|by rewrite H2].
  eapply talksOnly_trans; [apply talksOnly_put|done].
Qed.

Lemma patternsAdded_refl S : patternsAdded S S.
Proof. exists []. rewrite app_nil_r. by destruct S. Qed.

Lemma patternsAdded_trans S1 S2 S3 :
  patternsAdded S1 S2 → patternsAdded S2 S3 → patternsAdded S1 S3.
Proof.
  intros [l1 ->] [l2 ->]. exists (l1 ++ l2). unfold set_exclusionregexs. simpl.
  by rewrite app_assoc.
Qed.

Lemma chooses_step S w S1 w1 r :
  patternsAdded S S1 → talksOnly w w1 → chooses S1 w1 r → chooses S w r.
Proof.
  intros HS Hw. destruct r as [S' w'|e w']; simpl; intros [H1 H2].
  - split; [by eapply patternsAdded_trans|by eapply talksOnly_trans].
  - split; [done|by eapply talksOnly_trans].
Qed.

Lemma excludeDomainIO_chooses S domain w : chooses S w (excludeDomainIO S domain w).
Proof.
  unfold excludeDomainIO, excludeDomain.
  destruct (Re.of_domain domain) as [r|]; simpl.
  - split; [by eexists|apply talksOnly_refl].
  - split; [done|apply talksOnly_refl].
Qed.

(** after a question, an exclusion prompt *)
Lemma chooses_query S w question default (k : bool → World → result Settings) :
  (∀ b w', talksOnly w w' → chooses S w' (k b w')) →
  chooses S w (andThen (query_yes_no question default w) k).
Proof.
  intros Hk. destruct (query_yes_no_talks question default w) as [Ht Hf].
  destruct (query_yes_no question default w) as [b w'|e w'] eqn:E; simpl in *.
  - eapply chooses_step; [apply patternsAdded_refl|exact Ht|by apply Hk].
  - split; [|done]. intros ->. by eapply Hf.
Qed.

Lemma gather_fuel fuel S w :
  length (stdin w) < fuel → chooses S w (gather_go fuel S w).
Proof.
  revert S w. induction fuel as [|fuel IH]; intros S w Hlen; [lia|].
  simpl. unfold raw_input.
  set (w0 := put "Enter the domain you want to exclude (e.g. facebook.com): " w).
  assert (talksOnly w w0) as H0 by apply talksOnly_put.
  change (stdin w0) with (stdin w). destruct (stdin w) as [|user_domain input] eqn:Ein; simpl.
  { done. }
  assert (talksOnly w (set_stdin input w0)) as H1.
  { split_and!; simpl; [rewrite Ein; by exists [user_domain]|by eexists|done..]. }
  destruct (isValidDomainFormat user_domain) as [out ok].
  destruct (talksOnly_puts out (set_stdin input w0)) as [H2 Hin2].
  set (w2 := fold_left (λ w text, put text w) out (set_stdin input w0)) in *.
  assert (talksOnly w w2) as H12 by (by eapply talksOnly_trans).
  assert (∀ S1 w3, patternsAdded S S1 → talksOnly w2 w3 →
            chooses S w
              (andThen (query_yes_no "Do you have more domains you want to enter?"
                          (Some "yes") w3)
                 (λ more w, if more then gather_go fuel S1 w else Return S1 w))) as Hrest.
  { intros S1 w3 HS H3.
    eapply chooses_step; [exact HS|by eapply talksOnly_trans|].
    apply chooses_query. intros b w4 H4. destruct b.
    - apply IH. destruct H4 as (Hs4 & _), H3 as (Hs3 & _).
      apply suffix_length in Hs4, Hs3. rewrite Hin2 in Hs3. simpl in *. lia.
    - split; [apply patternsAdded_refl|apply talksOnly_refl]. }
  destruct ok.
  - pose proof (excludeDomainIO_chooses S user_domain w2) as Hx.
    destruct (excludeDomainIO S user_domain w2) as [S1 w3|e w3]; simpl in *.
    + destruct Hx. by apply Hrest.
    + destruct Hx. split; [done|by eapply talksOnly_trans].
  - simpl. apply Hrest; [apply patternsAdded_refl|apply talksOnly_refl].
Qed.

Lemma offerExclusions_chooses options S w : chooses S w (offerExclusions options S w).
Proof.
  revert S w. induction options as [|o options IH]; intros S w; simpl.
  - split; [apply patternsAdded_refl|apply talksOnly_refl].
  - apply chooses_query. intros b w1 _. destruct b.
    + pose proof (excludeDomainIO_chooses S o w1) as Hx.
      destruct (excludeDomainIO S o w1) as [S1 w2|e w2]; simpl in *; [|done].
      destruct Hx. eapply chooses_step; [done..|apply IH].
    + simpl. apply IH.
Qed.

End Choosing.

(** X17. The prompts for exclusions ([promptForExclusions], with
    [displayExclusionOptions] and [gather_custom_exclusions]) only talk and
    only add patterns: whatever is typed, the settings returned are the
    settings given with patterns added at the end of [exclusionregexs]
    (the whitelist, the target address and the count are as they were), the
    lines read are taken from the front of the input, and no file is
    touched. The loop that asks for domains always ends: it returns, or
    raises when the input ends or a domain is no plain pattern. *)
Theorem promptForExclusions_chooses (O : Options) (S : Settings) (w : World) :
  match promptForExclusions O S w with
  | Return S' w' =>
      (∃ added, S' = set_exclusionregexs S (exclusionregexs S ++ added)) ∧
      stdin w' `suffix_of` stdin w ∧ written w `prefix_of` written w' ∧
      actions w' = actions w ∧ files w' = files w
  | Raise e w' =>
      e ≠ OutOfFuel ∧
      stdin w' `suffix_of` stdin w ∧ written w `prefix_of` written w' ∧
      actions w' = actions w ∧ files w' = files w
  end.
Proof.
  enough (chooses S w (promptForExclusions O S w)) as H.
  { destruct (promptForExclusions O S w); exact H. }
  unfold promptForExclusions. destruct (auto O).
  { split; [apply patternsAdded_refl|apply talksOnly_refl]. }
  apply chooses_query. intros b w1 _. destruct b.
  - unfold displayExclusionOptions.
    pose proof (offerExclusions_chooses (commonexclusions O) S w1) as Hx.
    destruct (offerExclusions (commonexclusions O) S w1) as [S1 w2|e w2]; simpl in *;
      [|done].
    destruct Hx. eapply chooses_step; [done..|].
    apply chooses_query. intros b w3 _. destruct b.
    + apply gather_fuel. lia.
    + split; [apply patternsAdded_refl|apply talksOnly_refl].
  - split; [apply patternsAdded_refl|apply talksOnly_put].
Qed.

(** the user takes the common exclusion, adds a domain that is refused and
    one that is accepted, and stops *)
Example promptForExclusions_ex :
  let O := mkOptions false true false false false ["hulu.com"] in
  ∃ S w,
    promptForExclusions O defaults
      (mkWorld [EmptyString; "y"; "yes"; "www.ads.com"; EmptyString; "ads.com"; "n"; "left"]
         [] [] ∅) = Return S w ∧
    stdin w = ["left"] ∧
    Some S = (excludeDomain defaults "hulu.com" ≫= λ S, excludeDomain S "ads.com").
Proof. eexists _, _. split; [vm_compute; reflexivity|]. split; reflexivity. Qed.

(** ** Moving the file and flushing the cache *)

Section Moving.

Implicit Types (O : Options) (S : Settings) (w : World).

Lemma flush_actions O w :
  ∃ k, k ≤ 2 ∧
    actions (world (promptForFlushDnsCache O w)) =
      actions w ++ replicate k FlushDnsCache ∧
    files (world (promptForFlushDnsCache O w)) = files w.
Proof.
  unfold promptForFlushDnsCache.
  set (w1 := if flushdnscache O then act FlushDnsCache w else w).
  assert (∃ k, k ≤ 1 ∧ actions w1 = actions w ++ replicate k FlushDnsCache ∧
                files w1 = files w) as (k & Hk & Ha & Hf).
  { unfold w1. destruct (flushdnscache O).
    - exists 1. split; [lia|done].
    - exists 0. split; [lia|]. simpl. by rewrite app_nil_r. }
  destruct (auto O); simpl.
  { exists k. split; [lia|done]. }
  destruct (query_yes_no_talks "Attempt to flush the DNS cache?" (Some "yes") w1)
    as [(_ & _ & Ha2 & Hf2) _].
  destruct (query_yes_no "Attempt to flush the DNS cache?" (Some "yes") w1)
    as [[] w2|e w2]; simpl in *.
  - exists (Datatypes.S k). split; [lia|]. rewrite Ha2, Ha, Hf2, Hf. split; [|done].
    rewrite <- app_assoc. f_equal. by rewrite replicate_S_end.
  - exists k. split; [lia|]. by rewrite Ha2, Ha, Hf2, Hf.
  - exists k. split; [lia|]. by rewrite Ha2, Ha, Hf2, Hf.
Qed.

End Moving.

(** X18. [promptForMove] never flushes the DNS cache without moving the
    file first, and moves it at most once: the calls it adds are none, or
    one move followed by at most two flushes. With [skipstatichosts] set it
    does nothing at all (no question, no move, whatever [replace] says) and
    returns [False]; with [replace] set and [skipstatichosts] not set it
    moves the file without asking. No file of the model is changed. *)
Theorem promptForMove_actions (O : Options) (S : Settings) (w : World) :
  files (world (promptForMove O S w)) = files w ∧
  (∃ l, actions (world (promptForMove O S w)) = actions w ++ l ∧
        (l = [] ∨ ∃ k, k ≤ 2 ∧ l = MoveHostsFile :: replicate k FlushDnsCache)) ∧
  (skipstatichosts S = true → promptForMove O S w = Return (Some false) w) ∧
  (replace O = true → skipstatichosts S = false →
     ∃ k, actions (world (promptForMove O S w)) =
          actions w ++ MoveHostsFile :: replicate k FlushDnsCache).
Proof.
  assert (∀ w1, actions w1 = actions w → files w1 = files w →
            let r := andThen (promptForFlushDnsCache O (act MoveHostsFile w1))
                       (λ _ w, Return (None : option bool) w) in
            files (world r) = files w ∧
            ∃ k, k ≤ 2 ∧
              actions (world r) = actions w ++ MoveHostsFile :: replicate k FlushDnsCache)
    as Hmove.
  { intros w1 Ha Hf r. unfold r.
    destruct (flush_actions O (act MoveHostsFile w1)) as (k & Hk & Ha' & Hf').
    destruct (promptForFlushDnsCache O (act MoveHostsFile w1)) as [[] w2|e w2];
      simpl in *; (split; [congruence|]); exists k; (split; [done|]);
      rewrite Ha', Ha, <- app_assoc; done. }
  unfold promptForMove.
  destruct (replace O) eqn:Er, (skipstatichosts S) eqn:Es, (auto O) eqn:Ea; simpl;
    try (split_and!; [done|exists []; split; [by rewrite app_nil_r|by left]|done|done]).
  - destruct (Hmove w eq_refl eq_refl) as (Hf & k & Hk & Ha).
    split_and!; [done|eexists; split; [exact Ha|right; eauto]|done|eauto].
  - destruct (Hmove w eq_refl eq_refl) as (Hf & k & Hk & Ha).
    split_and!; [done|eexists; split; [exact Ha|right; eauto]|done|eauto].
  - destruct (query_yes_no_talks
      "Do you want to replace your existing hosts file with the newly generated file?"
      (Some "yes") w) as [(_ & _ & Ha2 & Hf2) _].
    destruct (query_yes_no _ (Some "yes") w) as [[] w1|e w1]; simpl in *.
    + destruct (Hmove w1 Ha2 Hf2) as (Hf & k & Hk & Ha).
      split_and!; [done|eexists; split; [exact Ha|right; eauto]|done|done].
    + split_and!; [done|exists []; split; [by rewrite app_nil_r, Ha2|by left]|done|done].
    + split_and!; [done|exists []; split; [by rewrite app_nil_r, Ha2|by left]|done|done].
Qed.

(** X19. [promptForFlushDnsCache] can flush twice: with [flushdnscache] set
    and [auto] not set, the cache is flushed at once, the user is asked all
    the same, and a yes flushes it a second time. *)
Theorem flush_twice (O : Options) (w : World) (line : string) (rest : list string) :
  flushdnscache O = true → auto O = false →
  stdin w = line :: rest →
  reply_of (Some "yes") line = Some "yes" →
  ∃ w', promptForFlushDnsCache O w = Return tt w' ∧
        actions w' = actions w ++ [FlushDnsCache; FlushDnsCache] ∧
        stdin w' = rest.
Proof.
  intros Hf Ha Hin Hr. unfold promptForFlushDnsCache, query_yes_no.
  rewrite Hf, Ha. simpl. rewrite Hin.
  rewrite (query_loop_answer _ (Some "yes") [] line "yes" rest _ (Forall_nil_2 _) Hr).
  simpl. eexists. split; [done|]. simpl. by rewrite <- app_assoc.
Qed.

Lemma flush_twice_witness :
  let O := mkOptions false true true false true [] in
  ∃ w', promptForFlushDnsCache O (mkWorld ["Y"] [] [MoveHostsFile] ∅) = Return tt w' ∧
        actions w' = [MoveHostsFile] ++ [FlushDnsCache; FlushDnsCache] ∧
        stdin w' = [].
Proof.
  intros O.
  apply (flush_twice O (mkWorld ["Y"] [] [MoveHostsFile] ∅) "Y" []); reflexivity.
Defined.

(** ** Updating the sources *)

Section Updating.

Variable net : string → option string.
Implicit Types (w : World) (found : list (string * gmap string string)).

Lemma remove_cr_clean s :
  Str.forallb (λ c, negb (Ascii.eqb c "013"%char)) (remove_cr s) = true.
Proof.
  induction s as [|c s IH]; simpl; [done|].
  destruct (Ascii.eqb c "013"%char) eqn:E; simpl; [done|]. by rewrite E, IH.
Qed.

Lemma remove_cr_id s :
  Str.forallb (λ c, negb (Ascii.eqb c "013"%char)) s = true → remove_cr s = s.
Proof.
  induction s as [|c s IH]; simpl; [done|].
  intros [Hc%negb_true_iff Hs]%andb_prop. by rewrite Hc, IH.
Qed.

Lemma updateAllSources_cons dir data found w url :
  data !! "url" = Some url →
  updateAllSources net ((dir, data) :: found) w =
  updateAllSources net found
    (let w0 := say ("Updating source " +:+ dir +:+ " from " +:+ url) w in
     match net url with
     | Some updatedFile =>
         set_files (<[hostsPath dir := remove_cr updatedFile]> (files w0)) w0
     | None => say "Skipping." (say ("Problem getting file:  " +:+ url) w0)
     end).
Proof. intros H. simpl. rewrite H. by destruct (net url). Qed.

(** the files after the sources were all read *)
Lemma updateAllSources_files found w :
  Forall (λ source, is_Some (source.2 !! "url")) found →
  ∃ w', updateAllSources net found w = Return tt w' ∧
    stdin w' = stdin w ∧ actions w' = actions w ∧
    (∀ path, path ∉ (λ source, hostsPath source.1) <$> found →
             files w' !! path = files w !! path) ∧
    (NoDup ((λ source, hostsPath source.1) <$> found) →
     ∀ dir data url, (dir, data) ∈ found → data !! "url" = Some url →
       files w' !! hostsPath dir =
       match net url with
       | Some updatedFile => Some (remove_cr updatedFile)
       | None => files w !! hostsPath dir
       end).
Proof.
  intros HF. revert w. induction HF as [|[dir data] found [url Hurl] _ IH]; intros w.
  - exists w. simpl. split_and!; try done. intros _ ? ? ? H. by apply not_elem_of_nil in H.
  - simpl in Hurl. rewrite (updateAllSources_cons dir data found w url Hurl).
    set (w0 := say ("Updating source " +:+ dir +:+ " from " +:+ url) w).
    set (w1 := match net url with
               | Some updatedFile =>
                   set_files (<[hostsPath dir := remove_cr updatedFile]> (files w0)) w0
               | None => say "Skipping." (say ("Problem getting file:  " +:+ url) w0)
               end).
    assert (stdin w1 = stdin w ∧ actions w1 = actions w ∧
            files w1 !! hostsPath dir =
              match net url with
              | Some updatedFile => Some (remove_cr updatedFile)
              | None => files w !! hostsPath dir
              end ∧
            ∀ path, path ≠ hostsPath dir → files w1 !! path = files w !! path)
      as (Hin & Hact & Hhere & Hother).
    { unfold w1. destruct (net url); simpl; split_and!; try done.
      - by rewrite lookup_insert_eq.
      - intros path Hne. by rewrite lookup_insert_ne. }
    destruct (IH w1) as (w' & -> & Hin' & Hact' & Hfar & Hnear).
    exists w'. split_and!; [done|congruence|congruence| |].
    + intros path Hp. rewrite fmap_cons, not_elem_of_cons in Hp. destruct Hp as [Hne Hp].
      rewrite (Hfar _ Hp). by apply Hother.
    + intros Hnd d' data' url' Hel Hurl'. rewrite fmap_cons in Hnd.
      apply NoDup_cons in Hnd as [Hfresh Hnd]. simpl in Hfresh.
      apply elem_of_cons in Hel as [[= -> ->]|Hel].
      * rewrite (Hfar _ Hfresh). rewrite Hurl in Hurl'. injection Hurl' as <-. exact Hhere.
      * rewrite (Hnear Hnd _ _ _ Hel Hurl').
        destruct (net url'); [done|]. apply Hother. intros Heq. apply Hfresh.
        rewrite <- Heq. apply list_elem_of_fmap. by exists (d', data').
Qed.

End Updating.

(** X20. [updateAllSources], when every [update.json] has a [url]: the
    hosts file of a source that was fetched is the download without its
    carriage returns; the hosts file of a source that could not be fetched
    is left as it was; no other file is touched, nothing is read from the
    user. (Each source has a hosts file of its own.) *)
Theorem updateAllSources_spec (net : string → option string)
    (found : list (string * gmap string string)) (w : World) :
  Forall (λ source, is_Some (source.2 !! "url")) found →
  NoDup ((λ source, hostsPath source.1) <$> found) →
  ∃ w', updateAllSources net found w = Return tt w' ∧
    stdin w' = stdin w ∧ actions w' = actions w ∧
    (∀ path, path ∉ (λ source, hostsPath source.1) <$> found →
             files w' !! path = files w !! path) ∧
    (∀ dir data url, (dir, data) ∈ found → data !! "url" = Some url →
       match net url with
       | Some updatedFile =>
           ∃ text, files w' !! hostsPath dir = Some text ∧
                   text = remove_cr updatedFile ∧
                   Str.forallb (λ c, negb (Ascii.eqb c "013"%char)) text = true
       | None => files w' !! hostsPath dir = files w !! hostsPath dir
       end).
Proof.
  intros HF Hnd.
  destruct (updateAllSources_files net found w HF) as (w' & Hr & Hin & Hact & Hfar & Hnear).
  exists w'. split_and!; try done.
  intros dir data url Hel Hurl. pose proof (Hnear Hnd _ _ _ Hel Hurl) as H.
  destruct (net url) as [t|]; [|done].
  exists (remove_cr t). split_and!; [done..|apply remove_cr_clean].
Qed.

Lemma updateAllSources_spec_witness :
  let net := λ url : string,
    if String.eqb url "http://a/hosts" then Some ("0.0.0.0 a.com" +:+ String "013" (ln EmptyString))
    else None in
  let found := [("data/a", {[ "url" := "http://a/hosts" ]} : gmap string string);
                ("data/b", {[ "url" := "http://b/hosts" ]} : gmap string string)] in
  let w := mkWorld [] [] [] {[ "data/b/hosts" := ln "0.0.0.0 old.com" ]} in
  ∃ w', updateAllSources net found w = Return tt w' ∧
    files w' !! "data/a/hosts" = Some (ln "0.0.0.0 a.com") ∧
    files w' !! "data/b/hosts" = Some (ln "0.0.0.0 old.com").
Proof.
  intros net found w.
  destruct (updateAllSources_spec net found w) as (w' & Hr & _ & _ & _ & Hnear).
  - repeat constructor; simpl; by eexists.
  - vm_compute. apply NoDup_cons. split; [|apply NoDup_singleton].
    intros H%list_elem_of_singleton. discriminate.
  - exists w'. split; [exact Hr|]. split.
    + destruct (Hnear "data/a" _ "http://a/hosts" ltac:(left) eq_refl)
        as (text & Ht & -> & _). exact Ht.
    + exact (Hnear "data/b" _ "http://b/hosts" ltac:(right; left) eq_refl).
Defined.

(** X21. [updateAllSources] is not all or nothing: when an [update.json]
    has no [url], the [KeyError] stops the update there; the sources in
    front of it have been updated, those behind it are not looked at. *)
Theorem updateAllSources_KeyError (net : string → option string)
    (pre post : list (string * gmap string string)) (dir : string)
    (data : gmap string string) (w : World) :
  Forall (λ source, is_Some (source.2 !! "url")) pre →
  data !! "url" = None →
  ∃ w1, updateAllSources net pre w = Return tt w1 ∧
        updateAllSources net (pre ++ (dir, data) :: post) w = Raise (KeyError "url") w1.
Proof.
  intros HF Hd. revert w. induction HF as [|[d0 data0] pre [url Hurl] _ IH]; intros w.
  - exists w. simpl. by rewrite Hd.
  - simpl in Hurl. rewrite <- app_comm_cons.
    rewrite !(updateAllSources_cons net d0 data0 _ w url Hurl). apply IH.
Qed.

Lemma updateAllSources_KeyError_witness :
  let net := λ url : string, Some (ln url) in
  let w := mkWorld [] [] [] ∅ in
  ∃ w1,
    updateAllSources net [("data/a", {[ "url" := "u" ]} : gmap string string)] w =
      Return tt w1 ∧
    updateAllSources net
      ([("data/a", {[ "url" := "u" ]} : gmap string string)] ++
       ("data/b", ∅) :: [("data/c", {[ "url" := "v" ]} : gmap string string)]) w =
      Raise (KeyError "url") w1.
Proof.
  intros net w.
  apply (updateAllSources_KeyError net
           [("data/a", {[ "url" := "u" ]} : gmap string string)]
           [("data/c", {[ "url" := "v" ]} : gmap string string)] "data/b" ∅ w).
  - repeat constructor. simpl. by eexists.
  - reflexivity.
Defined.

(** ** The old hosts file *)

(** X22. [removeOldHostsFile] leaves an empty [hosts] file, whether there
    was one or not. With [backup] set, the bytes the file had (none if
    there was no file) are under the backup name, which is never the name
    of the hosts file itself; every other file is as it was. *)
Theorem removeOldHostsFile_spec (O : Options) (now : string)
    (f : gmap string string) :
  removeOldHostsFile O now f !! "hosts" = Some EmptyString ∧
  "hosts-" +:+ now ≠ "hosts" ∧
  (backup O = true →
     removeOldHostsFile O now f !! ("hosts-" +:+ now) =
       Some (default EmptyString (f !! "hosts"))) ∧
  (∀ path, path ≠ "hosts" → (backup O = true → path ≠ "hosts-" +:+ now) →
           removeOldHostsFile O now f !! path = f !! path).
Proof.
  assert ("hosts-" +:+ now ≠ "hosts") as Hne by (intros [=]).
  unfold removeOldHostsFile.
  set (f1 := match f !! "hosts" with
             | Some _ => f
             | None => <["hosts" := EmptyString]> f
             end).
  assert (default EmptyString (f1 !! "hosts") = default EmptyString (f !! "hosts")) as H1.
  { unfold f1. destruct (f !! "hosts") eqn:E; [by rewrite E|].
    by rewrite lookup_insert_eq. }
  assert (∀ path, path ≠ "hosts" → f1 !! path = f !! path) as H1'.
  { intros path Hp. unfold f1. destruct (f !! "hosts"); [done|].
    by rewrite lookup_insert_ne. }
  split_and!.
  - by rewrite lookup_insert_eq.
  - done.
  - intros ->. rewrite lookup_insert_ne, lookup_delete_ne, lookup_insert_eq by done.
    by rewrite H1.
  - intros path Hp Hb. rewrite lookup_insert_ne, lookup_delete_ne by done.
    destruct (backup O); [|by apply H1'].
    rewrite lookup_insert_ne by (apply not_eq_sym; by apply Hb). by apply H1'.
Qed.

(** ** Files are kept *)

Lemma updateAllSources_dom (net : string → option string)
    (found : list (string * gmap string string)) (w : World) :
  dom (files w) ⊆ dom (files (world (updateAllSources net found w))) ∧
  actions (world (updateAllSources net found w)) = actions w ∧
  stdin (world (updateAllSources net found w)) = stdin w.
Proof.
  revert w. induction found as [|[dir data] found IH]; intros w; [done|].
  destruct (data !! "url") as [url|] eqn:Hurl.
  - rewrite (updateAllSources_cons net dir data found w url Hurl).
    match goal with |- context [updateAllSources net found ?x] =>
      destruct (IH x) as (Hd & Ha & Hi); rewrite Ha, Hi;
      split_and!; [etrans; [|exact Hd]|..] end.
    + destruct (net url); simpl; [|done]. rewrite dom_insert. set_solver.
    + by destruct (net url).
    + by destruct (net url).
  - simpl. rewrite Hurl. done.
Qed.

(** X23. [promptForUpdate] removes no file and calls neither the move nor
    the flush, even when it ends with an exception. When there is a
    [hosts] file in the base folder, or one can be created, there is one
    afterwards. With [freshen] not set (the option [--noupdate]) it asks
    nothing and changes no other file; it prints nothing, except that when
    the [hosts] file is not there and cannot be created it prints the
    failure and leaves the files as they are. *)
Theorem promptForUpdate_keeps_files (O : Options) (net : string → option string)
    (found : list (string * gmap string string)) (created : bool) (w : World) :
  let w' := world (promptForUpdate O net found created w) in
  dom (files w) ⊆ dom (files w') ∧
  actions w' = actions w ∧
  (is_Some (files w !! "hosts") ∨ created = true → "hosts" ∈ dom (files w')) ∧
  (freshen O = false →
     stdin w' = stdin w ∧
     (∀ path, path ≠ "hosts" → files w' !! path = files w !! path) ∧
     (is_Some (files w !! "hosts") ∨ created = true → written w' = written w) ∧
     (files w !! "hosts" = None → created = false →
        files w' = files w ∧
        written w' = written w ++
          [ln (colorize "ERROR: No 'hosts' file in the folder,try creating one manually"
                 Colors.FAIL)])).
Proof.
  intros w'. unfold w', promptForUpdate. clear w'.
  set (w1 := match files w !! "hosts" with
             | Some _ => w
             | None =>
                 if created
                 then set_files (<["hosts" := EmptyString]> (files w)) w
                 else printFailure
                        "ERROR: No 'hosts' file in the folder,try creating one manually" w
             end).
  assert (dom (files w) ⊆ dom (files w1) ∧
          actions w1 = actions w ∧ stdin w1 = stdin w ∧
          (∀ path, path ≠ "hosts" → files w1 !! path = files w !! path) ∧
          (is_Some (files w !! "hosts") ∨ created = true →
             "hosts" ∈ dom (files w1) ∧ written w1 = written w) ∧
          (files w !! "hosts" = None → created = false →
             files w1 = files w ∧
             written w1 = written w ++
               [ln (colorize
                      "ERROR: No 'hosts' file in the folder,try creating one manually"
                      Colors.FAIL)]))
    as (Hd & Ha & Hi & Hf & Hh & Hfail).
  { unfold w1. destruct (files w !! "hosts") eqn:E.
    - split_and!; try done. intros _. split; [|done]. apply elem_of_dom. by rewrite E.
    - destruct created; simpl.
      + rewrite dom_insert. split_and!; try done; [set_solver| |].
        * intros path Hp. by rewrite lookup_insert_ne.
        * intros _. split; [set_solver|done].
      + split_and!; try done. intros [[? H]|H]; discriminate. }
  destruct (freshen O); simpl.
  2:{ split_and!; try done.
      - intros H. by apply Hh in H as [? ?].
      - intros _. split_and!; try done. intros H. by apply Hh in H as [? ?]. }
  assert (∀ w2, dom (files w1) ⊆ dom (files w2) → actions w2 = actions w1 →
            let r := updateAllSources net found w2 in
            dom (files w) ⊆ dom (files (world r)) ∧
            actions (world r) = actions w ∧
            (is_Some (files w !! "hosts") ∨ created = true →
               "hosts" ∈ dom (files (world r)))) as Hup.
  { intros w2 Hd2 Ha2 r. unfold r.
    destruct (updateAllSources_dom net found w2) as (Hd3 & Ha3 & _).
    split_and!; [set_solver|congruence|].
    intros H. apply Hh in H as [H _]. set_solver. }
  destruct (auto O); simpl.
  { destruct (Hup w1) as (? & ? & ?); done. }
  destruct (query_yes_no_talks "Do you want to update all data sources?" (Some "yes") w1)
    as [(_ & _ & Ha2 & Hf2) _].
  destruct (query_yes_no _ (Some "yes") w1) as [[] w2|e w2]; simpl in *.
  - destruct (Hup w2) as (? & ? & ?); [by rewrite Hf2|done|]. done.
  - rewrite Hf2, Ha2. split_and!; try done. intros H. by apply Hh in H as [? ?].
  - rewrite Hf2, Ha2. split_and!; try done. intros H. by apply Hh in H as [? ?].
Qed.

(** ** The count in the header *)

(** X24. The header written over the body names the number of records of
    the body: after a pass that starts from the count 0, the header holds
    the line of the count with the number of records written, in groups of
    three digits, and the file is the header followed by the body as the
    pass left it. *)
Theorem header_count (S : Settings) (H : Header.Host)
    (whitelistfile : option (list string)) (mergeFile : string) :
  numberofrules S = 0%Z →
  ∃ S' st,
    removeDupsAndExcl S whitelistfile mergeFile = Some (S', st) ∧
    ("# Number of unique domains: " +:+
     ln (Header.commas (Z.of_nat (length (records (finalFile st))))) +:+ ln "#")
      ∈ Header.header S' H ∧
    Header.writeOpeningHeader S' H (finalFile st) =
      cat (Header.header S' H) +:+ contents (finalFile st).
Proof.
  intros H0. unfold removeDupsAndExcl. set (S1 := loadWhitelist S whitelistfile).
  assert (numberofrules S1 = 0%Z) as H1
    by (unfold S1, loadWhitelist; by destruct whitelistfile).
  destruct (mergeLines_total S1 (Str.readlines mergeFile) (init S1)) as [st Hst].
  rewrite Hst. eexists _, st. split; [reflexivity|].
  destruct (consistent_mergeLines S1 _ _ _ _ (consistent_init S1) Hst)
    as (_ & _ & _ & Hcount).
  rewrite H1, Z.add_0_l in Hcount. split.
  - unfold Header.header. simpl. rewrite Hcount.
    do 3 apply list_elem_of_further. apply elem_of_app. right.
    apply list_elem_of_here.
  - unfold Header.writeOpeningHeader, cat.
    generalize (Header.header (set_numberofrules S1 (numberOfRules st)) H).
    intros l. induction l as [|x l IH]; simpl; [done|]. by rewrite IH, sapp_assoc.
Qed.

Lemma header_count_witness :
  ∃ S' st,
    removeDupsAndExcl defaults None (ln "0.0.0.0 a.com" +:+ ln "0.0.0.0 b.com") =
      Some (S', st) ∧
    ("# Number of unique domains: " +:+
     ln (Header.commas (Z.of_nat (length (records (finalFile st))))) +:+ ln "#")
      ∈ Header.header S' (Header.mkHost "November 05 2026" None None) ∧
    Header.writeOpeningHeader S' (Header.mkHost "November 05 2026" None None)
      (finalFile st) =
      cat (Header.header S' (Header.mkHost "November 05 2026" None None)) +:+
      contents (finalFile st).
Proof.
  apply (header_count defaults (Header.mkHost "November 05 2026" None None) None
           (ln "0.0.0.0 a.com" +:+ ln "0.0.0.0 b.com")).
  reflexivity.
Defined.
